(** * Approval workflow and timetable scheduling of the academic backend

    A shallow embedding of the FastAPI routers [faculty], [hod], [admin],
    [student] and [institution]: the store is explicit state, each route is a
    function from a store to a new store and an HTTP result. *)

From stdpp Require Import gmap strings list fin_maps pretty sorting.
From Stdlib Require Import ZArith QArith.

Local Open Scope string_scope.
Local Open Scope list_scope.
Local Open Scope Z_scope.

(** ** HTTP results and the authenticated principal *)

(** A route either returns [success_response(data=...)] or raises
    [HTTPException(status_code, detail)]. *)
Inductive HttpResult (A : Type) : Type :=
| Success (data : A)
| HTTPException (status_code : Z) (detail : string).
Arguments Success {A} data.
Arguments HTTPException {A} status_code detail.

Definition is_success {A} (r : HttpResult A) : bool :=
  match r with Success _ => true | HTTPException _ _ => false end.

Definition bind {A B} (r : HttpResult A) (k : A → HttpResult B) : HttpResult B :=
  match r with
  | Success a => k a
  | HTTPException c d => HTTPException c d
  end.

(** The dict produced by [get_current_user]; the key ["user_id"] is always
    present there, so [user.get("user_id", user.get("uid"))] is [user_id]. *)
Record User := mkUser {
  role : string;
  tenant_id : option string;
  user_id : string
}.

(** [require_role(allowed_roles)] of [app/core/security.py]. *)
Definition require_role (allowed_roles : list string) (user : User) : HttpResult User :=
  if decide (role user ∈ allowed_roles) then Success user
  else HTTPException 403 "Role not authorized".

(** Python truthiness of an optional string: [None] and [""] are falsy. *)
Definition truthy (s : option string) : bool :=
  match s with
  | Some v => bool_decide (v ≠ "")
  | None => false
  end.

(** [get_tenant_id] of [app/core/middleware.py]. *)
Definition get_tenant_id (user : User) : HttpResult (option string) :=
  if decide (role user = "super_admin") then Success (tenant_id user)
  else if truthy (tenant_id user) then Success (tenant_id user)
  else HTTPException 403 "No tenant context. User not assigned to an institution.".

(** The store filter [.eq(column, value)] on a nullable column: a NULL never
    matches. *)
Definition sql_eq (column value : option string) : bool :=
  match column, value with
  | Some c, Some v => bool_decide (c = v)
  | _, _ => false
  end.

(** ** Rows of the store *)

Record OdRequest := mkOdRequest {
  od_tenant_id : option string;
  od_student_id : string;
  od_subject_id : string;
  od_date : string;
  od_end_date : option string;
  od_reason : string;
  od_type : string;
  od_document_url : option string;
  od_status : string;
  od_faculty_action_by : option string;
  od_faculty_action_at : option string;
  od_hod_action_by : option string;
  od_hod_action_at : option string;
  od_rejection_reason : option string
}.

Record BatchStudent := mkBatchStudent {
  bs_tenant_id : option string;
  bs_student_id : string;
  bs_faculty_advisor_id : option string
}.

Record StudentEnrollment := mkStudentEnrollment {
  en_tenant_id : option string;
  en_student_id : string;
  en_program_id : option string;
  en_semester_number : option Z
}.

Record Subject := mkSubject {
  sub_id : string;
  sub_tenant_id : option string;
  sub_program_id : string;
  sub_semester : Z
}.

(** [marks] is a float in the source; the workflow only stores it. *)
Record InternalMark := mkInternalMark {
  im_tenant_id : option string;
  im_subject_id : string;
  im_student_id : string;
  im_marks : Q;
  im_max_marks : Z;
  im_status : string;
  im_submitted_by : option string;
  im_approved_by : option string;
  im_approved_at : option string;
  im_locked_by : option string;
  im_locked_at : option string
}.

Record Batch := mkBatch {
  b_tenant_id : option string;
  b_program_id : string;
  b_semester : option Z
}.

(** [hours_per_week] as the row dict has it: the key may be absent, or
    present with a NULL, or present with a number.  The select of
    [generate_timetable] names the column, so the rows it reads hold a NULL
    or a number. *)
Inductive HoursField :=
| HoursAbsent
| HoursNull
| HoursValue (h : Z).

Record FacultyAssignment := mkFacultyAssignment {
  fa_tenant_id : option string;
  fa_faculty_id : string;
  fa_subject_id : string;
  fa_hours_per_week : HoursField
}.

Record PeriodTemplate := mkPeriodTemplate {
  pt_tenant_id : option string;
  pt_period_number : Z;
  pt_start_time : string;
  pt_end_time : string;
  pt_is_break : bool
}.

Record Classroom := mkClassroom {
  room_id : string;
  room_tenant_id : option string;
  room_capacity : Z;
  room_is_available : bool
}.

Record TimetableSlot := mkTimetableSlot {
  ts_tenant_id : option string;
  ts_batch_id : string;
  ts_subject_id : string;
  ts_faculty_id : string;
  ts_classroom_id : option string;
  ts_day_of_week : Z;
  ts_period_number : Z;
  ts_start_time : string;
  ts_end_time : string;
  ts_slot_type : string
}.

(** The tables the two engines read and write.  Tables with a primary key
    that the routes address ([od_requests], [batches]) are maps from the id;
    the others are lists in storage order. *)
Record Db := mkDb {
  od_requests : gmap string OdRequest;
  batch_students : list BatchStudent;
  student_enrollments : list StudentEnrollment;
  subjects : list Subject;
  internal_marks : list InternalMark;
  batches : gmap string Batch;
  faculty_assignments : list FacultyAssignment;
  period_templates : list PeriodTemplate;
  classrooms : list Classroom;
  timetable_slots : list TimetableSlot
}.

Definition set_od_requests (db : Db) (m : gmap string OdRequest) : Db :=
  mkDb m (batch_students db) (student_enrollments db) (subjects db)
       (internal_marks db) (batches db) (faculty_assignments db)
       (period_templates db) (classrooms db) (timetable_slots db).

Definition set_internal_marks (db : Db) (l : list InternalMark) : Db :=
  mkDb (od_requests db) (batch_students db) (student_enrollments db) (subjects db)
       l (batches db) (faculty_assignments db)
       (period_templates db) (classrooms db) (timetable_slots db).

Definition set_timetable_slots (db : Db) (l : list TimetableSlot) : Db :=
  mkDb (od_requests db) (batch_students db) (student_enrollments db) (subjects db)
       (internal_marks db) (batches db) (faculty_assignments db)
       (period_templates db) (classrooms db) l.

(** ** Generic store operations on list tables *)

(** [.update(f).<filters p>.execute()]: the new table and [result.data],
    the rows that were updated. *)
Definition update_where {A} (p : A → bool) (f : A → A) (rows : list A)
  : list A * list A :=
  (fmap (λ r, if p r then f r else r) rows, fmap f (filter (λ r, p r = true) rows)).

(** [.delete().<filters p>.execute()]. *)
Definition delete_where {A} (p : A → bool) (rows : list A) : list A :=
  filter (λ r, p r = false) rows.

(** [.select(...).<filters p>.execute()]. *)
Definition select_where {A} (p : A → bool) (rows : list A) : list A :=
  filter (λ r, p r = true) rows.

(** ** On-Duty requests *)

Module OD.

Record ODApply := mkODApply {
  oa_subject_id : string;
  oa_date : string;
  oa_end_date : option string;
  oa_reason : string;
  oa_od_type : string;
  oa_document_url : option string
}.

Record ODAction := mkODAction {
  action : string;
  rejection_reason : option string
}.

(** [initial_status] of [apply_od]. *)
Definition initial_status (od_type : string) : string :=
  if decide (od_type ∈ ["special"; "medical"]) then "pending_hod" else "pending_faculty".

(** The subject auto-fill of [apply_od]: [None] stands for the 400 raised
    when the institution has no subject at all. *)
Definition resolve_subject (db : Db) (tenant : option string) (uid : string)
    (subject_id : string) : option string :=
  if decide (subject_id ≠ "") then Some subject_id
  else
    let enrollments :=
      select_where (λ e, sql_eq (en_tenant_id e) tenant
                         && bool_decide (en_student_id e = uid))
                   (student_enrollments db) in
    let from_enrollment :=
      match enrollments with
      | ext :: _ =>
          match en_program_id ext, en_semester_number ext with
          | Some prog, Some sem_num =>
              if bool_decide (prog ≠ "") && bool_decide (sem_num ≠ 0) then
                match select_where (λ s, sql_eq (sub_tenant_id s) tenant
                                         && bool_decide (sub_program_id s = prog)
                                         && bool_decide (sub_semester s = sem_num))
                                   (subjects db) with
                | s :: _ => sub_id s
                | [] => ""
                end
              else ""
          | _, _ => ""
          end
      | [] => ""
      end in
    if decide (from_enrollment ≠ "") then Some from_enrollment
    else
      match select_where (λ s, sql_eq (sub_tenant_id s) tenant) (subjects db) with
      | s :: _ => Some (sub_id s)
      | [] => None
      end.

(** [POST /api/student/od/apply].  [new_id] is the primary key the store
    generates for the inserted row; an id already taken makes the insert
    raise. *)
Definition apply_od (new_id : string) (body : ODApply) (user : User) (db : Db)
  : Db * HttpResult (list (string * OdRequest)) :=
  match require_role ["student"] user with
  | HTTPException c d => (db, HTTPException c d)
  | Success user =>
  match get_tenant_id user with
  | HTTPException c d => (db, HTTPException c d)
  | Success tenant =>
  match resolve_subject db tenant (user_id user) (oa_subject_id body) with
  | None => (db, HTTPException 400 "System Error: No subjects exist in the institution.")
  | Some subject_id =>
      let data :=
        {| od_tenant_id := tenant;
           od_student_id := user_id user;
           od_subject_id := subject_id;
           od_date := oa_date body;
           od_end_date := oa_end_date body;
           od_reason := oa_reason body;
           od_type := oa_od_type body;
           od_document_url := oa_document_url body;
           od_status := initial_status (oa_od_type body);
           od_faculty_action_by := None;
           od_faculty_action_at := None;
           od_hod_action_by := None;
           od_hod_action_at := None;
           od_rejection_reason := None |} in
      match od_requests db !! new_id with
      | Some _ => (db, HTTPException 500 "duplicate key")
      | None => (set_od_requests db (<[new_id := data]> (od_requests db)),
                 Success [(new_id, data)])
      end
  end end end.

(** The [update_data] dicts of the two action routes, applied to a row. *)
Definition faculty_update (act : string) (uid now : string) (reason : option string)
    (r : OdRequest) : option OdRequest :=
  if decide (act = "approve") then
    Some {| od_tenant_id := od_tenant_id r; od_student_id := od_student_id r;
            od_subject_id := od_subject_id r; od_date := od_date r;
            od_end_date := od_end_date r; od_reason := od_reason r;
            od_type := od_type r; od_document_url := od_document_url r;
            od_status := "pending_hod";
            od_faculty_action_by := Some uid;
            od_faculty_action_at := Some now;
            od_hod_action_by := od_hod_action_by r;
            od_hod_action_at := od_hod_action_at r;
            od_rejection_reason := od_rejection_reason r |}
  else if decide (act = "reject") then
    Some {| od_tenant_id := od_tenant_id r; od_student_id := od_student_id r;
            od_subject_id := od_subject_id r; od_date := od_date r;
            od_end_date := od_end_date r; od_reason := od_reason r;
            od_type := od_type r; od_document_url := od_document_url r;
            od_status := "rejected";
            od_faculty_action_by := Some uid;
            od_faculty_action_at := Some now;
            od_hod_action_by := od_hod_action_by r;
            od_hod_action_at := od_hod_action_at r;
            od_rejection_reason := reason |}
  else None.

Definition hod_update (act : string) (uid now : string) (reason : option string)
    (r : OdRequest) : option OdRequest :=
  if decide (act = "approve") then
    Some {| od_tenant_id := od_tenant_id r; od_student_id := od_student_id r;
            od_subject_id := od_subject_id r; od_date := od_date r;
            od_end_date := od_end_date r; od_reason := od_reason r;
            od_type := od_type r; od_document_url := od_document_url r;
            od_status := "approved";
            od_faculty_action_by := od_faculty_action_by r;
            od_faculty_action_at := od_faculty_action_at r;
            od_hod_action_by := Some uid;
            od_hod_action_at := Some now;
            od_rejection_reason := od_rejection_reason r |}
  else if decide (act = "reject") then
    Some {| od_tenant_id := od_tenant_id r; od_student_id := od_student_id r;
            od_subject_id := od_subject_id r; od_date := od_date r;
            od_end_date := od_end_date r; od_reason := od_reason r;
            od_type := od_type r; od_document_url := od_document_url r;
            od_status := "rejected";
            od_faculty_action_by := od_faculty_action_by r;
            od_faculty_action_at := od_faculty_action_at r;
            od_hod_action_by := Some uid;
            od_hod_action_at := Some now;
            od_rejection_reason := reason |}
  else None.

(** [.update(update_data).eq("id", od_id).eq("tenant_id", tenant_id)
     .eq("status", required).execute()] on [od_requests]. *)
Definition update_od (od_id : string) (tenant : option string) (required : string)
    (upd : OdRequest → OdRequest) (db : Db) : Db * list (string * OdRequest) :=
  match od_requests db !! od_id with
  | Some r =>
      if sql_eq (od_tenant_id r) tenant && bool_decide (od_status r = required)
      then (set_od_requests db (<[od_id := upd r]> (od_requests db)), [(od_id, upd r)])
      else (db, [])
  | None => (db, [])
  end.

(** The shared body of the two action routes: role guard, tenant, the
    [if/elif/else] on [body.action], then the conditional update. *)
Definition od_action (allowed : list string) (required : string)
    (update : string → string → string → option string → OdRequest → option OdRequest)
    (od_id : string) (body : ODAction) (user : User) (now : string) (db : Db)
  : Db * HttpResult (list (string * OdRequest)) :=
  match require_role allowed user with
  | HTTPException c d => (db, HTTPException c d)
  | Success user =>
  match get_tenant_id user with
  | HTTPException c d => (db, HTTPException c d)
  | Success tenant =>
      if decide (action body = "approve" ∨ action body = "reject") then
        let upd r :=
          default r (update (action body) (user_id user) now (rejection_reason body) r) in
        let '(db', data) := update_od od_id tenant required upd db in
        (db', Success data)
      else (db, HTTPException 400 "Invalid action")
  end end.

(** [PATCH /api/faculty/od/{od_id}/action]. *)
Definition faculty_od_action := od_action ["faculty"] "pending_faculty" faculty_update.

(** [PATCH /api/hod/od/{od_id}/action]. *)
Definition hod_od_action := od_action ["hod"] "pending_hod" hod_update.

(** The advisee relation: the [batch_students] query of [get_pending_od]. *)
Definition advisee_ids (db : Db) (tenant : option string) (faculty : string) : list string :=
  fmap bs_student_id
      (select_where (λ s, sql_eq (bs_tenant_id s) tenant
                          && sql_eq (bs_faculty_advisor_id s) (Some faculty))
                    (batch_students db)).

(** [GET /api/faculty/od/pending]: pending requests of the caller's advisees. *)
Definition get_pending_od (user : User) (db : Db) : HttpResult (list (string * OdRequest)) :=
  bind (require_role ["faculty"] user) (λ user,
  bind (get_tenant_id user) (λ tenant,
    let student_ids := advisee_ids db tenant (user_id user) in
    match student_ids with
    | [] => Success []
    | _ =>
        Success (filter (λ kv, sql_eq (od_tenant_id kv.2) tenant = true
                               ∧ od_status kv.2 = "pending_faculty"
                               ∧ od_student_id kv.2 ∈ student_ids)
                        (map_to_list (od_requests db)))
    end)).

End OD.

(** ** Internal marks *)

Module Marks.

Record MarkEntry := mkMarkEntry {
  me_student_id : string;
  me_marks : Q;
  me_max_marks : Z
}.

Record MarksSubmit := mkMarksSubmit {
  ms_subject_id : string;
  ms_entries : list MarkEntry
}.

(** One element of [records] in [submit_marks]: the columns the upsert
    writes. *)
Record MarkRecord := mkMarkRecord {
  mr_tenant_id : option string;
  mr_subject_id : string;
  mr_student_id : string;
  mr_marks : Q;
  mr_max_marks : Z;
  mr_status : string;
  mr_submitted_by : string
}.

(** The conflict target ["tenant_id,subject_id,student_id"]. *)
Definition conflicts (rec : MarkRecord) (r : InternalMark) : bool :=
  sql_eq (im_tenant_id r) (mr_tenant_id rec)
  && bool_decide (im_subject_id r = mr_subject_id rec)
  && bool_decide (im_student_id r = mr_student_id rec).

(** On conflict the written columns are overwritten and the other columns of
    the stored row are kept. *)
Definition overwrite (rec : MarkRecord) (r : InternalMark) : InternalMark :=
  {| im_tenant_id := mr_tenant_id rec;
     im_subject_id := mr_subject_id rec;
     im_student_id := mr_student_id rec;
     im_marks := mr_marks rec;
     im_max_marks := mr_max_marks rec;
     im_status := mr_status rec;
     im_submitted_by := Some (mr_submitted_by rec);
     im_approved_by := im_approved_by r;
     im_approved_at := im_approved_at r;
     im_locked_by := im_locked_by r;
     im_locked_at := im_locked_at r |}.

Definition fresh_row (rec : MarkRecord) : InternalMark :=
  {| im_tenant_id := mr_tenant_id rec;
     im_subject_id := mr_subject_id rec;
     im_student_id := mr_student_id rec;
     im_marks := mr_marks rec;
     im_max_marks := mr_max_marks rec;
     im_status := mr_status rec;
     im_submitted_by := Some (mr_submitted_by rec);
     im_approved_by := None;
     im_approved_at := None;
     im_locked_by := None;
     im_locked_at := None |}.

(** Upsert of one record: the table after it and the row written. *)
Fixpoint upsert_one (rec : MarkRecord) (rows : list InternalMark)
  : list InternalMark * InternalMark :=
  match rows with
  | [] => ([fresh_row rec], fresh_row rec)
  | r :: rows' =>
      if conflicts rec r then (overwrite rec r :: rows', overwrite rec r)
      else let '(rows'', w) := upsert_one rec rows' in (r :: rows'', w)
  end.

(** [.upsert(records, on_conflict=...)], record by record. *)
Fixpoint upsert (records : list MarkRecord) (rows : list InternalMark)
  : list InternalMark * list InternalMark :=
  match records with
  | [] => (rows, [])
  | rec :: records' =>
      let '(rows1, w) := upsert_one rec rows in
      let '(rows2, ws) := upsert records' rows1 in
      (rows2, w :: ws)
  end.

(** The response data of [submit_marks]: [{"count": len(result.data)}]. *)
Record SubmitCount := mkSubmitCount {
  count : nat
}.

(** [POST /api/faculty/marks/submit]; [data] is [result.data], the rows the
    upsert wrote, of which the response carries the number. *)
Definition submit_marks (body : MarksSubmit) (user : User) (db : Db)
  : Db * HttpResult SubmitCount :=
  match require_role ["faculty"] user with
  | HTTPException c d => (db, HTTPException c d)
  | Success user =>
  match get_tenant_id user with
  | HTTPException c d => (db, HTTPException c d)
  | Success tenant =>
      let records :=
        fmap (λ entry,
               {| mr_tenant_id := tenant;
                  mr_subject_id := ms_subject_id body;
                  mr_student_id := me_student_id entry;
                  mr_marks := me_marks entry;
                  mr_max_marks := me_max_marks entry;
                  mr_status := "submitted";
                  mr_submitted_by := user_id user |})
            (ms_entries body) in
      let '(rows, data) := upsert records (internal_marks db) in
      (set_internal_marks db rows, Success {| count := length data |})
  end end.

(** The filter [.eq("tenant_id", t).eq("subject_id", s).eq("status", st)]. *)
Definition in_scope (tenant : option string) (subject_id status : string)
    (r : InternalMark) : bool :=
  sql_eq (im_tenant_id r) tenant
  && bool_decide (im_subject_id r = subject_id)
  && bool_decide (im_status r = status).

Definition set_approved (uid now : string) (r : InternalMark) : InternalMark :=
  {| im_tenant_id := im_tenant_id r; im_subject_id := im_subject_id r;
     im_student_id := im_student_id r; im_marks := im_marks r;
     im_max_marks := im_max_marks r;
     im_status := "approved";
     im_submitted_by := im_submitted_by r;
     im_approved_by := Some uid;
     im_approved_at := Some now;
     im_locked_by := im_locked_by r;
     im_locked_at := im_locked_at r |}.

Definition set_draft (r : InternalMark) : InternalMark :=
  {| im_tenant_id := im_tenant_id r; im_subject_id := im_subject_id r;
     im_student_id := im_student_id r; im_marks := im_marks r;
     im_max_marks := im_max_marks r;
     im_status := "draft";
     im_submitted_by := im_submitted_by r;
     im_approved_by := im_approved_by r;
     im_approved_at := im_approved_at r;
     im_locked_by := im_locked_by r;
     im_locked_at := im_locked_at r |}.

Definition set_locked (uid now : string) (r : InternalMark) : InternalMark :=
  {| im_tenant_id := im_tenant_id r; im_subject_id := im_subject_id r;
     im_student_id := im_student_id r; im_marks := im_marks r;
     im_max_marks := im_max_marks r;
     im_status := "locked";
     im_submitted_by := im_submitted_by r;
     im_approved_by := im_approved_by r;
     im_approved_at := im_approved_at r;
     im_locked_by := Some uid;
     im_locked_at := Some now |}.

(** [PATCH /api/hod/marks/{subject_id}/action]; [act] is [body.action]. *)
Definition approve_marks (subject_id : string) (act : string) (user : User)
    (now : string) (db : Db) : Db * HttpResult (list InternalMark) :=
  match require_role ["hod"; "admin"] user with
  | HTTPException c d => (db, HTTPException c d)
  | Success user =>
  match get_tenant_id user with
  | HTTPException c d => (db, HTTPException c d)
  | Success tenant =>
      let update_data :=
        if decide (act = "approve") then Some (set_approved (user_id user) now)
        else if decide (act = "reject") then Some set_draft
        else None in
      match update_data with
      | None => (db, HTTPException 400 "Invalid action")
      | Some upd =>
          let '(rows, data) :=
            update_where (in_scope tenant subject_id "submitted") upd (internal_marks db) in
          (set_internal_marks db rows, Success data)
      end
  end end.

(** [POST /api/admin/marks/lock/{subject_id}]. *)
Definition lock_marks (subject_id : string) (user : User) (now : string) (db : Db)
  : Db * HttpResult (list InternalMark) :=
  match require_role ["admin"] user with
  | HTTPException c d => (db, HTTPException c d)
  | Success user =>
  match get_tenant_id user with
  | HTTPException c d => (db, HTTPException c d)
  | Success tenant =>
      let '(rows, data) :=
        update_where (in_scope tenant subject_id "approved")
                     (set_locked (user_id user) now) (internal_marks db) in
      (set_internal_marks db rows, Success data)
  end end.

End Marks.

(** ** Timetable generation *)

Module Timetable.

Record TimetableGenerate := mkTimetableGenerate {
  batch_id : string;
  force_regenerate : bool
}.

Record GenerateResult := mkGenerateResult {
  allocated_slots : nat;
  total_assignments : nat;
  slots : list TimetableSlot
}.

(** The f-string [f"{who}-{day}-{pnum}"] used as a dict key. *)
Definition occ_key (who : string) (day pnum : Z) : string :=
  who +:+ "-" +:+ pretty day +:+ "-" +:+ pretty pnum.

(** The three dicts [faculty_occupied], [room_occupied], [batch_occupied];
    every stored value is [True], so each dict is the set of its keys. *)
Record Occupancy := mkOccupancy {
  faculty_occupied : gset string;
  room_occupied : gset string;
  batch_occupied : gset string
}.

(** One iteration of [for s in existing.data]. *)
Definition mark_existing (occ : Occupancy) (s : TimetableSlot) : Occupancy :=
  let day := ts_day_of_week s in
  let pnum := ts_period_number s in
  {| faculty_occupied := {[occ_key (ts_faculty_id s) day pnum]} ∪ faculty_occupied occ;
     room_occupied :=
       match ts_classroom_id s with
       | Some r => if decide (r ≠ "") then {[occ_key r day pnum]} ∪ room_occupied occ
                   else room_occupied occ
       | None => room_occupied occ
       end;
     batch_occupied := {[occ_key (ts_batch_id s) day pnum]} ∪ batch_occupied occ |}.

Definition index_existing (existing : list TimetableSlot) : Occupancy :=
  foldl mark_existing (mkOccupancy ∅ ∅ ∅) existing.

(** [for room in rooms.data: ... break]: the first room free at the cell. *)
Fixpoint find_room (rooms : list Classroom) (occupied : gset string) (day pnum : Z)
  : option string :=
  match rooms with
  | [] => None
  | room :: rooms' =>
      if decide (occ_key (room_id room) day pnum ∉ occupied) then Some (room_id room)
      else find_room rooms' occupied day pnum
  end.

(** [asgn.get("hours_per_week", 4)]: the default applies to an absent key; a
    NULL is returned as [None], on which [allocated >= hrs_needed] raises. *)
Definition hrs_needed (asgn : FacultyAssignment) : option Z :=
  match fa_hours_per_week asgn with
  | HoursAbsent => Some 4
  | HoursNull => None
  | HoursValue h => Some h
  end.

Definition days : list Z := [1; 2; 3; 4; 5; 6].

(** The state one run threads through its loops: the stored table, the
    occupancy dicts and [created_slots]. *)
Record Run := mkRun {
  table : list TimetableSlot;
  occ : Occupancy;
  created_slots : list TimetableSlot
}.

Section Generation.

(** The store's verdict on [insert(slot_data)] against the current table:
    [true] when the insert raises (the uniqueness constraints live in the
    database schema). *)
Variable insert_raises : list TimetableSlot → TimetableSlot → bool.

Variable tenant : option string.
Variable batch : string.
Variable rooms : list Classroom.

Definition slot_data (asgn : FacultyAssignment) (day : Z) (period : PeriodTemplate)
    (room : option string) : TimetableSlot :=
  {| ts_tenant_id := tenant;
     ts_batch_id := batch;
     ts_subject_id := fa_subject_id asgn;
     ts_faculty_id := fa_faculty_id asgn;
     ts_classroom_id := room;
     ts_day_of_week := day;
     ts_period_number := pt_period_number period;
     ts_start_time := pt_start_time period;
     ts_end_time := pt_end_time period;
     ts_slot_type := "lecture" |}.

(** The body of [for period in periods] after the break test. *)
Definition period_body (asgn : FacultyAssignment) (day : Z) (period : PeriodTemplate)
    (st : Run) (allocated : Z) : Run * Z :=
  let pnum := pt_period_number period in
  let fid := fa_faculty_id asgn in
  let key_f := occ_key fid day pnum in
  let key_b := occ_key batch day pnum in
  if decide (key_f ∈ faculty_occupied (occ st) ∨ key_b ∈ batch_occupied (occ st)) then
    (st, allocated)
  else
    let room := find_room rooms (room_occupied (occ st)) day pnum in
    let s := slot_data asgn day period room in
    if insert_raises (table st) s then (st, allocated)
    else
      ({| table := table st ++ [s];
          occ :=
            {| faculty_occupied := {[key_f]} ∪ faculty_occupied (occ st);
               room_occupied :=
                 match room with
                 | Some r => if decide (r ≠ "")
                             then {[occ_key r day pnum]} ∪ room_occupied (occ st)
                             else room_occupied (occ st)
                 | None => room_occupied (occ st)
                 end;
               batch_occupied := {[key_b]} ∪ batch_occupied (occ st) |};
          created_slots := created_slots st ++ [s] |},
       allocated + 1).

Fixpoint period_loop (asgn : FacultyAssignment) (hrs : Z) (day : Z)
    (periods : list PeriodTemplate) (st : Run) (allocated : Z) : Run * Z :=
  match periods with
  | [] => (st, allocated)
  | period :: periods' =>
      if decide (hrs ≤ allocated) then (st, allocated)
      else
        let '(st', allocated') := period_body asgn day period st allocated in
        period_loop asgn hrs day periods' st' allocated'
  end.

Fixpoint day_loop (asgn : FacultyAssignment) (hrs : Z) (ds : list Z)
    (periods : list PeriodTemplate) (st : Run) (allocated : Z) : Run * Z :=
  match ds with
  | [] => (st, allocated)
  | day :: ds' =>
      if decide (hrs ≤ allocated) then (st, allocated)
      else
        let '(st', allocated') := period_loop asgn hrs day periods st allocated in
        day_loop asgn hrs ds' periods st' allocated'
  end.

(** [for asgn in assignments.data]; [false] in the result reports the
    [TypeError] of comparing with a NULL [hours_per_week]. *)
Fixpoint assignment_loop (assignments : list FacultyAssignment)
    (periods : list PeriodTemplate) (st : Run) : Run * bool :=
  match assignments with
  | [] => (st, true)
  | asgn :: assignments' =>
      match hrs_needed asgn with
      | None => (st, false)
      | Some hrs =>
          let '(st', _) := day_loop asgn hrs days periods st 0 in
          assignment_loop assignments' periods st'
      end
  end.

End Generation.

(** The queries of [generate_timetable]. *)
Definition query_subjects (db : Db) (tenant : option string) (semester : Z) : list Subject :=
  select_where (λ s, sql_eq (sub_tenant_id s) tenant && bool_decide (sub_semester s = semester))
               (subjects db).

(** The subjects query with the semester as the batch row has it.  The
    batch is selected with [*], so its [semester] key is always there and
    [batch.data.get("semester", 1)] returns a NULL as [None], not as 1; the
    filter [.eq("semester", None)] then matches no subject. *)
Definition query_semester_subjects (db : Db) (tenant : option string)
    (semester : option Z) : list Subject :=
  match semester with
  | Some n => query_subjects db tenant n
  | None => []
  end.

Definition query_assignments (db : Db) (tenant : option string) (subject_ids : list string)
  : list FacultyAssignment :=
  select_where (λ a, sql_eq (fa_tenant_id a) tenant
                     && bool_decide (fa_subject_id a ∈ subject_ids))
               (faculty_assignments db).

Definition by_period_number (p q : PeriodTemplate) : Prop :=
  pt_period_number p ≤ pt_period_number q.

Definition by_capacity_desc (r q : Classroom) : Prop :=
  room_capacity q ≤ room_capacity r.

Global Instance by_period_number_dec p q : Decision (by_period_number p q).
Proof. unfold by_period_number. apply _. Defined.

Global Instance by_capacity_desc_dec r q : Decision (by_capacity_desc r q).
Proof. unfold by_capacity_desc. apply _. Defined.

Definition query_periods (db : Db) (tenant : option string) : list PeriodTemplate :=
  let own :=
    merge_sort by_period_number
      (select_where (λ p, sql_eq (pt_tenant_id p) tenant && negb (pt_is_break p))
                    (period_templates db)) in
  match own with
  | [] => merge_sort by_period_number
            (select_where (λ p, negb (pt_is_break p)) (period_templates db))
  | _ => own
  end.

Definition query_rooms (db : Db) (tenant : option string) : list Classroom :=
  merge_sort by_capacity_desc
    (select_where (λ r, sql_eq (room_tenant_id r) tenant && room_is_available r)
                  (classrooms db)).

Definition query_existing (db : Db) (tenant : option string) : list TimetableSlot :=
  select_where (λ s, sql_eq (ts_tenant_id s) tenant) (timetable_slots db).

(** [batches ... .eq("id", batch_id).eq("tenant_id", tenant_id).maybe_single()]. *)
Definition query_batch (db : Db) (tenant : option string) (id : string) : option Batch :=
  match batches db !! id with
  | Some b => if sql_eq (b_tenant_id b) tenant then Some b else None
  | None => None
  end.

(** The store after the optional wipe of the batch's slots. *)
Definition clear_existing (body : TimetableGenerate) (tenant : option string) (db : Db) : Db :=
  if force_regenerate body then
    set_timetable_slots db
      (delete_where (λ s, sql_eq (ts_tenant_id s) tenant
                          && bool_decide (ts_batch_id s = batch_id body))
                    (timetable_slots db))
  else db.

(** [POST /api/institution/timetable/generate]. *)
Definition generate_timetable (insert_raises : list TimetableSlot → TimetableSlot → bool)
    (body : TimetableGenerate) (user : User) (db : Db) : Db * HttpResult GenerateResult :=
  match require_role ["admin"] user with
  | HTTPException c d => (db, HTTPException c d)
  | Success user =>
  match get_tenant_id user with
  | HTTPException c d => (db, HTTPException c d)
  | Success tenant =>
  match query_batch db tenant (batch_id body) with
  | None => (db, HTTPException 404 "Batch not found")
  | Some b =>
      let semester := b_semester b in
      let db := clear_existing body tenant db in
      let subject_ids := fmap sub_id (query_semester_subjects db tenant semester) in
      match subject_ids with
      | [] => (db, HTTPException 400 "No subjects found for this batch's semester")
      | _ =>
          let assignments := query_assignments db tenant subject_ids in
          let periods := query_periods db tenant in
          match periods with
          | [] => (db, HTTPException 400 "No period templates set up")
          | _ =>
              let rooms := query_rooms db tenant in
              let existing := query_existing db tenant in
              let st0 := mkRun (timetable_slots db) (index_existing existing) [] in
              let '(st, ok) :=
                assignment_loop insert_raises tenant (batch_id body) rooms
                                assignments periods st0 in
              let db' := set_timetable_slots db (table st) in
              if ok then
                (db', Success {| allocated_slots := length (created_slots st);
                                 total_assignments := length assignments;
                                 slots := created_slots st |})
              else (db', HTTPException 500 "TypeError")
          end
      end
  end end end.

End Timetable.

Import OD Marks Timetable.

(** ** Concrete stores used to exercise the routes *)

Module Sample.

Definition faculty_f1 : User := mkUser "faculty" (Some "t1") "f1".
Definition faculty_f2 : User := mkUser "faculty" (Some "t1") "f2".
Definition hod_h1 : User := mkUser "hod" (Some "t1") "h1".
Definition admin_a1 : User := mkUser "admin" (Some "t1") "a1".
Definition student_s1 : User := mkUser "student" (Some "t1") "s1".

Definition empty_db : Db := mkDb ∅ [] [] [] [] ∅ [] [] [] [].

Definition request (status : string) : OdRequest :=
  {| od_tenant_id := Some "t1"; od_student_id := "s1"; od_subject_id := "sub1";
     od_date := "2024-03-01"; od_end_date := None; od_reason := "symposium";
     od_type := "normal"; od_document_url := None; od_status := status;
     od_faculty_action_by := None; od_faculty_action_at := None;
     od_hod_action_by := None; od_hod_action_at := None;
     od_rejection_reason := None |}.

(** Student [s1] is an advisee of [f1] only; [od1] is their pending request. *)
Definition od_db (status : string) : Db :=
  mkDb {[ "od1" := request status ]}
       [mkBatchStudent (Some "t1") "s1" (Some "f1")]
       [] [mkSubject "sub1" (Some "t1") "p1" 3] [] ∅ [] [] [] [].

Definition mark (student status : string) (m : Q) : InternalMark :=
  {| im_tenant_id := Some "t1"; im_subject_id := "sub1"; im_student_id := student;
     im_marks := m; im_max_marks := 50; im_status := status;
     im_submitted_by := Some "f1"; im_approved_by := None; im_approved_at := None;
     im_locked_by := None; im_locked_at := None |}.

Definition marks_db (rows : list InternalMark) : Db :=
  mkDb ∅ [] [] [] rows ∅ [] [] [] [].

(** A tenant with one batch [b1] (program [p1], semester 3), one subject of
    that semester that belongs to another program [p2], one assignment of
    4 hours a week, six periods and two classrooms. *)
Definition period (n : Z) : PeriodTemplate :=
  mkPeriodTemplate (Some "t1") n "09:00" "09:50" false.

Definition tt_store (subs : list Subject) (templates : list PeriodTemplate)
    (existing : list TimetableSlot) : Db :=
  mkDb ∅ [] [] subs []
       {[ "b1" := mkBatch (Some "t1") "p1" (Some 3) ]}
       [mkFacultyAssignment (Some "t1") "f1" "s2" (HoursValue 4)]
       templates
       [mkClassroom "r1" (Some "t1") 30 true; mkClassroom "r2" (Some "t1") 60 true]
       existing.

Definition six_periods : list PeriodTemplate :=
  [period 3; period 1; period 2; period 6; period 5; period 4;
   mkPeriodTemplate (Some "t1") 7 "12:00" "13:00" true].

Definition tt_db (existing : list TimetableSlot) : Db :=
  tt_store [mkSubject "s2" (Some "t1") "p2" 3] six_periods existing.

(** A slot of another batch [b2] held by [f1] in room [r2], Monday period 1. *)
Definition other_slot : TimetableSlot :=
  mkTimetableSlot (Some "t1") "b2" "s9" "f1" (Some "r2") 1 1 "09:00" "09:50" "lecture".

(** A slot of batch [b1] itself, Tuesday period 2. *)
Definition own_slot : TimetableSlot :=
  mkTimetableSlot (Some "t1") "b1" "s2" "f3" None 2 2 "09:00" "09:50" "lecture".

Definition never_raises (_ : list TimetableSlot) (_ : TimetableSlot) : bool := false.

(** The tenant of [tt_db] with an empty slot table and the
    [hours_per_week] of its assignment as given: batch [b1] is of program
    [p1], the only subject [s2] of its semester is of program [p2]. *)
Definition tt_hours_db (hours : HoursField) : Db :=
  mkDb ∅ [] [] [mkSubject "s2" (Some "t1") "p2" 3] []
       {[ "b1" := mkBatch (Some "t1") "p1" (Some 3) ]}
       [mkFacultyAssignment (Some "t1") "f1" "s2" hours]
       six_periods
       [mkClassroom "r1" (Some "t1") 30 true; mkClassroom "r2" (Some "t1") 60 true]
       [].

End Sample.

(** ** Vocabulary of the scheduling properties *)

Definition same_cell (s1 s2 : TimetableSlot) : Prop :=
  ts_day_of_week s1 = ts_day_of_week s2 ∧ ts_period_number s1 = ts_period_number s2.

(** Two slots clash when they book the same faculty, the same batch, or the
    same (non-null) classroom in the same (day, period). *)
Definition clash (s1 s2 : TimetableSlot) : Prop :=
  same_cell s1 s2
  ∧ (ts_faculty_id s1 = ts_faculty_id s2
     ∨ ts_batch_id s1 = ts_batch_id s2
     ∨ ∃ r, ts_classroom_id s1 = Some r ∧ ts_classroom_id s2 = Some r).

(** No two slots at different positions of the list clash. *)
Definition conflict_free (l : list TimetableSlot) : Prop :=
  ∀ i j s1 s2, i ≠ j → l !! i = Some s1 → l !! j = Some s2 → ¬ clash s1 s2.

(** A slot is covered by the occupancy dicts when its keys are in them. *)
Definition covered (o : Occupancy) (s : TimetableSlot) : Prop :=
  occ_key (ts_faculty_id s) (ts_day_of_week s) (ts_period_number s) ∈ faculty_occupied o
  ∧ occ_key (ts_batch_id s) (ts_day_of_week s) (ts_period_number s) ∈ batch_occupied o
  ∧ ∀ r, ts_classroom_id s = Some r → r ≠ "" →
         occ_key r (ts_day_of_week s) (ts_period_number s) ∈ room_occupied o.

Definition occ_le (o1 o2 : Occupancy) : Prop :=
  faculty_occupied o1 ⊆ faculty_occupied o2
  ∧ room_occupied o1 ⊆ room_occupied o2
  ∧ batch_occupied o1 ⊆ batch_occupied o2.

(** The invariant of a run over the slots it read at its start. *)
Definition run_inv (existing : list TimetableSlot) (st : Run) : Prop :=
  (∀ s, s ∈ existing ++ created_slots st → covered (occ st) s)
  ∧ conflict_free (existing ++ created_slots st).

(** The (day, period) scan order: days outermost, periods in list order. *)
Definition cells (ds : list Z) (periods : list PeriodTemplate) : list (Z * PeriodTemplate) :=
  ds ≫= λ d, pair d <$> periods.

Definition coord (c : Z * PeriodTemplate) : Z * Z := (c.1, pt_period_number c.2).

Definition slot_coord (s : TimetableSlot) : Z * Z :=
  (ts_day_of_week s, ts_period_number s).

(** The two nested loops of one assignment, as one loop over [cells]. *)
Fixpoint cell_loop (insert_raises : list TimetableSlot → TimetableSlot → bool)
    (tenant : option string) (batch : string) (rooms : list Classroom)
    (asgn : FacultyAssignment) (hrs : Z) (cs : list (Z * PeriodTemplate))
    (st : Run) (allocated : Z) : Run * Z :=
  match cs with
  | [] => (st, allocated)
  | c :: cs' =>
      if decide (hrs ≤ allocated) then (st, allocated)
      else
        let '(st', allocated') :=
          period_body insert_raises tenant batch rooms asgn c.1 c.2 st allocated in
        cell_loop insert_raises tenant batch rooms asgn hrs cs' st' allocated'
  end.

(** The cells a run has booked so far account for the whole table and for
    every key of the faculty and batch dicts. *)
Definition booked_only (fid batch : string) (st : Run) (booked : list (Z * Z)) : Prop :=
  (∀ k, k ∈ faculty_occupied (occ st) → ∃ c, c ∈ booked ∧ k = occ_key fid c.1 c.2)
  ∧ (∀ k, k ∈ batch_occupied (occ st) → ∃ c, c ∈ booked ∧ k = occ_key batch c.1 c.2)
  ∧ (∀ s, s ∈ table st → slot_coord s ∈ booked)
  ∧ (∀ c, c ∈ booked → c.1 ∈ days).

(** ** Vocabulary of the On-Duty properties *)

(** The columns of a request that no action route writes. *)
Definition same_request_data (r r' : OdRequest) : Prop :=
  od_tenant_id r' = od_tenant_id r ∧ od_student_id r' = od_student_id r
  ∧ od_subject_id r' = od_subject_id r ∧ od_date r' = od_date r
  ∧ od_end_date r' = od_end_date r ∧ od_reason r' = od_reason r
  ∧ od_type r' = od_type r ∧ od_document_url r' = od_document_url r.

(** How far a status is along the workflow; every status other than the two
    pending ones counts as final. *)
Definition od_rank (status : string) : nat :=
  if decide (status = "pending_faculty") then 0%nat
  else if decide (status = "pending_hod") then 1%nat
  else 2%nat.

Global Instance OdRequest_eq_dec : EqDecision OdRequest.
Proof. solve_decision. Defined.

(** One call of an action route, and a sequence of such calls on a store. *)
Inductive OdCall :=
| FacultyCall (od_id : string) (body : ODAction) (user : User) (now : string)
| HodCall (od_id : string) (body : ODAction) (user : User) (now : string).

Definition run_call (c : OdCall) (db : Db) : Db :=
  match c with
  | FacultyCall od_id body user now => (faculty_od_action od_id body user now db).1
  | HodCall od_id body user now => (hod_od_action od_id body user now db).1
  end.

(** The number of calls of the sequence that changed the row [id]. *)
Fixpoint od_changes (id : string) (calls : list OdCall) (db : Db) : nat :=
  match calls with
  | [] => 0%nat
  | c :: calls' =>
      let db' := run_call c db in
      ((if decide (od_requests db' !! id = od_requests db !! id) then 0 else 1)
       + od_changes id calls' db')%nat
  end.

Definition run_calls (calls : list OdCall) (db : Db) : Db :=
  foldl (λ d c, run_call c d) db calls.

(** [GET /api/student/od/status]: the caller's own requests. *)
Definition get_my_od_requests (user : User) (db : Db)
  : HttpResult (list (string * OdRequest)) :=
  bind (require_role ["student"] user) (λ user,
  bind (get_tenant_id user) (λ tenant,
    Success (filter (λ kv, sql_eq (od_tenant_id kv.2) tenant = true
                           ∧ od_student_id kv.2 = user_id user)
                    (map_to_list (od_requests db))))).

(** [GET /api/hod/od/pending]: the tenant's requests waiting for the HOD. *)
Definition get_pending_od_hod (user : User) (db : Db)
  : HttpResult (list (string * OdRequest)) :=
  bind (require_role ["hod"] user) (λ user,
  bind (get_tenant_id user) (λ tenant,
    Success (filter (λ kv, sql_eq (od_tenant_id kv.2) tenant = true
                           ∧ od_status kv.2 = "pending_hod")
                    (map_to_list (od_requests db))))).

Definition call_id (c : OdCall) : string :=
  match c with FacultyCall id _ _ _ | HodCall id _ _ _ => id end.

Definition call_user (c : OdCall) : User :=
  match c with FacultyCall _ _ u _ | HodCall _ _ u _ => u end.

(** ** Vocabulary of the marks properties *)

(** The record that [submit_marks] builds for one entry. *)
Definition entry_record (tenant : option string) (subject_id uid : string)
    (entry : MarkEntry) : MarkRecord :=
  {| mr_tenant_id := tenant;
     mr_subject_id := subject_id;
     mr_student_id := me_student_id entry;
     mr_marks := me_marks entry;
     mr_max_marks := me_max_marks entry;
     mr_status := "submitted";
     mr_submitted_by := uid |}.

(** The conflict target of a stored row; a row with a NULL tenant conflicts
    with nothing. *)
Definition mark_key (r : InternalMark) : option (string * string * string) :=
  match im_tenant_id r with
  | Some t => Some (t, im_subject_id r, im_student_id r)
  | None => None
  end.

(** No two stored rows share a conflict target. *)
Definition keys_unique (rows : list InternalMark) : Prop :=
  NoDup (omap mark_key rows).

(** The columns of a mark row other than its status. *)
Definition same_mark_data (r r' : InternalMark) : Prop :=
  im_tenant_id r' = im_tenant_id r ∧ im_subject_id r' = im_subject_id r
  ∧ im_student_id r' = im_student_id r ∧ im_marks r' = im_marks r
  ∧ im_max_marks r' = im_max_marks r ∧ im_submitted_by r' = im_submitted_by r
  ∧ im_approved_by r' = im_approved_by r ∧ im_approved_at r' = im_approved_at r
  ∧ im_locked_by r' = im_locked_by r ∧ im_locked_at r' = im_locked_at r.

(** [GET /api/hod/marks/pending]: the tenant's rows waiting for approval.
    The rows come newest first in the source; the store has no [created_at]
    here, so only the content of the list is meaningful. *)
Definition get_pending_marks (user : User) (db : Db)
  : HttpResult (list InternalMark) :=
  bind (require_role ["hod"; "admin"] user) (λ user,
  bind (get_tenant_id user) (λ tenant,
    Success (select_where
               (λ r, sql_eq (im_tenant_id r) tenant
                     && bool_decide (im_status r = "submitted"))
               (internal_marks db)))).

(** A row of [exam_marks], with the columns [get_my_marks] filters on. *)
Record ExamMark := mkExamMark {
  em_tenant_id : option string;
  em_student_id : string;
  em_exam_id : string;
  em_marks : Q
}.

Record MyMarks := mkMyMarks {
  legacy_marks : list InternalMark;
  dynamic_exams : list ExamMark
}.

(** [GET /api/student/marks]; [exam_marks] is the table of that name. *)
Definition get_my_marks (exam_marks : list ExamMark) (user : User) (db : Db)
  : HttpResult MyMarks :=
  bind (require_role ["student"] user) (λ user,
  bind (get_tenant_id user) (λ tenant,
    Success
      {| legacy_marks :=
           select_where
             (λ r, sql_eq (im_tenant_id r) tenant
                   && bool_decide (im_student_id r = user_id user)
                   && bool_decide (im_status r = "locked"))
             (internal_marks db);
         dynamic_exams :=
           select_where
             (λ r, sql_eq (em_tenant_id r) tenant
                   && bool_decide (em_student_id r = user_id user))
             exam_marks |})).


(** The columns that a submitted record writes, as a stored row has them. *)
Definition holds_record (rec : MarkRecord) (w : InternalMark) : Prop :=
  im_tenant_id w = mr_tenant_id rec ∧ im_subject_id w = mr_subject_id rec
  ∧ im_student_id w = mr_student_id rec ∧ im_marks w = mr_marks rec
  ∧ im_max_marks w = mr_max_marks rec ∧ im_status w = mr_status rec
  ∧ im_submitted_by w = Some (mr_submitted_by rec).

(** What a submission keeps of a stored row: its conflict target and the
    approval and lock columns. *)
Definition kept_by_submit (r r' : InternalMark) : Prop :=
  mark_key r' = mark_key r
  ∧ im_approved_by r' = im_approved_by r ∧ im_approved_at r' = im_approved_at r
  ∧ im_locked_by r' = im_locked_by r ∧ im_locked_at r' = im_locked_at r.


(** ** Vocabulary of the further scheduling properties *)

(** What a slot placed by a run is made of: the run's tenant and batch, a
    day of the week, the numbers and times of one of the periods, the
    faculty and subject of one of the assignments, and no room or the id of
    one of the rooms. *)
Definition placed_from (tenant : option string) (batch : string)
    (rooms : list Classroom) (assignments : list FacultyAssignment)
    (periods : list PeriodTemplate) (s : TimetableSlot) : Prop :=
  ts_tenant_id s = tenant ∧ ts_batch_id s = batch ∧ ts_slot_type s = "lecture"
  ∧ ts_day_of_week s ∈ days
  ∧ (∃ p, p ∈ periods ∧ pt_period_number p = ts_period_number s
          ∧ pt_start_time p = ts_start_time s ∧ pt_end_time p = ts_end_time s)
  ∧ (∃ a, a ∈ assignments ∧ fa_faculty_id a = ts_faculty_id s
          ∧ fa_subject_id a = ts_subject_id s)
  ∧ (∀ r, ts_classroom_id s = Some r → ∃ room, room ∈ rooms ∧ room_id room = r).

(** A run only appends: the slots it adds to the table are the slots it
    adds to [created_slots]. *)
Definition run_appends (P : TimetableSlot → Prop) (st st' : Run) : Prop :=
  ∃ new, table st' = table st ++ new
         ∧ created_slots st' = created_slots st ++ new
         ∧ Forall P new.

(** The hours the assignments ask for, a negative number counting as 0. *)
Definition hours_asked (assignments : list FacultyAssignment) : Z :=
  foldr (λ a acc, Z.max 0 (default 0 (hrs_needed a)) + acc) 0 assignments.

(** The grid loop of [get_batch_timetable] and [get_faculty_timetable]:
    [grid[day][period_number] = slot], for the rows in the order of the
    query result. *)
Definition grid_put (grid : gmap Z (gmap Z TimetableSlot)) (slot : TimetableSlot)
  : gmap Z (gmap Z TimetableSlot) :=
  let day := ts_day_of_week slot in
  let grid := if decide (is_Some (grid !! day)) then grid else <[day := ∅]> grid in
  <[day := <[ts_period_number slot := slot]> (default ∅ (grid !! day))]> grid.

Definition build_grid (data : list TimetableSlot) : gmap Z (gmap Z TimetableSlot) :=
  foldl grid_put ∅ data.

(** [grid[day][pnum]], when both keys are there. *)
Definition grid_at (grid : gmap Z (gmap Z TimetableSlot)) (day pnum : Z)
  : option TimetableSlot :=
  match grid !! day with
  | Some row => row !! pnum
  | None => None
  end.


(** ** The attendance tally of [get_my_attendance] *)

(** A row of the attendance query with its joined subject: the keys the
    tally loop reads. *)
Record AttendanceRecord := mkAttendanceRecord {
  at_subject_id : string;
  at_status : string;
  at_subject_name : string;
  at_subject_code : string
}.

(** A value of the dict [subject_stats]. *)
Record SubjectStats := mkSubjectStats {
  st_total : nat;
  st_present : nat;
  st_subject_name : string;
  st_subject_code : string
}.

Definition add_total (st : SubjectStats) : SubjectStats :=
  mkSubjectStats (S (st_total st)) (st_present st)
                 (st_subject_name st) (st_subject_code st).

Definition add_present (st : SubjectStats) : SubjectStats :=
  mkSubjectStats (st_total st) (S (st_present st))
                 (st_subject_name st) (st_subject_code st).

(** [rec["status"] in ("present", "od")]. *)
Definition counts_as_present (rec : AttendanceRecord) : Prop :=
  at_status rec ∈ ["present"; "od"].

(** One iteration of [for rec in result.data]. *)
Definition tally_step (subject_stats : gmap string SubjectStats)
    (rec : AttendanceRecord) : gmap string SubjectStats :=
  let sid := at_subject_id rec in
  let subject_stats :=
    if decide (is_Some (subject_stats !! sid)) then subject_stats
    else <[sid := mkSubjectStats 0 0 (at_subject_name rec) (at_subject_code rec)]>
           subject_stats in
  let subject_stats := alter add_total sid subject_stats in
  if decide (counts_as_present rec) then alter add_present sid subject_stats
  else subject_stats.

Definition tally (data : list AttendanceRecord) : gmap string SubjectStats :=
  foldl tally_step ∅ data.


(** * Properties *)

(** ** Role guard and tenant resolution *)

Lemma require_role_ok allowed user :
  role user ∈ allowed → require_role allowed user = Success user.
Proof. intros H. unfold require_role. by rewrite decide_True. Qed.

Lemma get_tenant_id_ok user t :
  tenant_id user = Some t → t ≠ "" → get_tenant_id user = Success (Some t).
Proof.
  intros Ht Hne. unfold get_tenant_id. rewrite Ht. simpl.
  rewrite bool_decide_eq_true_2 by done. by destruct (decide _).
Qed.

Lemma sql_eq_true c v : sql_eq c v = true ↔ ∃ x, c = Some x ∧ v = Some x.
Proof.
  unfold sql_eq. destruct c as [c|], v as [v|]; simpl;
    try (split; [done | intros (x & ? & ?); done]).
  rewrite bool_decide_eq_true. split.
  - intros ->. eauto.
  - intros (x & ? & ?). congruence.
Qed.

Lemma sql_eq_refl t : sql_eq (Some t) (Some t) = true.
Proof. apply sql_eq_true. eauto. Qed.

(** ** On-Duty requests *)

(** C5: a request created by [apply_od] is stored in [pending_hod] when its
    [od_type] is special or medical, and in [pending_faculty] for every
    other type. *)
Theorem apply_od_initial_status new_id body user db db' data :
  apply_od new_id body user db = (db', Success data) →
  ∃ row, data = [(new_id, row)]
    ∧ od_requests db !! new_id = None
    ∧ od_requests db' !! new_id = Some row
    ∧ od_type row = oa_od_type body
    ∧ (od_type row = "special" ∨ od_type row = "medical" → od_status row = "pending_hod")
    ∧ (od_type row ≠ "special" → od_type row ≠ "medical" →
       od_status row = "pending_faculty").
Proof.
  unfold apply_od. intros H.
  destruct (require_role _ user) as [u|]; [|done].
  destruct (get_tenant_id u) as [tenant|]; [|done].
  destruct (resolve_subject _ _ _ _) as [sid|]; [|done].
  destruct (od_requests db !! new_id) eqn:Hfresh; [done|].
  injection H as <- <-. eexists. split; [done|]. split; [done|].
  split; [simpl; by rewrite lookup_insert_eq|]. simpl. split; [done|].
  unfold initial_status. split.
  - intros Hty. rewrite decide_True; [done|].
    rewrite !elem_of_cons. tauto.
  - intros H1 H2. rewrite decide_False; [done|].
    rewrite !elem_of_cons, elem_of_nil. tauto.
Qed.

Lemma apply_od_initial_status_witness :
  ∃ row, [("od7", Sample.request "pending_faculty")] = [("od7", row)]
    ∧ od_requests Sample.empty_db !! "od7" = None
    ∧ od_requests
        (fst (apply_od "od7" (mkODApply "sub1" "2024-03-01" None "symposium" "normal" None)
                Sample.student_s1 Sample.empty_db)) !! "od7" = Some row
    ∧ od_type row = "normal"
    ∧ (od_type row = "special" ∨ od_type row = "medical" → od_status row = "pending_hod")
    ∧ (od_type row ≠ "special" → od_type row ≠ "medical" →
       od_status row = "pending_faculty").
Proof.
  apply (apply_od_initial_status "od7"
           (mkODApply "sub1" "2024-03-01" None "symposium" "normal" None)
           Sample.student_s1 Sample.empty_db).
  reflexivity.
Defined.

(** The conditional update matches nothing when the stored status differs
    from the required one. *)
Lemma update_od_other_status od_id tenant required upd db r :
  od_requests db !! od_id = Some r →
  od_status r ≠ required →
  update_od od_id tenant required upd db = (db, []).
Proof.
  intros Hr Hst. unfold update_od. rewrite Hr.
  rewrite (bool_decide_eq_false_2 _ Hst). by rewrite andb_false_r.
Qed.

Lemma od_action_other_status allowed required update od_id body user now db r t :
  role user ∈ allowed →
  tenant_id user = Some t → t ≠ "" →
  action body = "approve" ∨ action body = "reject" →
  od_requests db !! od_id = Some r →
  od_status r ≠ required →
  od_action allowed required update od_id body user now db = (db, Success []).
Proof.
  intros Hrole Ht Hne Hact Hr Hst. unfold od_action.
  rewrite (require_role_ok _ _ Hrole), (get_tenant_id_ok _ _ Ht Hne).
  rewrite decide_True by done.
  by rewrite (update_od_other_status _ _ _ _ _ _ Hr Hst).
Qed.

(** C6: on a request whose status is [approved] or [rejected], an approve
    or reject call by a faculty member or by a HOD returns success with no
    affected row and leaves the store, hence the row's status, unchanged. *)
Theorem terminal_od_immune od_id body user now db r t :
  od_requests db !! od_id = Some r →
  od_status r = "approved" ∨ od_status r = "rejected" →
  action body = "approve" ∨ action body = "reject" →
  tenant_id user = Some t → t ≠ "" →
  (role user = "faculty" →
     faculty_od_action od_id body user now db = (db, Success []))
  ∧ (role user = "hod" →
     hod_od_action od_id body user now db = (db, Success [])).
Proof.
  intros Hr Hterm Hact Ht Hne. split; intros Hrole.
  - eapply od_action_other_status; eauto.
    + rewrite Hrole. apply list_elem_of_here.
    + destruct Hterm as [-> | ->]; done.
  - eapply od_action_other_status; eauto.
    + rewrite Hrole. apply list_elem_of_here.
    + destruct Hterm as [-> | ->]; done.
Qed.

Lemma terminal_od_immune_witness :
  faculty_od_action "od1" (mkODAction "approve" None) Sample.faculty_f1
    "2024-03-02T10:00:00" (Sample.od_db "rejected")
  = (Sample.od_db "rejected", Success [])
  ∧ hod_od_action "od1" (mkODAction "reject" (Some "late")) Sample.hod_h1
      "2024-03-02T10:00:00" (Sample.od_db "approved")
    = (Sample.od_db "approved", Success []).
Proof.
  split.
  - apply (terminal_od_immune "od1" (mkODAction "approve" None) Sample.faculty_f1
             "2024-03-02T10:00:00" (Sample.od_db "rejected")
             (Sample.request "rejected") "t1").
    + reflexivity.
    + right. reflexivity.
    + left. reflexivity.
    + reflexivity.
    + discriminate.
    + reflexivity.
  - apply (terminal_od_immune "od1" (mkODAction "reject" (Some "late")) Sample.hod_h1
             "2024-03-02T10:00:00" (Sample.od_db "approved")
             (Sample.request "approved") "t1").
    + reflexivity.
    + left. reflexivity.
    + right. reflexivity.
    + reflexivity.
    + discriminate.
    + reflexivity.
Defined.

(** The faculty action never reads [batch_students]: replacing the advisee
    relation by any other leaves its outcome on [od_requests] the same. *)
Lemma faculty_od_action_ignores_advisors od_id body user now db advisors :
  let db2 := mkDb (od_requests db) advisors (student_enrollments db) (subjects db)
                  (internal_marks db) (batches db) (faculty_assignments db)
                  (period_templates db) (classrooms db) (timetable_slots db) in
  od_requests (faculty_od_action od_id body user now db2).1
    = od_requests (faculty_od_action od_id body user now db).1
  ∧ (faculty_od_action od_id body user now db2).2
    = (faculty_od_action od_id body user now db).2.
Proof.
  simpl. unfold faculty_od_action, od_action.
  destruct (require_role _ user) as [u|]; [|done].
  destruct (get_tenant_id u) as [tenant|]; [|done].
  destruct (decide _); [|done].
  unfold update_od. simpl.
  destruct (od_requests db !! od_id) as [r|]; [|done].
  by destruct (sql_eq _ _ && _).
Qed.

(** C1: the code at the failing input.  Student [s1] is an advisee of [f1]
    and not of [f2]; the pending list of [f2] does not show the request, yet
    the approve call of [f2] succeeds and moves it to [pending_hod]. *)
Theorem faculty_action_by_non_advisor :
  let db := Sample.od_db "pending_faculty" in
  let out := faculty_od_action "od1" (mkODAction "approve" None) Sample.faculty_f2
               "2024-03-02T10:00:00" db in
  ("s1" ∉ advisee_ids db (Some "t1") "f2")
  ∧ "s1" ∈ advisee_ids db (Some "t1") "f1"
  ∧ get_pending_od Sample.faculty_f2 db = Success []
  ∧ is_success out.2 = true
  ∧ od_status <$> (od_requests out.1 !! "od1") = Some "pending_hod"
  ∧ od_faculty_action_by <$> (od_requests out.1 !! "od1") = Some (Some "f2").
Proof.
  simpl. split; [|split; [|split; [|split; [|split]]]].
  - vm_compute. apply not_elem_of_nil.
  - vm_compute. apply list_elem_of_here.
  - vm_compute. reflexivity.
  - vm_compute. reflexivity.
  - vm_compute. reflexivity.
  - vm_compute. reflexivity.
Qed.

(** ** Internal marks *)

Section BulkUpdate.

Context {A : Type} (p : A → bool) (f : A → A).

Lemma update_where_length rows : length (update_where p f rows).1 = length rows.
Proof. unfold update_where. simpl. by rewrite length_fmap. Qed.

Lemma update_where_lookup rows i r :
  rows !! i = Some r →
  (update_where p f rows).1 !! i = Some (if p r then f r else r).
Proof.
  intros Hr. unfold update_where. simpl. by rewrite list_lookup_fmap, Hr.
Qed.

Lemma update_where_data rows x :
  x ∈ (update_where p f rows).2 ↔ ∃ r, x = f r ∧ p r = true ∧ r ∈ rows.
Proof.
  unfold update_where. simpl. rewrite list_elem_of_fmap.
  by setoid_rewrite list_elem_of_filter.
Qed.

(** When the update moves every matching row out of the filter, running it
    again matches nothing and changes nothing. *)
Lemma update_where_again (g : A → A) rows :
  (∀ r, p r = true → p (f r) = false) →
  update_where p g (update_where p f rows).1 = ((update_where p f rows).1, []).
Proof.
  intros Hout. unfold update_where. simpl.
  induction rows as [|r rows IH]; [done|].
  injection IH as IH1 IH2. csimpl.
  assert (Hr : p (if p r then f r else r) = false).
  { destruct (p r) eqn:Hp; [by apply Hout | done]. }
  rewrite filter_cons_False by (rewrite Hr; done).
  rewrite Hr. by rewrite IH1, IH2.
Qed.

End BulkUpdate.

Lemma in_scope_true tenant subject status r :
  in_scope tenant subject status r = true ↔
  sql_eq (im_tenant_id r) tenant = true ∧ im_subject_id r = subject ∧ im_status r = status.
Proof.
  unfold in_scope. rewrite !andb_true_iff, !bool_decide_eq_true. tauto.
Qed.

Lemma in_scope_false_status tenant subject status r :
  im_status r ≠ status → in_scope tenant subject status r = false.
Proof.
  intros H. apply not_true_is_false. rewrite in_scope_true. tauto.
Qed.

(** C7: for an authorised caller, approve moves every [submitted] row of the
    (tenant, subject) to [approved] with the caller's id and the one timestamp
    of the call, returns exactly those rows, leaves every other row as it was,
    and raises nothing; a second approve returns no row and changes nothing. *)
Theorem approve_marks_bulk subject user now now' db t :
  role user ∈ ["hod"; "admin"] →
  tenant_id user = Some t → t ≠ "" →
  ∃ db' data,
    approve_marks subject "approve" user now db = (db', Success data)
    ∧ length (internal_marks db') = length (internal_marks db)
    ∧ (∀ i r, internal_marks db !! i = Some r →
         (im_tenant_id r = Some t ∧ im_subject_id r = subject ∧ im_status r = "submitted" →
            ∃ r', internal_marks db' !! i = Some r'
              ∧ r' ∈ data
              ∧ im_status r' = "approved"
              ∧ im_approved_by r' = Some (user_id user)
              ∧ im_approved_at r' = Some now
              ∧ im_tenant_id r' = im_tenant_id r
              ∧ im_subject_id r' = im_subject_id r
              ∧ im_student_id r' = im_student_id r
              ∧ im_marks r' = im_marks r
              ∧ im_max_marks r' = im_max_marks r)
         ∧ (¬ (im_tenant_id r = Some t ∧ im_subject_id r = subject
               ∧ im_status r = "submitted") →
            internal_marks db' !! i = Some r))
    ∧ (∀ x, x ∈ data →
         im_status x = "approved" ∧ im_approved_by x = Some (user_id user)
         ∧ im_approved_at x = Some now)
    ∧ approve_marks subject "approve" user now' db' = (db', Success []).
Proof.
  intros Hrole Ht Hne. unfold approve_marks.
  rewrite (require_role_ok _ _ Hrole), (get_tenant_id_ok _ _ Ht Hne).
  rewrite decide_True by done.
  set (p := in_scope (Some t) subject "submitted").
  set (f := set_approved (user_id user) now).
  destruct (update_where p f (internal_marks db)) as [rows data] eqn:Hup.
  assert (Hrows : rows = (update_where p f (internal_marks db)).1) by by rewrite Hup.
  assert (Hdata : data = (update_where p f (internal_marks db)).2) by by rewrite Hup.
  exists (set_internal_marks db rows), data.
  split; [done|]. simpl. split; [rewrite Hrows; apply update_where_length|].
  split; [|split].
  - intros i r Hr. rewrite Hrows, (update_where_lookup _ _ _ _ _ Hr). split.
    + intros (Hten & Hsub & Hst).
      assert (Hp : p r = true).
      { apply in_scope_true. rewrite Hten. by rewrite sql_eq_refl. }
      rewrite Hp. exists (f r). split; [done|]. split; [|done].
      rewrite Hdata. apply update_where_data. eauto using list_elem_of_lookup_2.
    + intros Hnot. destruct (p r) eqn:Hp; [|done].
      apply in_scope_true in Hp as (Hten & Hsub & Hst).
      apply sql_eq_true in Hten as (x & Hx & [= <-]). tauto.
  - intros x Hx. rewrite Hdata in Hx.
    apply update_where_data in Hx as (r & -> & _ & _). done.
  - assert (Hout : ∀ r, p r = true → p (f r) = false).
    { intros r _. by apply in_scope_false_status. }
    pose proof (update_where_again p f (set_approved (user_id user) now')
                  (internal_marks db) Hout) as Hagain.
    rewrite <- Hrows in Hagain. unfold update_where in Hagain.
    injection Hagain as -> ->. done.
Qed.

Lemma approve_marks_bulk_witness :
  ∃ db' data,
    approve_marks "sub1" "approve" Sample.hod_h1 "2024-03-02T10:00:00"
      (Sample.marks_db [Sample.mark "A" "submitted" (41#1); Sample.mark "B" "submitted" (38#1);
                        Sample.mark "C" "locked" (45#1)])
    = (db', Success data)
    ∧ length data = 2%nat
    ∧ approve_marks "sub1" "approve" Sample.hod_h1 "2024-03-02T10:05:00" db'
      = (db', Success []).
Proof.
  destruct (approve_marks_bulk "sub1" Sample.hod_h1 "2024-03-02T10:00:00"
              "2024-03-02T10:05:00"
              (Sample.marks_db [Sample.mark "A" "submitted" (41#1);
                                Sample.mark "B" "submitted" (38#1);
                                Sample.mark "C" "locked" (45#1)]) "t1")
    as (db' & data & Hrun & _ & _ & _ & Hagain).
  - vm_compute. apply list_elem_of_here.
  - reflexivity.
  - discriminate.
  - exists db', data. split; [exact Hrun|]. split; [|exact Hagain].
    vm_compute in Hrun. injection Hrun as _ <-. reflexivity.
Defined.

(** C8: lock moves exactly the [approved] rows of the (tenant, subject) to
    [locked], returns them, leaves rows of every other status (and of other
    subjects or tenants) as they were; locking again returns no row and
    changes nothing. *)
Theorem lock_marks_only_approved subject user now now' db t :
  role user = "admin" →
  tenant_id user = Some t → t ≠ "" →
  ∃ db' data,
    lock_marks subject user now db = (db', Success data)
    ∧ length (internal_marks db') = length (internal_marks db)
    ∧ (∀ i r, internal_marks db !! i = Some r →
         (im_tenant_id r = Some t ∧ im_subject_id r = subject ∧ im_status r = "approved" →
            ∃ r', internal_marks db' !! i = Some r'
              ∧ r' ∈ data
              ∧ im_status r' = "locked"
              ∧ im_locked_by r' = Some (user_id user)
              ∧ im_locked_at r' = Some now
              ∧ im_student_id r' = im_student_id r
              ∧ im_marks r' = im_marks r
              ∧ im_max_marks r' = im_max_marks r)
         ∧ (im_status r ≠ "approved" → internal_marks db' !! i = Some r)
         ∧ (im_tenant_id r ≠ Some t ∨ im_subject_id r ≠ subject →
            internal_marks db' !! i = Some r))
    ∧ (∀ x, x ∈ data →
         ∃ r, r ∈ internal_marks db ∧ im_status r = "approved"
              ∧ x = set_locked (user_id user) now r)
    ∧ lock_marks subject user now' db' = (db', Success []).
Proof.
  intros Hrole Ht Hne. unfold lock_marks.
  rewrite (require_role_ok ["admin"] user) by (rewrite Hrole; apply list_elem_of_here).
  rewrite (get_tenant_id_ok _ _ Ht Hne).
  set (p := in_scope (Some t) subject "approved").
  set (f := set_locked (user_id user) now).
  destruct (update_where p f (internal_marks db)) as [rows data] eqn:Hup.
  assert (Hrows : rows = (update_where p f (internal_marks db)).1) by by rewrite Hup.
  assert (Hdata : data = (update_where p f (internal_marks db)).2) by by rewrite Hup.
  exists (set_internal_marks db rows), data.
  split; [done|]. simpl. split; [rewrite Hrows; apply update_where_length|].
  split; [|split].
  - intros i r Hr. rewrite Hrows, (update_where_lookup _ _ _ _ _ Hr).
    split; [|split].
    + intros (Hten & Hsub & Hst).
      assert (Hp : p r = true).
      { apply in_scope_true. rewrite Hten. by rewrite sql_eq_refl. }
      rewrite Hp. exists (f r). split; [done|]. split; [|done].
      rewrite Hdata. apply update_where_data. eauto using list_elem_of_lookup_2.
    + intros Hst. unfold p. by rewrite in_scope_false_status.
    + intros Hother. destruct (p r) eqn:Hp; [|done].
      apply in_scope_true in Hp as (Hten & Hsub & Hst).
      apply sql_eq_true in Hten as (x & Hx & [= <-]). tauto.
  - intros x Hx. rewrite Hdata in Hx.
    apply update_where_data in Hx as (r & -> & Hp & Hin).
    apply in_scope_true in Hp as (_ & _ & Hst). eauto.
  - assert (Hout : ∀ r, p r = true → p (f r) = false).
    { intros r _. by apply in_scope_false_status. }
    pose proof (update_where_again p f (set_locked (user_id user) now')
                  (internal_marks db) Hout) as Hagain.
    rewrite <- Hrows in Hagain. unfold update_where in Hagain.
    injection Hagain as -> ->. done.
Qed.

Lemma lock_marks_only_approved_witness :
  ∃ db' data,
    lock_marks "sub1" Sample.admin_a1 "2024-03-03T09:00:00"
      (Sample.marks_db [Sample.mark "A" "approved" (41#1); Sample.mark "B" "submitted" (38#1);
                        Sample.mark "C" "approved" (45#1)])
    = (db', Success data)
    ∧ length data = 2%nat
    ∧ internal_marks db' !! 1%nat = Some (Sample.mark "B" "submitted" (38#1))
    ∧ lock_marks "sub1" Sample.admin_a1 "2024-03-03T09:05:00" db' = (db', Success []).
Proof.
  destruct (lock_marks_only_approved "sub1" Sample.admin_a1 "2024-03-03T09:00:00"
              "2024-03-03T09:05:00"
              (Sample.marks_db [Sample.mark "A" "approved" (41#1);
                                Sample.mark "B" "submitted" (38#1);
                                Sample.mark "C" "approved" (45#1)]) "t1")
    as (db' & data & Hrun & _ & Hrow & _ & Hagain).
  - reflexivity.
  - reflexivity.
  - discriminate.
  - exists db', data. split; [exact Hrun|]. split; [|split; [|exact Hagain]].
    + vm_compute in Hrun. injection Hrun as _ <-. reflexivity.
    + destruct (Hrow 1%nat (Sample.mark "B" "submitted" (38#1)) eq_refl)
        as (_ & Hkeep & _).
      apply Hkeep. simpl. discriminate.
Defined.

(** A row whose status is [locked] is outside the filter of approve, reject
    and lock, so these three leave it exactly as it is. *)
Lemma locked_row_kept_by_bulk_actions subject act user now db i r :
  internal_marks db !! i = Some r →
  im_status r = "locked" →
  internal_marks (approve_marks subject act user now db).1 !! i = Some r
  ∧ internal_marks (lock_marks subject user now db).1 !! i = Some r.
Proof.
  intros Hr Hst. split.
  - unfold approve_marks.
    destruct (require_role _ user) as [u|]; [|done].
    destruct (get_tenant_id u) as [tenant|]; [|done].
    assert (Hp : in_scope tenant subject "submitted" r = false).
    { apply in_scope_false_status. by rewrite Hst. }
    destruct (decide (act = "approve")); [|destruct (decide (act = "reject"))];
      [| |done]; simpl; by rewrite list_lookup_fmap, Hr; simpl; rewrite Hp.
  - unfold lock_marks.
    destruct (require_role _ user) as [u|]; [|done].
    destruct (get_tenant_id u) as [tenant|]; [|done].
    assert (Hp : in_scope tenant subject "approved" r = false).
    { apply in_scope_false_status. by rewrite Hst. }
    simpl. by rewrite list_lookup_fmap, Hr; simpl; rewrite Hp.
Qed.

(** C2: the code at the failing input.  The store holds one row, locked
    with 41 marks; a later submit for the same (tenant, subject, student)
    returns success and leaves the row with 12 marks in status
    [submitted], while its lock stamp is still there. *)
Theorem submit_overwrites_locked_row :
  let locked :=
    {| im_tenant_id := Some "t1"; im_subject_id := "sub1"; im_student_id := "A";
       im_marks := 41#1; im_max_marks := 50; im_status := "locked";
       im_submitted_by := Some "f1"; im_approved_by := Some "h1";
       im_approved_at := Some "2024-03-02T10:00:00";
       im_locked_by := Some "a1"; im_locked_at := Some "2024-03-03T09:00:00" |} in
  let out := submit_marks (mkMarksSubmit "sub1" [mkMarkEntry "A" (12#1) 50])
               Sample.faculty_f2 (Sample.marks_db [locked]) in
  is_success out.2 = true
  ∧ internal_marks out.1 =
      [{| im_tenant_id := Some "t1"; im_subject_id := "sub1"; im_student_id := "A";
          im_marks := 12#1; im_max_marks := 50; im_status := "submitted";
          im_submitted_by := Some "f2"; im_approved_by := Some "h1";
          im_approved_at := Some "2024-03-02T10:00:00";
          im_locked_by := Some "a1"; im_locked_at := Some "2024-03-03T09:00:00" |}].
Proof. simpl. split; vm_compute; reflexivity. Qed.

(** ** Timetable generation: conflicts *)

Lemma get_tenant_id_inv user tenant :
  get_tenant_id user = Success tenant → tenant = tenant_id user.
Proof.
  unfold get_tenant_id. destruct (decide _); [congruence|].
  destruct (truthy _); congruence.
Qed.

Lemma clash_sym s1 s2 : clash s1 s2 → clash s2 s1.
Proof.
  intros [[Hd Hp] H]. split; [by split|].
  destruct H as [H | [H | (r & H1 & H2)]]; eauto.
Qed.

Lemma conflict_free_snoc l s :
  conflict_free l → (∀ s', s' ∈ l → ¬ clash s' s) → conflict_free (l ++ [s]).
Proof.
  intros Hl Hs i j s1 s2 Hij H1 H2.
  apply lookup_snoc_Some in H1 as [[Hi H1] | [Hi <-]];
    apply lookup_snoc_Some in H2 as [[Hj H2] | [Hj <-]].
  - by apply (Hl i j).
  - apply Hs. by eapply list_elem_of_lookup_2.
  - intros Hc. apply clash_sym in Hc. revert Hc. apply Hs.
    by eapply list_elem_of_lookup_2.
  - lia.
Qed.

Lemma occ_le_refl o : occ_le o o.
Proof. by repeat split. Qed.

Lemma occ_le_trans o1 o2 o3 : occ_le o1 o2 → occ_le o2 o3 → occ_le o1 o3.
Proof. unfold occ_le. intros (? & ? & ?) (? & ? & ?). set_solver. Qed.

Lemma covered_mono o1 o2 s : occ_le o1 o2 → covered o1 s → covered o2 s.
Proof.
  unfold occ_le, covered. intros (Hf & Hr & Hb) (Cf & Cb & Cr).
  split; [set_solver|]. split; [set_solver|]. intros r H1 H2. set_solver.
Qed.

Lemma mark_existing_le o s : occ_le o (mark_existing o s).
Proof.
  unfold occ_le, mark_existing. simpl. split; [set_solver|]. split; [|set_solver].
  destruct (ts_classroom_id s) as [r|]; [|done]. destruct (decide _); set_solver.
Qed.

Lemma mark_existing_covered o s : covered (mark_existing o s) s.
Proof.
  unfold covered, mark_existing. simpl. split; [set_solver|]. split; [set_solver|].
  intros r -> Hr. rewrite decide_True by done. set_solver.
Qed.

Lemma foldl_mark_existing_le l o : occ_le o (foldl mark_existing o l).
Proof.
  revert o. induction l as [|s l IH]; intros o; simpl; [apply occ_le_refl|].
  eapply occ_le_trans; [apply mark_existing_le | apply IH].
Qed.

Lemma index_existing_covered existing s :
  s ∈ existing → covered (index_existing existing) s.
Proof.
  unfold index_existing. generalize (mkOccupancy ∅ ∅ ∅).
  induction existing as [|x l IH]; intros o Hs; [by apply elem_of_nil in Hs|].
  apply elem_of_cons in Hs as [-> | Hs]; simpl.
  - eapply covered_mono; [apply foldl_mark_existing_le | apply mark_existing_covered].
  - by apply IH.
Qed.

Lemma find_room_Some rooms occupied day pnum r :
  find_room rooms occupied day pnum = Some r →
  (∃ room, room ∈ rooms ∧ room_id room = r) ∧ occ_key r day pnum ∉ occupied.
Proof.
  induction rooms as [|room rooms IH]; simpl; [done|].
  destruct (decide _) as [Hfree|Hbusy].
  - intros [= <-]. split; [|done]. exists room. split; [apply list_elem_of_here | done].
  - intros H. destruct (IH H) as [(room' & Hin & Hid) Hnot]. split; [|done].
    exists room'. split; [by apply list_elem_of_further | done].
Qed.

Section RunInvariant.

Variable insert_raises : list TimetableSlot → TimetableSlot → bool.
Variable tenant : option string.
Variable batch : string.
Variable rooms : list Classroom.
(** A placement extends the occupancy dicts with the keys of the new slot
    and keeps every older key. *)
Lemma period_body_marks asgn day period st allocated st' allocated' :
  period_body insert_raises tenant batch rooms asgn day period st allocated
    = (st', allocated') →
  occ_le (occ st) (occ st')
  ∧ (allocated' = allocated ∧ st' = st
     ∨ allocated' = allocated + 1
       ∧ ∃ s, created_slots st' = created_slots st ++ [s]
           ∧ table st' = table st ++ [s]
           ∧ s = slot_data tenant batch asgn day period
                   (find_room rooms (room_occupied (occ st)) day (pt_period_number period))
           ∧ (occ_key (fa_faculty_id asgn) day (pt_period_number period)
               ∉ faculty_occupied (occ st))
           ∧ (occ_key batch day (pt_period_number period) ∉ batch_occupied (occ st))
           ∧ insert_raises (table st) s = false
           ∧ covered (occ st') s).
Proof.
  unfold period_body. destruct (decide _) as [Hbusy|Hfree].
  { intros [= <- <-]. split; [apply occ_le_refl | by left]. }
  destruct (insert_raises _ _) eqn:Hins.
  { intros [= <- <-]. split; [apply occ_le_refl | by left]. }
  intros [= <- <-]. simpl.
  apply Decidable.not_or in Hfree as [Hf Hb].
  set (room := find_room rooms (room_occupied (occ st)) day (pt_period_number period)).
  split.
  - unfold occ_le. simpl. split; [set_solver|]. split; [|set_solver].
    destruct room as [r|]; [|done]. destruct (decide _); set_solver.
  - right. split; [done|]. eexists. split; [done|]. split; [done|]. split; [done|].
    split; [done|]. split; [done|]. split; [done|].
    unfold covered. simpl. split; [set_solver|]. split; [set_solver|].
    intros r Hr Hne. fold room in Hr. rewrite Hr.
    rewrite decide_True by done. set_solver.
Qed.

Variable existing : list TimetableSlot.
Hypothesis rooms_have_ids : ∀ room, room ∈ rooms → room_id room ≠ "".

Lemma period_body_inv asgn day period st allocated st' allocated' :
  period_body insert_raises tenant batch rooms asgn day period st allocated
    = (st', allocated') →
  run_inv existing st → run_inv existing st'.
Proof.
  intros Hbody [Hcov Hfree].
  destruct (period_body_marks _ _ _ _ _ _ _ Hbody)
    as [Hle [[_ ->] | [_ (s & Hcr & _ & Hs & Hnf & Hnb & _ & Hcs)]]];
    [by split|].
  split.
  - intros x. rewrite Hcr, app_assoc, elem_of_app, list_elem_of_singleton.
    intros [Hx | ->]; [|done]. eapply covered_mono; [exact Hle | by apply Hcov].
  - rewrite Hcr, app_assoc. apply conflict_free_snoc; [done|].
    intros s' Hs' [[Hd Hp] Hshare].
    destruct (Hcov s' Hs') as (Cf & Cb & Cr).
    rewrite Hs in Hd, Hp, Hshare. simpl in Hd, Hp, Hshare.
    rewrite Hd, Hp in Cf, Cb, Cr.
    destruct Hshare as [Hfac | [Hbat | (r & Hr1 & Hr2)]].
    + rewrite Hfac in Cf. done.
    + rewrite Hbat in Cb. done.
    + destruct (find_room_Some _ _ _ _ _ Hr2) as [(room & Hin & Hid) Hnot].
      apply Hnot, (Cr r Hr1). rewrite <- Hid. by apply rooms_have_ids.
Qed.

Lemma period_loop_inv asgn hrs day periods st allocated st' allocated' :
  period_loop insert_raises tenant batch rooms asgn hrs day periods st allocated
    = (st', allocated') →
  run_inv existing st → run_inv existing st'.
Proof.
  revert st allocated. induction periods as [|period periods IH]; intros st allocated; simpl.
  { by intros [= <- <-]. }
  destruct (decide _); [by intros [= <- <-]|].
  destruct (period_body _ _ _ _ _ _ _ _ _) as [st1 a1] eqn:Hbody.
  intros Hloop Hinv. eapply IH; [exact Hloop|]. by eapply period_body_inv.
Qed.

Lemma day_loop_inv asgn hrs ds periods st allocated st' allocated' :
  day_loop insert_raises tenant batch rooms asgn hrs ds periods st allocated
    = (st', allocated') →
  run_inv existing st → run_inv existing st'.
Proof.
  revert st allocated. induction ds as [|day ds IH]; intros st allocated; simpl.
  { by intros [= <- <-]. }
  destruct (decide _); [by intros [= <- <-]|].
  destruct (period_loop _ _ _ _ _ _ _ _ _ _) as [st1 a1] eqn:Hper.
  intros Hloop Hinv. eapply IH; [exact Hloop|]. by eapply period_loop_inv.
Qed.

Lemma assignment_loop_inv assignments periods st st' ok :
  assignment_loop insert_raises tenant batch rooms assignments periods st = (st', ok) →
  run_inv existing st → run_inv existing st'.
Proof.
  revert st. induction assignments as [|asgn assignments IH]; intros st;
    cbn [assignment_loop].
  { by intros [= <- <-]. }
  destruct (hrs_needed asgn) as [hrs|]; [|by intros [= <- <-]].
  destruct (day_loop _ _ _ _ _ _ _ _ _ _) as [st1 a1] eqn:Hday.
  intros Hloop Hinv. eapply IH; [exact Hloop|]. by eapply day_loop_inv.
Qed.

End RunInvariant.

Lemma query_rooms_subset db tenant room :
  room ∈ query_rooms db tenant → room ∈ classrooms db.
Proof.
  unfold query_rooms, select_where. rewrite merge_sort_Permutation.
  rewrite list_elem_of_filter. tauto.
Qed.

Lemma clear_existing_fields body tenant db :
  let db1 := clear_existing body tenant db in
  subjects db1 = subjects db ∧ faculty_assignments db1 = faculty_assignments db
  ∧ period_templates db1 = period_templates db ∧ classrooms db1 = classrooms db
  ∧ batches db1 = batches db.
Proof. unfold clear_existing. by destruct (force_regenerate body). Qed.

(** What a successful call has computed. *)
Lemma generate_timetable_success insert_raises body user db db' res :
  generate_timetable insert_raises body user db = (db', Success res) →
  let t := tenant_id user in
  let db1 := clear_existing body t db in
  ∃ b semester st,
    query_batch db t (batch_id body) = Some b
    ∧ b_semester b = Some semester
    ∧ assignment_loop insert_raises t (batch_id body) (query_rooms db1 t)
        (query_assignments db1 t (sub_id <$> query_subjects db1 t semester))
        (query_periods db1 t)
        (mkRun (timetable_slots db1) (index_existing (query_existing db1 t)) [])
      = (st, true)
    ∧ db' = set_timetable_slots db1 (table st)
    ∧ slots res = created_slots st
    ∧ allocated_slots res = length (created_slots st)
    ∧ total_assignments res
      = length (query_assignments db1 t
                  (sub_id <$> query_subjects db1 t semester)).
Proof.
  unfold generate_timetable.
  destruct (require_role _ user) as [u|] eqn:Hrole; [|done].
  assert (u = user) as ->.
  { unfold require_role in Hrole. destruct (decide _); congruence. }
  destruct (get_tenant_id user) as [tenant|] eqn:Hten; [|done].
  apply get_tenant_id_inv in Hten as ->.
  destruct (query_batch _ _ _) as [b|]; [|done].
  destruct (b_semester b) as [sem|] eqn:Hsem; [|done].
  cbn [query_semester_subjects default from_option id].
  destruct (sub_id <$> query_subjects _ _ _) eqn:Hsub; [done|]. rewrite <- Hsub.
  destruct (query_periods _ _) eqn:Hper; [done|]. rewrite <- Hper.
  destruct (assignment_loop _ _ _ _ _ _ _) as [st ok] eqn:Hloop.
  destruct ok; [|done]. intros [= <- <-]. simpl. by exists b, sem, st.
Qed.

(** C4: in a successful run, when the slots read at its start are free of
    clashes, so are they together with the created slots: no two share a
    faculty, a batch or a non-null classroom in one (day, period).  Each
    placement puts the keys of its slot into the occupancy dicts at once,
    and no key is ever removed. *)
Theorem generated_slots_conflict_free insert_raises body user db db' res :
  generate_timetable insert_raises body user db = (db', Success res) →
  (∀ room, room ∈ classrooms db → room_id room ≠ "") →
  let existing :=
    query_existing (clear_existing body (tenant_id user) db) (tenant_id user) in
  conflict_free existing →
  conflict_free (existing ++ slots res)
  ∧ (∀ tenant batch rooms asgn day period st allocated st' allocated',
       period_body insert_raises tenant batch rooms asgn day period st allocated
         = (st', allocated') →
       allocated' ≠ allocated →
       ∃ s, created_slots st' = created_slots st ++ [s]
            ∧ covered (occ st') s ∧ occ_le (occ st) (occ st')).
Proof.
  intros Hrun Hrooms existing Hfree. split.
  - apply generate_timetable_success in Hrun
      as (b & semester & st & _ & _ & Hloop & _ & -> & _).

    eapply (assignment_loop_inv insert_raises (tenant_id user) (batch_id body) _ existing)
      in Hloop as [_ Hcf]; [exact Hcf | |].
    + intros room Hin%query_rooms_subset.
      destruct (clear_existing_fields body (tenant_id user) db) as (_ & _ & _ & Hc & _).
      rewrite Hc in Hin. by apply Hrooms.
    + split; simpl; rewrite app_nil_r; [|done].
      intros s Hs. by apply index_existing_covered.
  - intros tenant batch rooms asgn day period st allocated st' allocated' Hbody Hne.
    destruct (period_body_marks insert_raises tenant batch rooms asgn day period
                st allocated st' allocated' Hbody)
      as [Hle [[-> _] | [_ (s & Hcr & _ & _ & _ & _ & _ & Hcov)]]]; [done|].
    exists s. done.
Qed.

Lemma conflict_free_singleton s : conflict_free [s].
Proof.
  intros i j s1 s2 Hij H1 H2.
  apply list_lookup_singleton_Some in H1 as [-> _].
  apply list_lookup_singleton_Some in H2 as [-> _]. done.
Qed.

Lemma generated_slots_conflict_free_witness :
  ∃ res,
    (generate_timetable Sample.never_raises (mkTimetableGenerate "b1" false)
       Sample.admin_a1 (Sample.tt_db [Sample.other_slot])).2 = Success res
    ∧ length (slots res) = 4%nat
    ∧ conflict_free ([Sample.other_slot] ++ slots res).
Proof.
  destruct (generate_timetable Sample.never_raises (mkTimetableGenerate "b1" false)
              Sample.admin_a1 (Sample.tt_db [Sample.other_slot])) as [db' out] eqn:Hrun.
  assert (∃ res, out = Success res ∧ length (slots res) = 4%nat) as (res & -> & Hlen).
  { vm_compute in Hrun. injection Hrun as _ <-. eexists. split; reflexivity. }
  exists res. split; [reflexivity|]. split; [exact Hlen|].
  apply (generated_slots_conflict_free Sample.never_raises (mkTimetableGenerate "b1" false)
           Sample.admin_a1 (Sample.tt_db [Sample.other_slot]) db' res Hrun).
  - intros room Hin. simpl in Hin.
    apply elem_of_cons in Hin as [-> | Hin]; [discriminate|].
    apply list_elem_of_singleton in Hin as ->. discriminate.
  - apply conflict_free_singleton.
Defined.

(** ** Timetable generation: failures *)

Lemma require_role_error {allowed user c d} :
  require_role allowed user = HTTPException c d → c = 403.
Proof. unfold require_role. destruct (decide _); congruence. Qed.

Lemma get_tenant_id_error {user c d} :
  get_tenant_id user = HTTPException c d → c = 403.
Proof.
  unfold get_tenant_id. destruct (decide _); [congruence|].
  destruct (truthy _); congruence.
Qed.

(** A 404 leaves the store as it was. *)
Lemma generate_timetable_404_keeps_store insert_raises body user db db' d :
  generate_timetable insert_raises body user db = (db', HTTPException 404 d) → db' = db.
Proof.
  unfold generate_timetable.
  destruct (require_role _ user) as [u|]; [|congruence].
  destruct (get_tenant_id u) as [tenant|]; [|congruence].
  destruct (query_batch _ _ _) as [b|]; [|congruence].
  destruct (sub_id <$> query_semester_subjects _ _ _); [congruence|].
  destruct (query_periods _ _); [congruence|].
  destruct (assignment_loop _ _ _ _ _ _ _) as [st ok]. destruct ok; congruence.
Qed.

(** Without [force_regenerate], a 400 or 403 leaves the store as it was. *)
Lemma generate_timetable_error_without_force insert_raises body user db db' c d :
  force_regenerate body = false →
  generate_timetable insert_raises body user db = (db', HTTPException c d) →
  c ≠ 500 → db' = db.
Proof.
  intros Hforce. unfold generate_timetable, clear_existing. rewrite Hforce.
  destruct (require_role _ user) as [u|]; [|congruence].
  destruct (get_tenant_id u) as [tenant|]; [|congruence].
  destruct (query_batch _ _ _) as [b|]; [|congruence].
  destruct (sub_id <$> query_semester_subjects _ _ _); [congruence|].
  destruct (query_periods _ _); [congruence|].
  destruct (assignment_loop _ _ _ _ _ _ _) as [st ok]. destruct ok; congruence.
Qed.

(** The two 400 failures are raised after the wipe: the store they leave is
    the wiped one. *)
Lemma generate_timetable_400_after_wipe insert_raises body user db db' d :
  generate_timetable insert_raises body user db = (db', HTTPException 400 d) →
  db' = clear_existing body (tenant_id user) db.
Proof.
  unfold generate_timetable.
  destruct (require_role _ user) as [u|c0 d0] eqn:Hrole.
  2:{ apply require_role_error in Hrole. congruence. }
  assert (u = user) as ->.
  { unfold require_role in Hrole. destruct (decide _); congruence. }
  destruct (get_tenant_id user) as [tenant|c0 d0] eqn:Hten.
  2:{ apply get_tenant_id_error in Hten. congruence. }
  apply get_tenant_id_inv in Hten as ->.
  destruct (query_batch _ _ _) as [b|]; [|congruence].
  destruct (sub_id <$> query_semester_subjects _ _ _); [congruence|].
  destruct (query_periods _ _); [congruence|].
  destruct (assignment_loop _ _ _ _ _ _ _) as [st ok]. destruct ok; congruence.
Qed.

(** C3: the code at the failing input.  Batch [b1] has one stored slot.  With
    [force_regenerate] set, a run that fails because the semester has no
    subject, or because no period template exists, has already deleted that
    slot when it raises. *)
Theorem generate_failure_after_wipe :
  let body := mkTimetableGenerate "b1" true in
  let no_subject := Sample.tt_store [] Sample.six_periods [Sample.own_slot; Sample.other_slot] in
  let no_period :=
    Sample.tt_store [mkSubject "s2" (Some "t1") "p2" 3] []
                    [Sample.own_slot; Sample.other_slot] in
  let out1 := generate_timetable Sample.never_raises body Sample.admin_a1 no_subject in
  let out2 := generate_timetable Sample.never_raises body Sample.admin_a1 no_period in
  out1.2 = HTTPException 400 "No subjects found for this batch's semester"
  ∧ timetable_slots out1.1 = [Sample.other_slot]
  ∧ out2.2 = HTTPException 400 "No period templates set up"
  ∧ timetable_slots out2.1 = [Sample.other_slot].
Proof. simpl. repeat split; vm_compute; reflexivity. Qed.

(** ** Timetable generation: which assignments are scheduled *)

Lemma query_subjects_spec db t semester s :
  s ∈ query_subjects db (Some t) semester
  ↔ s ∈ subjects db ∧ sub_tenant_id s = Some t ∧ sub_semester s = semester.
Proof.
  unfold query_subjects, select_where.
  rewrite list_elem_of_filter, andb_true_iff, bool_decide_eq_true, sql_eq_true.
  split.
  - intros [[(x & Hx & [= <-]) Hsem] Hin]. done.
  - intros (Hin & Hten & Hsem). eauto.
Qed.

Lemma query_assignments_spec db t subject_ids a :
  a ∈ query_assignments db (Some t) subject_ids
  ↔ a ∈ faculty_assignments db ∧ fa_tenant_id a = Some t ∧ fa_subject_id a ∈ subject_ids.
Proof.
  unfold query_assignments, select_where.
  rewrite list_elem_of_filter, andb_true_iff, bool_decide_eq_true, sql_eq_true.
  split.
  - intros [[(x & Hx & [= <-]) Hsub] Hin]. done.
  - intros (Hin & Hten & Hsub). eauto.
Qed.

(** The subject query reads the tenant and the semester of a subject and
    nothing else: an assignment on any subject of the tenant with the
    batch's semester number is among the scheduled ones, whatever the
    program of that subject. *)
Lemma any_program_is_scheduled db t semester s a :
  s ∈ subjects db → sub_tenant_id s = Some t → sub_semester s = semester →
  a ∈ faculty_assignments db → fa_tenant_id a = Some t →
  fa_subject_id a = sub_id s →
  a ∈ query_assignments db (Some t)
        (sub_id <$> query_subjects db (Some t) semester).
Proof.
  intros Hs Hst Hsem Ha Hat Hsub.
  apply query_assignments_spec. split; [done|]. split; [done|].
  rewrite Hsub. apply list_elem_of_fmap_2. by apply query_subjects_spec.
Qed.

Lemma subject_ids_ignore_program tenant semester (prog : Subject → string)
    (l : list Subject) :
  sub_id <$> select_where
               (λ s, sql_eq (sub_tenant_id s) tenant
                     && bool_decide (sub_semester s = semester))
               ((λ s, mkSubject (sub_id s) (sub_tenant_id s) (prog s) (sub_semester s))
                  <$> l)
  = sub_id <$> select_where
                 (λ s, sql_eq (sub_tenant_id s) tenant
                       && bool_decide (sub_semester s = semester)) l.
Proof.
  unfold select_where. induction l as [|a l IH]; [done|].
  rewrite fmap_cons, !filter_cons. cbn [sub_tenant_id sub_semester sub_id].
  destruct (decide _) as [H | H]; [|done].
  rewrite !fmap_cons. cbn [sub_id]. by rewrite IH.
Qed.

(** The whole run is blind to programs: give every subject and every batch
    any other program, and the response and the slot table it leaves are
    the same. *)
Lemma generate_timetable_ignores_programs insert_raises body user db
    (sub_prog : Subject → string) (batch_prog : Batch → string) :
  let db2 :=
    mkDb (od_requests db) (batch_students db) (student_enrollments db)
         ((λ s, mkSubject (sub_id s) (sub_tenant_id s) (sub_prog s) (sub_semester s))
            <$> subjects db)
         (internal_marks db)
         ((λ b, mkBatch (b_tenant_id b) (batch_prog b) (b_semester b)) <$> batches db)
         (faculty_assignments db) (period_templates db) (classrooms db)
         (timetable_slots db) in
  (generate_timetable insert_raises body user db2).2
  = (generate_timetable insert_raises body user db).2
  ∧ timetable_slots (generate_timetable insert_raises body user db2).1
    = timetable_slots (generate_timetable insert_raises body user db).1.
Proof.
  intros db2. unfold generate_timetable.
  destruct (require_role _ user) as [u|]; [|done].
  destruct (get_tenant_id u) as [tenant|]; [|done].
  unfold query_batch. subst db2. cbn [batches]. rewrite lookup_fmap.
  destruct (batches db !! batch_id body) as [b|]; cbn [fmap option_fmap option_map];
    [|done].
  cbn [b_tenant_id b_semester].
  destruct (sql_eq (b_tenant_id b) tenant); [|done].
  set (db2 := mkDb _ _ _ _ _ _ _ _ _ _).
  assert (Hids : sub_id <$> query_semester_subjects (clear_existing body tenant db2)
                              tenant (b_semester b)
                 = sub_id <$> query_semester_subjects (clear_existing body tenant db)
                                tenant (b_semester b)).
  { destruct (b_semester b) as [semester|]; [|done].
    cbn [query_semester_subjects]. unfold query_subjects.
    destruct (clear_existing_fields body tenant db) as (-> & _).
    destruct (clear_existing_fields body tenant db2) as (-> & _).
    apply subject_ids_ignore_program. }
  assert (Hqa : ∀ ids, query_assignments (clear_existing body tenant db2) tenant ids
                       = query_assignments (clear_existing body tenant db) tenant ids).
  { intros ids. unfold clear_existing. by destruct (force_regenerate body). }
  assert (Hqp : query_periods (clear_existing body tenant db2) tenant
                = query_periods (clear_existing body tenant db) tenant).
  { unfold clear_existing. by destruct (force_regenerate body). }
  assert (Hqr : query_rooms (clear_existing body tenant db2) tenant
                = query_rooms (clear_existing body tenant db) tenant).
  { unfold clear_existing. by destruct (force_regenerate body). }
  assert (Hqe : query_existing (clear_existing body tenant db2) tenant
                = query_existing (clear_existing body tenant db) tenant).
  { unfold clear_existing. by destruct (force_regenerate body). }
  assert (Htab : timetable_slots (clear_existing body tenant db2)
                 = timetable_slots (clear_existing body tenant db)).
  { unfold clear_existing. by destruct (force_regenerate body). }
  cbn [b_semester]. rewrite Hids, Hqa, Hqp, Hqr, Hqe, Htab.
  destruct (sub_id <$> query_semester_subjects (clear_existing body tenant db) tenant
                         (b_semester b)) as [|i ids]; [done|].
  destruct (query_periods (clear_existing body tenant db) tenant) as [|p ps]; [done|].
  destruct (assignment_loop _ _ _ _ _ _ _) as [st ok]. by destruct ok.
Qed.

(** C10: the code at the failing input.  Batch [b1] is of program [p1] and
    the only subject of its semester, [s2], is of program [p2].  With 4
    hours given on the assignment of [s2], the run books 4 slots of [s2]
    for [b1]: the program plays no part.  With the hours missing, that is
    NULL in the selected column, the value is not replaced by 4: the run
    answers 500 and books nothing. *)
Theorem missing_hours_not_defaulted :
  let body := mkTimetableGenerate "b1" false in
  let given :=
    generate_timetable Sample.never_raises body Sample.admin_a1
      (Sample.tt_hours_db (HoursValue 4)) in
  let missing :=
    generate_timetable Sample.never_raises body Sample.admin_a1
      (Sample.tt_hours_db HoursNull) in
  (∃ r, given.2 = Success r ∧ allocated_slots r = 4%nat
        ∧ total_assignments r = 1%nat
        ∧ Forall (λ x, ts_subject_id x = "s2" ∧ ts_batch_id x = "b1") (slots r)
        ∧ timetable_slots given.1 = slots r)
  ∧ (∃ d, missing.2 = HTTPException 500 d)
  ∧ timetable_slots missing.1 = [].
Proof.
  simpl. split; [|split].
  - eexists. split; [vm_compute; reflexivity|]. split; [reflexivity|].
    split; [reflexivity|]. split; [repeat constructor | vm_compute; reflexivity].
  - eexists. vm_compute. reflexivity.
  - vm_compute. reflexivity.
Qed.

(** ** Timetable generation: scan order *)

(** Keys of one owner tell the cells of the week apart. *)
Lemma occ_key_inj who d p d' p' :
  d ∈ days → d' ∈ days → occ_key who d p = occ_key who d' p' → d = d' ∧ p = p'.
Proof.
  unfold occ_key, days. intros Hd Hd' Hk.
  apply (inj (String.app who)) in Hk. injection Hk as Hk.
  assert (∀ x, x ∈ [1; 2; 3; 4; 5; 6] →
            ∃ c, pretty x = String c "" ∧ x = Z.of_nat (Ascii.nat_of_ascii c) - 48)
    as Hdigit.
  { intros x Hx. repeat (apply elem_of_cons in Hx as [-> | Hx]);
      [eexists; split; reflexivity.. | by apply elem_of_nil in Hx]. }
  destruct (Hdigit d Hd) as (c & Hc & ->).
  destruct (Hdigit d' Hd') as (c' & Hc' & ->).
  rewrite Hc, Hc' in Hk. simpl in Hk. injection Hk as -> Hk.
  split; [done|]. by apply (inj pretty).
Qed.

Section Scan.

Variable insert_raises : list TimetableSlot → TimetableSlot → bool.
Variable tenant : option string.
Variable batch : string.
Variable rooms : list Classroom.
Variable asgn : FacultyAssignment.
Variable hrs : Z.

Abbreviation cell_loop' := (cell_loop insert_raises tenant batch rooms asgn hrs).

Lemma cell_loop_done cs st allocated :
  hrs ≤ allocated → cell_loop' cs st allocated = (st, allocated).
Proof. intros H. destruct cs; simpl; [done|]. by rewrite decide_True. Qed.

Lemma cell_loop_app cs1 cs2 st allocated :
  cell_loop' (cs1 ++ cs2) st allocated
  = let '(st', allocated') := cell_loop' cs1 st allocated in
    cell_loop' cs2 st' allocated'.
Proof.
  revert st allocated. induction cs1 as [|c cs1 IH]; intros st allocated; simpl; [done|].
  destruct (decide _); [by rewrite cell_loop_done|].
  destruct (period_body _ _ _ _ _ _ _ _ _) as [st1 a1]. apply IH.
Qed.

Lemma period_loop_cells day periods st allocated :
  period_loop insert_raises tenant batch rooms asgn hrs day periods st allocated
  = cell_loop' (pair day <$> periods) st allocated.
Proof.
  revert st allocated. induction periods as [|p periods IH]; intros st allocated;
    simpl; [done|].
  destruct (decide _); [done|].
  destruct (period_body _ _ _ _ _ _ _ _ _) as [st1 a1]. apply IH.
Qed.

(** With the same break test in both loops, scanning day by day is
    scanning the cells in day-major order. *)
Lemma day_loop_cells ds periods st allocated :
  day_loop insert_raises tenant batch rooms asgn hrs ds periods st allocated
  = cell_loop' (cells ds periods) st allocated.
Proof.
  revert st allocated. induction ds as [|day ds IH]; intros st allocated; [done|].
  change (cells (day :: ds) periods) with ((pair day <$> periods) ++ cells ds periods).
  cbn [day_loop]. destruct (decide _) as [Hdone|Hmore].
  { by rewrite cell_loop_done. }
  rewrite cell_loop_app, period_loop_cells.
  destruct (cell_loop' _ st allocated) as [st1 a1]. apply IH.
Qed.

(** The store accepts every slot that clashes with no stored slot. *)
Hypothesis accepts_free :
  ∀ tbl s, (∀ s', s' ∈ tbl → ¬ clash s' s) → insert_raises tbl s = false.

Lemma period_body_fresh c st allocated booked :
  booked_only (fa_faculty_id asgn) batch st booked →
  c.1 ∈ days → coord c ∉ booked →
  ∃ st' s,
    period_body insert_raises tenant batch rooms asgn c.1 c.2 st allocated
      = (st', allocated + 1)
    ∧ created_slots st' = created_slots st ++ [s]
    ∧ table st' = table st ++ [s]
    ∧ slot_coord s = coord c
    ∧ ts_faculty_id s = fa_faculty_id asgn
    ∧ ts_subject_id s = fa_subject_id asgn
    ∧ ts_batch_id s = batch
    ∧ booked_only (fa_faculty_id asgn) batch st' (booked ++ [coord c]).
Proof.
  intros (Hf & Hb & Ht & Hd) Hday Hnew.
  destruct (period_body insert_raises tenant batch rooms asgn c.1 c.2 st allocated)
    as [st' a'] eqn:Hbody.
  unfold period_body in Hbody.
  destruct (decide _) as [[Hbusy | Hbusy] | _] in Hbody.
  { destruct (Hf _ Hbusy) as (c' & Hin & Hk).
    apply occ_key_inj in Hk as [Hk1 Hk2]; [|done|by apply Hd].
    destruct Hnew. by replace (coord c) with c' by (destruct c'; unfold coord; simpl in *; congruence). }
  { destruct (Hb _ Hbusy) as (c' & Hin & Hk).
    apply occ_key_inj in Hk as [Hk1 Hk2]; [|done|by apply Hd].
    destruct Hnew. by replace (coord c) with c' by (destruct c'; unfold coord; simpl in *; congruence). }
  rewrite accepts_free in Hbody.
  2:{ intros s' Hs' [[Hd' Hp'] _]. apply Hnew.
      specialize (Ht s' Hs'). unfold slot_coord in Ht. simpl in Hd', Hp'.
      by rewrite Hd', Hp' in Ht. }
  injection Hbody as <- <-. eexists _, _. split; [done|]. simpl.
  do 6 (split; [done|]).
  split; [|split; [|split]].
  - intros k [->%elem_of_singleton | Hk]%elem_of_union.
    + exists (coord c). split; [apply elem_of_app; right; apply list_elem_of_here | done].
    + destruct (Hf k Hk) as (c' & Hin & ->). exists c'. split; [|done].
      apply elem_of_app. by left.
  - intros k [->%elem_of_singleton | Hk]%elem_of_union.
    + exists (coord c). split; [apply elem_of_app; right; apply list_elem_of_here | done].
    + destruct (Hb k Hk) as (c' & Hin & ->). exists c'. split; [|done].
      apply elem_of_app. by left.
  - intros s [Hs | ->%list_elem_of_singleton]%elem_of_app; apply elem_of_app.
    + left. by apply Ht.
    + right. apply list_elem_of_here.
  - intros c' [Hin | ->%list_elem_of_singleton]%elem_of_app; [by apply Hd | done].
Qed.

(** On cells that are all still free, the loop books the first
    [hrs - allocated] of them, in order. *)
Lemma cell_loop_fresh cs st allocated booked :
  booked_only (fa_faculty_id asgn) batch st booked →
  (∀ c, c ∈ cs → c.1 ∈ days) →
  NoDup (coord <$> cs) →
  (∀ c, c ∈ cs → coord c ∉ booked) →
  ∃ st' new,
    cell_loop' cs st allocated = (st', allocated + Z.of_nat (length new))
    ∧ created_slots st' = created_slots st ++ new
    ∧ table st' = table st ++ new
    ∧ slot_coord <$> new = take (Z.to_nat (hrs - allocated)) (coord <$> cs)
    ∧ Forall (λ s, ts_faculty_id s = fa_faculty_id asgn
                   ∧ ts_subject_id s = fa_subject_id asgn
                   ∧ ts_batch_id s = batch) new.
Proof.
  revert st allocated booked.
  induction cs as [|c cs IH]; intros st allocated booked Hbk Hdays Hnd Hnew.
  { exists st, []. simpl. rewrite Z.add_0_r, !app_nil_r, take_nil. done. }
  simpl. destruct (decide (hrs ≤ allocated)) as [Hdone|Hmore].
  { exists st, []. simpl. rewrite Z.add_0_r, !app_nil_r.
    replace (Z.to_nat (hrs - allocated)) with 0%nat by lia. done. }
  destruct (period_body_fresh c st allocated booked Hbk) as
    (st1 & s & -> & Hcr & Htb & Hco & Hfac & Hsub & Hbat & Hbk1).
  { apply Hdays, list_elem_of_here. }
  { apply Hnew, list_elem_of_here. }
  apply NoDup_cons in Hnd as [Hc Hnd].
  destruct (IH st1 (allocated + 1) (booked ++ [coord c]) Hbk1) as
    (st' & new & -> & Hcr' & Htb' & Hco' & Hall).
  { intros c' Hc'. by apply Hdays, list_elem_of_further. }
  { done. }
  { intros c' Hc' [Hin | Heq%list_elem_of_singleton]%elem_of_app.
    - by apply (Hnew c'); [apply list_elem_of_further|].
    - apply Hc. rewrite <- Heq. by apply list_elem_of_fmap_2. }
  exists st', (s :: new). split; [|split; [|split; [|split]]].
  - f_equal. simpl length. lia.
  - by rewrite Hcr', Hcr, <- app_assoc.
  - by rewrite Htb', Htb, <- app_assoc.
  - replace (Z.to_nat (hrs - allocated)) with (S (Z.to_nat (hrs - (allocated + 1))))
      by lia.
    csimpl. by rewrite Hco, Hco'.
  - by constructor.
Qed.

End Scan.

Lemma cells_cons d ds periods :
  cells (d :: ds) periods = (pair d <$> periods) ++ cells ds periods.
Proof. done. Qed.

Lemma cells_day ds periods c : c ∈ cells ds periods → c.1 ∈ ds.
Proof.
  induction ds as [|d ds IH]; [by intros ?%elem_of_nil|].
  rewrite cells_cons, elem_of_app, list_elem_of_fmap.
  intros [(p & -> & _) | Hin]; [apply list_elem_of_here|].
  by apply list_elem_of_further, IH.
Qed.

Lemma cells_coord_NoDup ds periods :
  NoDup ds → NoDup (pt_period_number <$> periods) → NoDup (coord <$> cells ds periods).
Proof.
  intros Hds Hps. induction Hds as [|d ds Hd Hds IH]; [constructor|].
  rewrite cells_cons, fmap_app. apply NoDup_app. split; [|split; [|done]].
  - rewrite <- list_fmap_compose.
    change (coord ∘ pair d) with (pair d ∘ pt_period_number).
    rewrite list_fmap_compose. apply (NoDup_fmap_2 _). done.
  - intros x (c & -> & (p & -> & _)%list_elem_of_fmap)%list_elem_of_fmap
             (c' & Hc' & Hin%cells_day)%list_elem_of_fmap.
    apply Hd. unfold coord in Hc'. simpl in Hc'. by injection Hc' as ->.
Qed.

Lemma days_NoDup : NoDup days.
Proof. apply (bool_decide_unpack _). by vm_compute. Qed.

Lemma clear_existing_queries body tenant db semester ids :
  let db1 := clear_existing body tenant db in
  query_subjects db1 tenant semester = query_subjects db tenant semester
  ∧ query_assignments db1 tenant ids = query_assignments db tenant ids
  ∧ query_periods db1 tenant = query_periods db tenant
  ∧ query_rooms db1 tenant = query_rooms db tenant
  ∧ (timetable_slots db = [] → timetable_slots db1 = []).
Proof.
  unfold clear_existing. destruct (force_regenerate body); [|done].
  repeat split. simpl. by intros ->.
Qed.

(** C9: for a batch with a semester, an empty slot table, a single scheduled
    assignment that needs 4 hours, period templates with distinct numbers,
    and a store that accepts every clash-free insert, the run succeeds and
    creates exactly 4 slots:
    the first 4 cells of the scan that takes days 1 to 6 in order and, within
    a day, the periods in template order.  With at least 4 periods a day
    (6 in the scenario) all 4 are on day 1; with 3 the fourth is the first
    period of day 2. *)
Theorem single_assignment_scan insert_raises body user db t b semester asgn :
  role user = "admin" → tenant_id user = Some t → t ≠ "" →
  batches db !! batch_id body = Some b → b_tenant_id b = Some t →
  b_semester b = Some semester →
  timetable_slots db = [] →
  query_assignments db (Some t)
    (sub_id <$> query_subjects db (Some t) semester) = [asgn] →
  hrs_needed asgn = Some 4 →
  let periods := query_periods db (Some t) in
  periods ≠ [] → NoDup (pt_period_number <$> periods) →
  (∀ tbl s, (∀ s', s' ∈ tbl → ¬ clash s' s) → insert_raises tbl s = false) →
  ∃ db' res,
    generate_timetable insert_raises body user db = (db', Success res)
    ∧ allocated_slots res = 4%nat
    ∧ length (slots res) = 4%nat
    ∧ timetable_slots db' = slots res
    ∧ slot_coord <$> slots res = take 4 (coord <$> cells days periods)
    ∧ Forall (λ s, ts_faculty_id s = fa_faculty_id asgn
                   ∧ ts_subject_id s = fa_subject_id asgn
                   ∧ ts_batch_id s = batch_id body) (slots res)
    ∧ (∀ p1 p2 p3 p4 rest, periods = p1 :: p2 :: p3 :: p4 :: rest →
         slot_coord <$> slots res
         = [(1, pt_period_number p1); (1, pt_period_number p2);
            (1, pt_period_number p3); (1, pt_period_number p4)])
    ∧ (∀ p1 p2 p3, periods = [p1; p2; p3] →
         slot_coord <$> slots res
         = [(1, pt_period_number p1); (1, pt_period_number p2);
            (1, pt_period_number p3); (2, pt_period_number p1)]).
Proof.
  intros Hrole Ht Hne Hb Hbt Hsem Hempty Hasg Hhrs periods Hper Hnd Hacc.
  unfold generate_timetable.
  rewrite (require_role_ok ["admin"] user) by (rewrite Hrole; apply list_elem_of_here).
  rewrite (get_tenant_id_ok _ _ Ht Hne).
  unfold query_batch. rewrite Hb, Hbt, sql_eq_refl, Hsem.
  cbn [query_semester_subjects].
  set (db1 := clear_existing body (Some t) db).
  set (ids := sub_id <$> query_subjects db1 (Some t) semester).
  destruct (clear_existing_queries body (Some t) db semester ids)
    as (Hqs & Hqa & Hqp & _ & Hqe).
  fold db1 in Hqs, Hqa, Hqp, Hqe. specialize (Hqe Hempty).
  assert (Hids : ids = sub_id <$> query_subjects db (Some t) semester).
  { unfold ids. by rewrite Hqs. }
  rewrite Hqa, Hids, Hasg, Hqp. fold periods.
  destruct (sub_id <$> query_subjects db (Some t) semester) as [|id0 ids0] eqn:Hsub.
  { assert (asgn ∈ query_assignments db (Some t) []) as Hin
      by (rewrite Hasg; apply list_elem_of_here).
    apply query_assignments_spec in Hin as (_ & _ & Hin). by apply elem_of_nil in Hin. }
  destruct periods as [|p0 ps0] eqn:Hps; [done|]. rewrite <- Hps in *.
  cbn [assignment_loop]. rewrite Hhrs, day_loop_cells.
  unfold query_existing. rewrite Hqe. cbn [select_where filter list_filter index_existing foldl].
  edestruct (cell_loop_fresh insert_raises (Some t) (batch_id body) (query_rooms db1 (Some t))
               asgn 4 Hacc (cells days periods)
               (mkRun [] (mkOccupancy ∅ ∅ ∅) []) 0 [])
    as (st' & new & -> & Hcr & Htb & Hco & Hall).
  { repeat split; simpl; intros x Hx; by apply elem_of_empty in Hx || apply elem_of_nil in Hx. }
  { intros c. apply cells_day. }
  { apply cells_coord_NoDup; [apply days_NoDup | done]. }
  { intros c _ Hin. by apply elem_of_nil in Hin. }
  simpl in Hcr, Htb. change (Z.to_nat (4 - 0)) with 4%nat in Hco.
  assert (Hlen : length new = 4%nat).
  { rewrite <- (length_fmap slot_coord), Hco, length_take, length_fmap.
    rewrite Hps. unfold days. rewrite !cells_cons, !length_app, !length_fmap.
    change (cells [] (p0 :: ps0)) with (@nil (Z * PeriodTemplate)).
    cbn [length]. lia. }
  eexists _, _. split; [reflexivity|]. simpl. rewrite Hcr, Htb.
  split; [done|]. split; [done|]. split; [done|]. split; [done|]. split; [done|].
  split.
  - intros p1 p2 p3 p4 rest Heq. rewrite Hco, Heq. reflexivity.
  - intros p1 p2 p3 Heq. rewrite Hco, Heq. reflexivity.
Qed.

Lemma single_assignment_scan_witness :
  ∃ db' res,
    generate_timetable Sample.never_raises (mkTimetableGenerate "b1" false)
      Sample.admin_a1 (Sample.tt_hours_db (HoursValue 4)) = (db', Success res)
    ∧ allocated_slots res = 4%nat
    ∧ slot_coord <$> slots res = [(1, 1); (1, 2); (1, 3); (1, 4)].
Proof.
  destruct (single_assignment_scan Sample.never_raises (mkTimetableGenerate "b1" false)
              Sample.admin_a1 (Sample.tt_hours_db (HoursValue 4)) "t1"
              (mkBatch (Some "t1") "p1" (Some 3)) 3
              (mkFacultyAssignment (Some "t1") "f1" "s2" (HoursValue 4)))
    as (db' & res & Hrun & Hn & _ & _ & Hco & _).
  - reflexivity.
  - reflexivity.
  - discriminate.
  - vm_compute. reflexivity.
  - reflexivity.
  - reflexivity.
  - reflexivity.
  - vm_compute. reflexivity.
  - reflexivity.
  - vm_compute. discriminate.
  - apply (bool_decide_unpack _). by vm_compute.
  - intros tbl s _. reflexivity.
  - exists db', res. split; [exact Hrun|]. split; [exact Hn|].
    rewrite Hco. vm_compute. reflexivity.
Defined.

(** The default of 4 hours is for an absent key only: on a NULL
    [hours_per_week] the comparison [allocated >= hrs_needed] raises, the
    loop stops at that assignment and the route answers 500. *)
Lemma assignment_loop_null_hours insert_raises tenant batch rooms asgn rest periods st :
  fa_hours_per_week asgn = HoursNull →
  assignment_loop insert_raises tenant batch rooms (asgn :: rest) periods st = (st, false).
Proof. intros H. cbn [assignment_loop]. unfold hrs_needed. by rewrite H. Qed.

(** * Further properties of the routes *)

(** ** Permission failures *)

Lemma guards_403 allowed user :
  "super_admin" ∉ allowed →
  role user ∉ allowed ∨ truthy (tenant_id user) = false →
  (∃ d, require_role allowed user = HTTPException 403 d)
  ∨ (require_role allowed user = Success user
     ∧ ∃ d, get_tenant_id user = HTTPException 403 d).
Proof.
  intros Hsa H. unfold require_role, get_tenant_id.
  destruct (decide (role user ∈ allowed)) as [Hin|Hout]; [|left; eauto].
  destruct H as [H | H]; [done|]. right. split; [done|].
  rewrite decide_False by (intros Heq; rewrite Heq in Hin; done).
  rewrite H. eauto.
Qed.

Ltac not_in_roles :=
  rewrite ?not_elem_of_cons; repeat split; try discriminate; apply not_elem_of_nil.

(** X1: a caller whose role is not among the roles of a route, or whose
    tenant is missing or empty, gets 403 from that route and the store stays as
    it was.  This holds for the seven routes of the two engines. *)
Theorem routes_reject_unauthorized user db :
  (∀ new_id body,
     role user ∉ ["student"] ∨ truthy (tenant_id user) = false →
     ∃ d, apply_od new_id body user db = (db, HTTPException 403 d))
  ∧ (∀ od_id body now,
     role user ∉ ["faculty"] ∨ truthy (tenant_id user) = false →
     ∃ d, faculty_od_action od_id body user now db = (db, HTTPException 403 d))
  ∧ (∀ od_id body now,
     role user ∉ ["hod"] ∨ truthy (tenant_id user) = false →
     ∃ d, hod_od_action od_id body user now db = (db, HTTPException 403 d))
  ∧ (∀ body,
     role user ∉ ["faculty"] ∨ truthy (tenant_id user) = false →
     ∃ d, submit_marks body user db = (db, HTTPException 403 d))
  ∧ (∀ subject act now,
     role user ∉ ["hod"; "admin"] ∨ truthy (tenant_id user) = false →
     ∃ d, approve_marks subject act user now db = (db, HTTPException 403 d))
  ∧ (∀ subject now,
     role user ∉ ["admin"] ∨ truthy (tenant_id user) = false →
     ∃ d, lock_marks subject user now db = (db, HTTPException 403 d))
  ∧ (∀ insert_raises body,
     role user ∉ ["admin"] ∨ truthy (tenant_id user) = false →
     ∃ d, generate_timetable insert_raises body user db = (db, HTTPException 403 d)).
Proof.
  repeat split; intros.
  - unfold apply_od.
    destruct (guards_403 ["student"] user) as [[d ->] | [-> [d ->]]];
      [not_in_roles | done | eauto..].
  - unfold faculty_od_action, od_action.
    destruct (guards_403 ["faculty"] user) as [[d ->] | [-> [d ->]]];
      [not_in_roles | done | eauto..].
  - unfold hod_od_action, od_action.
    destruct (guards_403 ["hod"] user) as [[d ->] | [-> [d ->]]];
      [not_in_roles | done | eauto..].
  - unfold submit_marks.
    destruct (guards_403 ["faculty"] user) as [[d ->] | [-> [d ->]]];
      [not_in_roles | done | eauto..].
  - unfold approve_marks.
    destruct (guards_403 ["hod"; "admin"] user) as [[d ->] | [-> [d ->]]];
      [not_in_roles | done | eauto..].
  - unfold lock_marks.
    destruct (guards_403 ["admin"] user) as [[d ->] | [-> [d ->]]];
      [not_in_roles | done | eauto..].
  - unfold generate_timetable.
    destruct (guards_403 ["admin"] user) as [[d ->] | [-> [d ->]]];
      [not_in_roles | done | eauto..].
Qed.

Lemma routes_reject_unauthorized_witness :
  (∃ d, lock_marks "sub1" Sample.hod_h1 "2024-03-03T09:00:00"
          (Sample.marks_db [Sample.mark "A" "approved" (41#1)])
        = (Sample.marks_db [Sample.mark "A" "approved" (41#1)], HTTPException 403 d))
  ∧ (∃ d, submit_marks (mkMarksSubmit "sub1" [mkMarkEntry "A" (12#1) 50])
            (mkUser "faculty" None "f9") Sample.empty_db
          = (Sample.empty_db, HTTPException 403 d)).
Proof.
  split.
  - destruct (routes_reject_unauthorized Sample.hod_h1
                (Sample.marks_db [Sample.mark "A" "approved" (41#1)]))
      as (_ & _ & _ & _ & _ & H & _).
    apply H. left. simpl. intros Hin.
    apply elem_of_cons in Hin as [Heq | Hin]; [discriminate | by apply elem_of_nil in Hin].
  - destruct (routes_reject_unauthorized (mkUser "faculty" None "f9") Sample.empty_db)
      as (_ & _ & _ & H & _).
    apply H. right. reflexivity.
Defined.

(** ** On-Duty requests: transitions *)

Lemma od_action_authorized allowed required update od_id body user now db t :
  role user ∈ allowed → tenant_id user = Some t → t ≠ "" →
  action body = "approve" ∨ action body = "reject" →
  od_action allowed required update od_id body user now db
  = let '(db', data) :=
      update_od od_id (Some t) required
        (λ r, default r (update (action body) (user_id user) now (rejection_reason body) r))
        db in
    (db', Success data).
Proof.
  intros Hrole Ht Hne Hact. unfold od_action.
  rewrite (require_role_ok _ _ Hrole), (get_tenant_id_ok _ _ Ht Hne).
  by rewrite decide_True.
Qed.

Lemma update_od_hit od_id t required upd db r :
  od_requests db !! od_id = Some r → od_tenant_id r = Some t → od_status r = required →
  update_od od_id (Some t) required upd db
  = (set_od_requests db (<[od_id := upd r]> (od_requests db)), [(od_id, upd r)]).
Proof.
  intros Hr Ht Hst. unfold update_od. rewrite Hr, Ht, sql_eq_refl.
  by rewrite bool_decide_eq_true_2.
Qed.

(** X2: on a request of the caller's tenant in [pending_faculty], approve
    by a faculty member moves it to [pending_hod] and reject moves it to
    [rejected], storing the reason of the body as it is (also when none is
    given); both stamp the caller and the time, return the updated row, and
    leave the request's own data, its HOD stamps and every other row alone. *)
Theorem faculty_od_action_transitions od_id body user now db r t :
  role user = "faculty" → tenant_id user = Some t → t ≠ "" →
  od_requests db !! od_id = Some r →
  od_tenant_id r = Some t → od_status r = "pending_faculty" →
  action body = "approve" ∨ action body = "reject" →
  ∃ r',
    faculty_od_action od_id body user now db
    = (set_od_requests db (<[od_id := r']> (od_requests db)), Success [(od_id, r')])
    ∧ same_request_data r r'
    ∧ od_faculty_action_by r' = Some (user_id user)
    ∧ od_faculty_action_at r' = Some now
    ∧ od_hod_action_by r' = od_hod_action_by r
    ∧ od_hod_action_at r' = od_hod_action_at r
    ∧ (action body = "approve" →
       od_status r' = "pending_hod" ∧ od_rejection_reason r' = od_rejection_reason r)
    ∧ (action body = "reject" →
       od_status r' = "rejected" ∧ od_rejection_reason r' = rejection_reason body).
Proof.
  intros Hrole Ht Hne Hr Hrt Hst Hact.
  unfold faculty_od_action.
  rewrite (od_action_authorized _ _ _ _ _ _ _ _ t) by
    (try done; rewrite Hrole; apply list_elem_of_here).
  rewrite (update_od_hit _ _ _ _ _ r) by done.
  eexists. split; [reflexivity|]. unfold faculty_update, same_request_data.
  destruct Hact as [Ha | Ha]; rewrite Ha; simpl; repeat split; try done;
    intros; discriminate.
Qed.

Lemma faculty_od_action_transitions_witness :
  ∃ r',
    faculty_od_action "od1" (mkODAction "reject" None) Sample.faculty_f2
      "2024-03-02T10:00:00" (Sample.od_db "pending_faculty")
    = (set_od_requests (Sample.od_db "pending_faculty")
         (<["od1" := r']> (od_requests (Sample.od_db "pending_faculty"))),
       Success [("od1", r')])
    ∧ od_status r' = "rejected" ∧ od_rejection_reason r' = None.
Proof.
  destruct (faculty_od_action_transitions "od1" (mkODAction "reject" None)
              Sample.faculty_f2 "2024-03-02T10:00:00" (Sample.od_db "pending_faculty")
              (Sample.request "pending_faculty") "t1")
    as (r' & Hrun & _ & _ & _ & _ & _ & _ & Hrej).
  - reflexivity.
  - reflexivity.
  - discriminate.
  - reflexivity.
  - reflexivity.
  - reflexivity.
  - right. reflexivity.
  - exists r'. split; [exact Hrun|]. apply Hrej. reflexivity.
Defined.

(** X3: on a request of the caller's tenant in [pending_hod], approve by a
    HOD moves it to [approved] and reject to [rejected] with the reason of
    the body; both stamp the HOD and the time and leave the faculty stamps as
    they were. *)
Theorem hod_od_action_transitions od_id body user now db r t :
  role user = "hod" → tenant_id user = Some t → t ≠ "" →
  od_requests db !! od_id = Some r →
  od_tenant_id r = Some t → od_status r = "pending_hod" →
  action body = "approve" ∨ action body = "reject" →
  ∃ r',
    hod_od_action od_id body user now db
    = (set_od_requests db (<[od_id := r']> (od_requests db)), Success [(od_id, r')])
    ∧ same_request_data r r'
    ∧ od_hod_action_by r' = Some (user_id user)
    ∧ od_hod_action_at r' = Some now
    ∧ od_faculty_action_by r' = od_faculty_action_by r
    ∧ od_faculty_action_at r' = od_faculty_action_at r
    ∧ (action body = "approve" →
       od_status r' = "approved" ∧ od_rejection_reason r' = od_rejection_reason r)
    ∧ (action body = "reject" →
       od_status r' = "rejected" ∧ od_rejection_reason r' = rejection_reason body).
Proof.
  intros Hrole Ht Hne Hr Hrt Hst Hact.
  unfold hod_od_action.
  rewrite (od_action_authorized _ _ _ _ _ _ _ _ t) by
    (try done; rewrite Hrole; apply list_elem_of_here).
  rewrite (update_od_hit _ _ _ _ _ r) by done.
  eexists. split; [reflexivity|]. unfold hod_update, same_request_data.
  destruct Hact as [Ha | Ha]; rewrite Ha; simpl; repeat split; try done;
    intros; discriminate.
Qed.

Lemma hod_od_action_transitions_witness :
  ∃ r',
    hod_od_action "od1" (mkODAction "approve" None) Sample.hod_h1
      "2024-03-02T11:00:00" (Sample.od_db "pending_hod")
    = (set_od_requests (Sample.od_db "pending_hod")
         (<["od1" := r']> (od_requests (Sample.od_db "pending_hod"))),
       Success [("od1", r')])
    ∧ od_status r' = "approved" ∧ od_faculty_action_by r' = None.
Proof.
  destruct (hod_od_action_transitions "od1" (mkODAction "approve" None)
              Sample.hod_h1 "2024-03-02T11:00:00" (Sample.od_db "pending_hod")
              (Sample.request "pending_hod") "t1")
    as (r' & Hrun & _ & _ & _ & Hfac & _ & Happ & _).
  - reflexivity.
  - reflexivity.
  - discriminate.
  - reflexivity.
  - reflexivity.
  - reflexivity.
  - left. reflexivity.
  - exists r'. split; [exact Hrun|]. split; [by apply Happ | by rewrite Hfac].
Defined.

(** X4: an action other than approve or reject is answered with 400 by the
    two On-Duty action routes and by the marks action route, whatever the
    target, and the store stays as it was. *)
Theorem invalid_action_rejected user db t act :
  tenant_id user = Some t → t ≠ "" →
  act ≠ "approve" → act ≠ "reject" →
  (∀ od_id reason now, role user = "faculty" →
     faculty_od_action od_id (mkODAction act reason) user now db
     = (db, HTTPException 400 "Invalid action"))
  ∧ (∀ od_id reason now, role user = "hod" →
     hod_od_action od_id (mkODAction act reason) user now db
     = (db, HTTPException 400 "Invalid action"))
  ∧ (∀ subject now, role user ∈ ["hod"; "admin"] →
     approve_marks subject act user now db = (db, HTTPException 400 "Invalid action")).
Proof.
  intros Ht Hne Ha Hr. repeat split.
  - intros od_id reason now Hrole. unfold faculty_od_action, od_action.
    rewrite (require_role_ok ["faculty"] user) by (rewrite Hrole; apply list_elem_of_here).
    rewrite (get_tenant_id_ok _ _ Ht Hne). simpl.
    by rewrite decide_False by tauto.
  - intros od_id reason now Hrole. unfold hod_od_action, od_action.
    rewrite (require_role_ok ["hod"] user) by (rewrite Hrole; apply list_elem_of_here).
    rewrite (get_tenant_id_ok _ _ Ht Hne). simpl.
    by rewrite decide_False by tauto.
  - intros subject now Hrole. unfold approve_marks.
    rewrite (require_role_ok _ _ Hrole), (get_tenant_id_ok _ _ Ht Hne).
    by rewrite !decide_False by done.
Qed.

Lemma invalid_action_rejected_witness :
  faculty_od_action "od1" (mkODAction "cancel" None) Sample.faculty_f1
    "2024-03-02T10:00:00" (Sample.od_db "pending_faculty")
  = (Sample.od_db "pending_faculty", HTTPException 400 "Invalid action").
Proof.
  destruct (invalid_action_rejected Sample.faculty_f1 (Sample.od_db "pending_faculty")
              "t1" "cancel") as (H & _).
  - reflexivity.
  - discriminate.
  - discriminate.
  - discriminate.
  - apply H. reflexivity.
Defined.

(** ** On-Duty requests: what an action leaves alone *)

Lemma update_od_cases od_id tenant required upd db :
  update_od od_id tenant required upd db = (db, [])
  ∨ ∃ r, od_requests db !! od_id = Some r
         ∧ sql_eq (od_tenant_id r) tenant = true ∧ od_status r = required
         ∧ update_od od_id tenant required upd db
           = (set_od_requests db (<[od_id := upd r]> (od_requests db)),
              [(od_id, upd r)]).
Proof.
  unfold update_od. destruct (od_requests db !! od_id) as [r|] eqn:Hr; [|by left].
  destruct (sql_eq _ _) eqn:Hten; [|by left]. simpl.
  destruct (bool_decide _) eqn:Hst; [|by left].
  apply bool_decide_eq_true in Hst. right. by exists r.
Qed.

(** The outcome of either action route on the store: nothing, or one row
    rewritten by the route's update. *)
Lemma od_action_cases allowed required update od_id body user now db :
  (od_action allowed required update od_id body user now db).1 = db
  ∨ ∃ r r',
      od_requests db !! od_id = Some r
      ∧ od_tenant_id r = tenant_id user ∧ od_status r = required
      ∧ update (action body) (user_id user) now (rejection_reason body) r = Some r'
      ∧ (od_action allowed required update od_id body user now db).1
        = set_od_requests db (<[od_id := r']> (od_requests db)).
Proof.
  unfold od_action.
  destruct (require_role _ user) as [u|] eqn:Hrole; [|by left].
  assert (u = user) as ->.
  { unfold require_role in Hrole. destruct (decide _); congruence. }
  destruct (get_tenant_id user) as [tenant|] eqn:Hten; [|by left].
  apply get_tenant_id_inv in Hten as ->.
  destruct (decide _) as [Hact|]; [|by left].
  destruct (update_od_cases od_id (tenant_id user) required
              (λ r, default r (update (action body) (user_id user) now
                                 (rejection_reason body) r)) db)
    as [-> | (r & Hr & Hsql & Hst & ->)]; [by left|].
  destruct (update (action body) (user_id user) now (rejection_reason body) r)
    as [r'|] eqn:Hupd.
  - right. exists r, r'. simpl. repeat split; try done.
    apply sql_eq_true in Hsql as (x & -> & ->). done.
  - left. simpl. rewrite insert_id by done. by destruct db.
Qed.

Lemma faculty_update_Some act uid now reason r r' :
  faculty_update act uid now reason r = Some r' →
  same_request_data r r'
  ∧ (od_status r' = "pending_hod" ∨ od_status r' = "rejected").
Proof.
  unfold faculty_update, same_request_data.
  destruct (decide _); [|destruct (decide _); [|done]];
    intros [= <-]; simpl; repeat split; auto.
Qed.

Lemma hod_update_Some act uid now reason r r' :
  hod_update act uid now reason r = Some r' →
  same_request_data r r'
  ∧ (od_status r' = "approved" ∨ od_status r' = "rejected").
Proof.
  unfold hod_update, same_request_data.
  destruct (decide _); [|destruct (decide _); [|done]];
    intros [= <-]; simpl; repeat split; auto.
Qed.

(** One call either leaves the store alone or rewrites the addressed
    row, which then belongs to the caller's tenant and moves up in rank. *)
Lemma run_call_cases c db :
  run_call c db = db
  ∨ ∃ r r',
      od_requests db !! call_id c = Some r
      ∧ od_tenant_id r = tenant_id (call_user c)
      ∧ same_request_data r r'
      ∧ (od_rank (od_status r) < od_rank (od_status r'))%nat
      ∧ run_call c db = set_od_requests db (<[call_id c := r']> (od_requests db)).
Proof.
  destruct c as [od_id body user now | od_id body user now]; simpl.
  - destruct (od_action_cases ["faculty"] "pending_faculty" faculty_update
                od_id body user now db) as [H | (r & r' & Hr & Ht & Hst & Hup & H)];
      [by left|].
    right. exists r, r'. apply faculty_update_Some in Hup as [Hsame Hnew].
    split; [done|]. split; [done|]. split; [done|]. split; [|done].
    rewrite Hst. destruct Hnew as [-> | ->]; vm_compute; lia.
  - destruct (od_action_cases ["hod"] "pending_hod" hod_update
                od_id body user now db) as [H | (r & r' & Hr & Ht & Hst & Hup & H)];
      [by left|].
    right. exists r, r'. apply hod_update_Some in Hup as [Hsame Hnew].
    split; [done|]. split; [done|]. split; [done|]. split; [|done].
    rewrite Hst. destruct Hnew as [-> | ->]; vm_compute; lia.
Qed.

(** X5: an action call, by anyone and with any body, never creates or
    deletes a request, never touches a request other than the addressed one
    or a request of another tenant than the caller's, never rewrites the
    data of the request itself, and leaves each of the nine other tables of
    the store as it was. *)
Theorem od_call_frame c db :
  let db' := run_call c db in
  dom (od_requests db') = dom (od_requests db)
  ∧ (∀ id, id ≠ call_id c → od_requests db' !! id = od_requests db !! id)
  ∧ (∀ id r, od_requests db !! id = Some r →
       od_tenant_id r ≠ tenant_id (call_user c) → od_requests db' !! id = Some r)
  ∧ (∀ id r, od_requests db !! id = Some r →
       ∃ r', od_requests db' !! id = Some r' ∧ same_request_data r r')
  ∧ batch_students db' = batch_students db
  ∧ student_enrollments db' = student_enrollments db
  ∧ subjects db' = subjects db
  ∧ internal_marks db' = internal_marks db
  ∧ batches db' = batches db
  ∧ faculty_assignments db' = faculty_assignments db
  ∧ period_templates db' = period_templates db
  ∧ classrooms db' = classrooms db
  ∧ timetable_slots db' = timetable_slots db.
Proof.
  simpl. destruct (run_call_cases c db) as [-> | (r & r' & Hr & Ht & Hsame & _ & ->)].
  { repeat split; try done. intros id r Hr. exists r. by repeat split. }
  simpl. repeat split; try done.
  - rewrite dom_insert_L. apply elem_of_dom_2 in Hr.
    by apply subseteq_union_1_L, singleton_subseteq_l.
  - intros id Hne. by rewrite lookup_insert_ne.
  - intros id r0 Hr0 Hten. destruct (decide (id = call_id c)) as [-> | Hne].
    + rewrite Hr in Hr0. injection Hr0 as <-. done.
    + by rewrite lookup_insert_ne.
  - intros id r0 Hr0. destruct (decide (id = call_id c)) as [-> | Hne].
    + rewrite lookup_insert_eq. rewrite Hr in Hr0. injection Hr0 as <-. eauto.
    + rewrite lookup_insert_ne by done. exists r0. by repeat split.
Qed.

(** X6: every call that changes a request moves it strictly forward, from
    [pending_faculty] to [pending_hod] to a final status, so over any
    sequence of action calls, by any callers, a request is changed at most
    twice, at most once when it starts in [pending_hod], and never when it
    starts in any other status. *)
Theorem od_request_changed_at_most_twice id calls db :
  (od_changes id calls db
   + from_option (λ r, od_rank (od_status r)) 2 (od_requests db !! id) ≤ 2)%nat.
Proof.
  revert db. induction calls as [|c calls IH]; intros db.
  { simpl. destruct (od_requests db !! id) as [r|]; simpl; [|lia].
    unfold od_rank. repeat destruct (decide _); lia. }
  cbn [od_changes]. specialize (IH (run_call c db)).
  destruct (run_call_cases c db) as [Heq | (r & r' & Hr & _ & _ & Hlt & Heq)].
  { rewrite Heq in *. rewrite decide_True by done. lia. }
  rewrite Heq in *. simpl in *.
  destruct (decide (id = call_id c)) as [-> | Hne].
  - rewrite lookup_insert_eq in *. rewrite Hr. simpl in *.
    destruct (decide _); lia.
  - rewrite lookup_insert_ne in * by done. rewrite decide_True by done. lia.
Qed.

(** ** On-Duty requests: creation *)

Lemma require_role_inv allowed user u :
  require_role allowed user = Success u → u = user ∧ role user ∈ allowed.
Proof. unfold require_role. destruct (decide _); [|done]. by intros [= <-]. Qed.

Lemma get_tenant_id_truthy user tenant :
  role user ≠ "super_admin" → get_tenant_id user = Success tenant →
  ∃ t, tenant = Some t ∧ tenant_id user = Some t ∧ t ≠ "".
Proof.
  intros Hrole. unfold get_tenant_id. rewrite decide_False by done.
  destruct (tenant_id user) as [t|] eqn:Ht; simpl; [|done].
  destruct (bool_decide (t ≠ "")) eqn:Hne; [|done].
  apply bool_decide_eq_true in Hne. intros [= <-]. eauto.
Qed.

Lemma resolve_subject_Some db tenant uid subject_id sid :
  resolve_subject db tenant uid subject_id = Some sid →
  (subject_id ≠ "" ∧ sid = subject_id)
  ∨ (subject_id = "" ∧ ∃ s, s ∈ subjects db ∧ sub_id s = sid
                            ∧ sql_eq (sub_tenant_id s) tenant = true).
Proof.
  unfold resolve_subject. destruct (decide (subject_id ≠ "")) as [Hne|He].
  { intros [= <-]. by left. }
  assert (subject_id = "") as -> by (by destruct (decide (subject_id = "")); [|tauto]).
  intros H. right. split; [done|].
  assert (Hhead : ∀ (p : Subject → bool) s l,
            select_where p (subjects db) = s :: l → s ∈ subjects db ∧ p s = true).
  { intros p s l Hsel.
    assert (s ∈ select_where p (subjects db)) as Hin by (rewrite Hsel; apply list_elem_of_here).
    unfold select_where in Hin. apply list_elem_of_filter in Hin. tauto. }
  destruct (decide _) as [Hfrom|_] in H.
  - injection H as <-.
    destruct (select_where _ (student_enrollments db)) as [|ext ?]; [done|].
    destruct (en_program_id ext) as [prog|]; [|done].
    destruct (en_semester_number ext) as [sem|]; [|done].
    destruct (_ && _); [|done].
    destruct (select_where _ (subjects db)) as [|s l'] eqn:Hsel; [done|].
    apply Hhead in Hsel as [Hin Hp]. exists s. split; [done|]. split; [done|].
    by apply andb_true_iff in Hp as [[Hp _]%andb_true_iff _].
  - destruct (select_where _ (subjects db)) as [|s l] eqn:Hsel; [done|].
    injection H as <-. apply Hhead in Hsel as [Hin Hp]. eauto.
Qed.

(** X7: a request that [apply_od] stores belongs to the caller: its student
    is the caller and its tenant the caller's, it carries no action stamp and
    no rejection reason, and every other request is as before.  A subject id
    given in the body is stored as it is, without a lookup; an empty one is
    replaced by the id of a subject of the caller's tenant. *)
Theorem apply_od_row new_id body user db db' data :
  apply_od new_id body user db = (db', Success data) →
  ∃ row t,
    od_requests db' !! new_id = Some row
    ∧ tenant_id user = Some t ∧ t ≠ ""
    ∧ od_tenant_id row = Some t
    ∧ od_student_id row = user_id user
    ∧ od_faculty_action_by row = None ∧ od_faculty_action_at row = None
    ∧ od_hod_action_by row = None ∧ od_hod_action_at row = None
    ∧ od_rejection_reason row = None
    ∧ od_reason row = oa_reason body ∧ od_date row = oa_date body
    ∧ (oa_subject_id body ≠ "" → od_subject_id row = oa_subject_id body)
    ∧ (oa_subject_id body = "" →
       ∃ s, s ∈ subjects db ∧ sub_id s = od_subject_id row ∧ sub_tenant_id s = Some t)
    ∧ (∀ id, id ≠ new_id → od_requests db' !! id = od_requests db !! id).
Proof.
  unfold apply_od. intros H.
  destruct (require_role _ user) as [u|] eqn:Hrole; [|done].
  apply require_role_inv in Hrole as [-> Hin].
  destruct (get_tenant_id user) as [tenant|] eqn:Hten; [|done].
  apply get_tenant_id_truthy in Hten as (t & -> & Ht & Hne).
  2:{ intros Heq. rewrite Heq in Hin.
      apply list_elem_of_singleton in Hin. discriminate. }
  destruct (resolve_subject _ _ _ _) as [sid|] eqn:Hres; [|done].
  destruct (od_requests db !! new_id) eqn:Hfresh; [done|].
  injection H as <- <-. eexists _, t. simpl. rewrite lookup_insert_eq.
  split; [done|]. do 11 (split; [done|]).
  apply resolve_subject_Some in Hres as [[Hne' ->] | [He (s & Hs & Hid & Hsql)]].
  - split; [done|]. split; [done|]. intros id Hid. by rewrite lookup_insert_ne.
  - split; [done|]. split.
    + intros _. exists s. apply sql_eq_true in Hsql as (x & Hx & [= <-]). done.
    + intros id Hid'. by rewrite lookup_insert_ne.
Qed.

Lemma apply_od_row_witness :
  ∃ row,
    od_requests (apply_od "od7" (mkODApply "" "2024-03-01" None "symposium" "medical" None)
                   Sample.student_s1 (Sample.od_db "approved")).1 !! "od7" = Some row
    ∧ od_student_id row = "s1" ∧ od_subject_id row = "sub1".
Proof.
  destruct (apply_od "od7" (mkODApply "" "2024-03-01" None "symposium" "medical" None)
              Sample.student_s1 (Sample.od_db "approved")) as [db' out] eqn:Hrun.
  assert (∃ data, out = Success data) as (data & ->).
  { vm_compute in Hrun. injection Hrun as _ <-. eexists. reflexivity. }
  destruct (apply_od_row _ _ _ _ _ _ Hrun)
    as (row & t & Hrow & _ & _ & _ & Hstu & _ & _ & _ & _ & _ & _ & _ & _ & Hsub & _).
  exists row. split; [exact Hrow|]. split; [exact Hstu|].
  destruct (Hsub eq_refl) as (s & Hs & <- & _).
  simpl in Hs. apply list_elem_of_singleton in Hs as ->. reflexivity.
Defined.

(** X8: when the body gives no subject and the caller's tenant has no
    subject at all, [apply_od] answers 400 and stores nothing; when the id the
    store generates is already taken, nothing is stored either. *)
Theorem apply_od_failures new_id body user db t :
  role user = "student" → tenant_id user = Some t → t ≠ "" →
  (oa_subject_id body = "" →
   (∀ s, s ∈ subjects db → sub_tenant_id s ≠ Some t) →
   apply_od new_id body user db
   = (db, HTTPException 400 "System Error: No subjects exist in the institution."))
  ∧ (is_Some (od_requests db !! new_id) → (apply_od new_id body user db).1 = db).
Proof.
  intros Hrole Ht Hne. unfold apply_od.
  rewrite (require_role_ok ["student"] user) by (rewrite Hrole; apply list_elem_of_here).
  rewrite (get_tenant_id_ok _ _ Ht Hne). split.
  - intros He Hnone. 
    destruct (resolve_subject db (Some t) (user_id user) (oa_subject_id body))
      as [sid|] eqn:Hres; [|done].
    apply resolve_subject_Some in Hres as [[Hne' _] | [_ (s & Hs & _ & Hsql)]]; [done|].
    apply sql_eq_true in Hsql as (x & Hx & [= <-]). by destruct (Hnone s Hs).
  - intros [r Hr]. destruct (resolve_subject _ _ _ _); [|done]. by rewrite Hr.
Qed.

Lemma apply_od_failures_witness :
  apply_od "od7" (mkODApply "" "2024-03-01" None "symposium" "normal" None)
    Sample.student_s1 Sample.empty_db
  = (Sample.empty_db,
     HTTPException 400 "System Error: No subjects exist in the institution.").
Proof.
  destruct (apply_od_failures "od7"
              (mkODApply "" "2024-03-01" None "symposium" "normal" None)
              Sample.student_s1 Sample.empty_db "t1") as [H _].
  - reflexivity.
  - reflexivity.
  - discriminate.
  - apply H; [reflexivity|]. intros s Hs. by apply elem_of_nil in Hs.
Defined.

Lemma apply_od_stored new_id body user db db' data :
  apply_od new_id body user db = (db', Success data) →
  ∃ t row,
    tenant_id user = Some t ∧ t ≠ ""
    ∧ db' = set_od_requests db (<[new_id := row]> (od_requests db))
    ∧ od_requests db !! new_id = None
    ∧ od_tenant_id row = Some t ∧ od_student_id row = user_id user
    ∧ od_status row = initial_status (oa_od_type body)
    ∧ od_faculty_action_by row = None ∧ od_faculty_action_at row = None.
Proof.
  unfold apply_od. intros H.
  destruct (require_role _ user) as [u|] eqn:Hrole; [|done].
  apply require_role_inv in Hrole as [-> Hin].
  destruct (get_tenant_id user) as [tenant|] eqn:Hten; [|done].
  apply get_tenant_id_truthy in Hten as (t & -> & Ht & Hne).
  2:{ intros Heq. rewrite Heq in Hin.
      apply list_elem_of_singleton in Hin. discriminate. }
  destruct (resolve_subject _ _ _ _) as [sid|]; [|done].
  destruct (od_requests db !! new_id) eqn:Hfresh; [done|].
  injection H as <- <-. eexists t, _. by repeat split.
Qed.

(** X9: a request created with type special or medical skips the faculty
    step: no faculty action call, by anyone, changes the store, and the
    approve of a HOD of the student's tenant moves it to [approved] with the
    faculty stamps still empty. *)
Theorem special_od_skips_faculty new_id body student db db1 data :
  apply_od new_id body student db = (db1, Success data) →
  oa_od_type body = "special" ∨ oa_od_type body = "medical" →
  (∀ fbody fuser now, (faculty_od_action new_id fbody fuser now db1).1 = db1)
  ∧ (∀ hod reason now,
       role hod = "hod" → tenant_id hod = tenant_id student →
       ∃ r', od_requests
               (hod_od_action new_id (mkODAction "approve" reason) hod now db1).1
             !! new_id = Some r'
         ∧ od_status r' = "approved"
         ∧ od_faculty_action_by r' = None ∧ od_faculty_action_at r' = None
         ∧ od_hod_action_by r' = Some (user_id hod) ∧ od_hod_action_at r' = Some now).
Proof.
  intros Hrun Hty.
  apply apply_od_stored in Hrun
    as (t & row & Ht & Hne & -> & Hfresh & Hrt & Hstu & Hst & Hfb & Hfa).
  assert (Hst' : od_status row = "pending_hod").
  { rewrite Hst. unfold initial_status. rewrite decide_True; [done|].
    rewrite !elem_of_cons. tauto. }
  split.
  - intros fbody fuser now.
    destruct (od_action_cases ["faculty"] "pending_faculty" faculty_update new_id
                fbody fuser now
                (set_od_requests db (<[new_id:=row]> (od_requests db))))
      as [H | (r & r' & Hr & _ & Hreq & _)]; [done|].
    simpl in Hr. rewrite lookup_insert_eq in Hr. injection Hr as <-. congruence.
  - intros hod reason now Hrole Hten. unfold hod_od_action.
    rewrite (od_action_authorized _ _ _ _ _ _ _ _ t);
      [|rewrite Hrole; apply list_elem_of_here | congruence | done | by left].
    rewrite (update_od_hit _ _ _ _ _ row);
      [|simpl; by rewrite lookup_insert_eq | done | done].
    simpl. rewrite lookup_insert_eq. eexists. split; [done|]. by repeat split.
Qed.

Lemma special_od_skips_faculty_witness :
  let db1 := (apply_od "od7" (mkODApply "sub1" "2024-03-01" None "surgery" "medical" None)
                Sample.student_s1 Sample.empty_db).1 in
  (faculty_od_action "od7" (mkODAction "approve" None) Sample.faculty_f1
     "2024-03-02T10:00:00" db1).1 = db1
  ∧ ∃ r', od_requests
            (hod_od_action "od7" (mkODAction "approve" None) Sample.hod_h1
               "2024-03-02T11:00:00" db1).1 !! "od7" = Some r'
          ∧ od_status r' = "approved" ∧ od_faculty_action_by r' = None.
Proof.
  intros db1.
  destruct (apply_od "od7" (mkODApply "sub1" "2024-03-01" None "surgery" "medical" None)
              Sample.student_s1 Sample.empty_db) as [db' out] eqn:Hrun.
  assert (∃ data, out = Success data) as (data & ->).
  { vm_compute in Hrun. injection Hrun as _ <-. eexists. reflexivity. }
  destruct (special_od_skips_faculty _ _ _ _ _ _ Hrun) as [Hfac Hhod];
    [right; reflexivity|].
  split; [apply Hfac|].
  destruct (Hhod Sample.hod_h1 None "2024-03-02T11:00:00" eq_refl eq_refl)
    as (r' & Hr & Hst & Hfb & _).
  exists r'. done.
Defined.

(** ** On-Duty requests: listings *)

Lemma advisee_ids_spec db t faculty s :
  s ∈ advisee_ids db (Some t) faculty
  ↔ ∃ row, row ∈ batch_students db ∧ bs_student_id row = s
           ∧ bs_tenant_id row = Some t ∧ bs_faculty_advisor_id row = Some faculty.
Proof.
  unfold advisee_ids, select_where. rewrite list_elem_of_fmap. split.
  - intros (row & -> & Hin). apply list_elem_of_filter in Hin as [Hp Hin].
    apply andb_true_iff in Hp as [(x & Hx & [= <-])%sql_eq_true
                                  (y & Hy & [= <-])%sql_eq_true].
    by exists row.
  - intros (row & Hin & <- & Ht & Hf). exists row. split; [done|].
    apply list_elem_of_filter. split; [|done].
    by rewrite Ht, Hf, !sql_eq_refl.
Qed.

(** The pending list of a faculty member, by membership. *)
Lemma get_pending_od_elem user db t :
  role user = "faculty" → tenant_id user = Some t → t ≠ "" →
  ∃ data,
    get_pending_od user db = Success data
    ∧ (advisee_ids db (Some t) (user_id user) = [] → data = [])
    ∧ ∀ id r,
        (id, r) ∈ data
        ↔ od_requests db !! id = Some r
          ∧ od_tenant_id r = Some t ∧ od_status r = "pending_faculty"
          ∧ ∃ row, row ∈ batch_students db ∧ bs_student_id row = od_student_id r
                   ∧ bs_tenant_id row = Some t
                   ∧ bs_faculty_advisor_id row = Some (user_id user).
Proof.
  intros Hrole Ht Hne. unfold get_pending_od.
  rewrite (require_role_ok ["faculty"] user) by (rewrite Hrole; apply list_elem_of_here).
  simpl. rewrite (get_tenant_id_ok _ _ Ht Hne). simpl.
  destruct (advisee_ids db (Some t) (user_id user)) as [|s0 ids] eqn:Hids.
  - exists []. split; [done|]. split; [done|]. intros id r. split.
    + by intros ?%elem_of_nil.
    + intros (_ & _ & _ & row & Hin & Hstu & Hrt & Hadv).
      assert (od_student_id r ∈ advisee_ids db (Some t) (user_id user)) as Hmem
        by (apply advisee_ids_spec; eauto).
      rewrite Hids in Hmem. by apply elem_of_nil in Hmem.
  - eexists. split; [done|]. split; [done|]. intros id r.
    rewrite list_elem_of_filter, elem_of_map_to_list. simpl.
    rewrite <- Hids, advisee_ids_spec, sql_eq_true. split.
    + intros [((x & Hx & [= <-]) & Hst & Hadv) Hr]. done.
    + intros (Hr & Hrt & Hst & Hadv). split; [|done]. split; [eauto|done].
Qed.

(** X10: the pending list of a faculty member holds exactly the requests
    that are stored for the caller's tenant in [pending_faculty] and whose
    student has the caller as faculty advisor in [batch_students] of that
    tenant; with no advisee the list is empty. *)
Theorem get_pending_od_spec user db t :
  role user = "faculty" → tenant_id user = Some t → t ≠ "" →
  ∃ data,
    get_pending_od user db = Success data
    ∧ (advisee_ids db (Some t) (user_id user) = [] → data = [])
    ∧ ∀ id r,
        (id, r) ∈ data
        ↔ od_requests db !! id = Some r
          ∧ od_tenant_id r = Some t ∧ od_status r = "pending_faculty"
          ∧ ∃ row, row ∈ batch_students db ∧ bs_student_id row = od_student_id r
                   ∧ bs_tenant_id row = Some t
                   ∧ bs_faculty_advisor_id row = Some (user_id user).
Proof. apply get_pending_od_elem. Qed.

Lemma get_pending_od_spec_witness :
  ∃ data,
    get_pending_od Sample.faculty_f1 (Sample.od_db "pending_faculty") = Success data
    ∧ ("od1", Sample.request "pending_faculty") ∈ data.
Proof.
  destruct (get_pending_od_spec Sample.faculty_f1 (Sample.od_db "pending_faculty") "t1")
    as (data & Hrun & _ & Hspec).
  - reflexivity.
  - reflexivity.
  - discriminate.
  - exists data. split; [exact Hrun|]. apply Hspec.
    split; [reflexivity|]. split; [reflexivity|]. split; [reflexivity|].
    exists (mkBatchStudent (Some "t1") "s1" (Some "f1")).
    split; [apply list_elem_of_here | by repeat split].
Defined.

(** X11: a request just stored by [apply_od] is in the student's own list;
    it is in the HOD queue of the tenant exactly when its type is special or
    medical, and in the pending list of a faculty member of the tenant exactly
    when its type is another one and the student is an advisee of that
    faculty member. *)
Theorem new_request_is_listed new_id body student db db1 data :
  apply_od new_id body student db = (db1, Success data) →
  ∃ row,
    data = [(new_id, row)]
    ∧ (∃ mine, get_my_od_requests student db1 = Success mine ∧ (new_id, row) ∈ mine)
    ∧ (∀ hod, role hod = "hod" → tenant_id hod = tenant_id student →
         ∃ queue, get_pending_od_hod hod db1 = Success queue
           ∧ ((new_id, row) ∈ queue
              ↔ oa_od_type body = "special" ∨ oa_od_type body = "medical"))
    ∧ (∀ fac, role fac = "faculty" → tenant_id fac = tenant_id student →
         ∃ pending, get_pending_od fac db1 = Success pending
           ∧ ((new_id, row) ∈ pending
              ↔ (oa_od_type body ≠ "special" ∧ oa_od_type body ≠ "medical")
                ∧ user_id student
                  ∈ advisee_ids db (tenant_id student) (user_id fac))).
Proof.
  intros Hrun. pose proof Hrun as Hrun'.
  apply apply_od_stored in Hrun'
    as (t & row & Ht & Hne & -> & Hfresh & Hrt & Hstu & Hst & _).
  assert (Hdata : data = [(new_id, row)] ∧ role student = "student").
  { revert Hrun. unfold apply_od.
    destruct (require_role _ student) as [u|] eqn:Hrole; [|done].
    apply require_role_inv in Hrole as [-> Hin%list_elem_of_singleton].
    destruct (get_tenant_id student); [|done].
    destruct (resolve_subject _ _ _ _); [|done]. rewrite Hfresh.
    intros [= Hdb <-]. split; [|done]. do 2 f_equal.
    assert (Hl : set_od_requests db (<[new_id:=row]> (od_requests db)) = 
                 set_od_requests db (<[new_id:=row]> (od_requests db))) by done.
    rewrite <- Hdb in Hl at 1.
    apply (f_equal (λ d, od_requests d !! new_id)) in Hl. simpl in Hl.
    rewrite !lookup_insert_eq in Hl. by injection Hl. }
  destruct Hdata as [-> Hrole].
  assert (Hty : od_status row = "pending_hod"
                ↔ oa_od_type body = "special" ∨ oa_od_type body = "medical").
  { rewrite Hst. unfold initial_status. destruct (decide _) as [Hin|Hout].
    - rewrite !elem_of_cons in Hin. split; [|done]. intros _.
      destruct Hin as [? | [? | ?%elem_of_nil]]; tauto.
    - rewrite !elem_of_cons in Hout. split; [done|]. tauto. }
  exists row. split; [done|]. split; [|split].
  - unfold get_my_od_requests.
    rewrite (require_role_ok ["student"] student) by (rewrite Hrole; apply list_elem_of_here).
    simpl. rewrite (get_tenant_id_ok _ _ Ht Hne). simpl. eexists. split; [done|].
    apply list_elem_of_filter. simpl. rewrite Hrt, sql_eq_refl.
    split; [done|]. apply elem_of_map_to_list. by rewrite lookup_insert_eq.
  - intros hod Hh Hten. unfold get_pending_od_hod.
    rewrite (require_role_ok ["hod"] hod) by (rewrite Hh; apply list_elem_of_here).
    simpl. rewrite (get_tenant_id_ok hod t) by congruence. simpl.
    eexists. split; [done|].
    rewrite list_elem_of_filter, elem_of_map_to_list. simpl.
    rewrite lookup_insert_eq, Hrt, sql_eq_refl, <- Hty. tauto.
  - intros fac Hf Hten.
    destruct (get_pending_od_elem fac
                (set_od_requests db (<[new_id:=row]> (od_requests db))) t)
      as (pending & -> & _ & Hspec); [done | congruence | done |].
    exists pending. split; [done|]. rewrite Hspec. simpl.
    rewrite lookup_insert_eq, Ht, advisee_ids_spec, Hstu. split.
    + intros (_ & _ & Hpf & Hadv). split; [|done].
      rewrite Hst in Hpf. unfold initial_status in Hpf.
      destruct (decide _) as [|Hout] in Hpf; [done|].
      rewrite !elem_of_cons in Hout. tauto.
    + intros [[H1 H2] Hadv]. split; [done|]. split; [done|]. split; [|done].
      rewrite Hst. unfold initial_status. rewrite decide_False; [done|].
      rewrite !elem_of_cons, elem_of_nil. tauto.
Qed.

Lemma new_request_is_listed_witness :
  ∃ row pending,
    (apply_od "od7" (mkODApply "sub1" "2024-03-01" None "symposium" "normal" None)
       Sample.student_s1 (Sample.od_db "approved")).2 = Success [("od7", row)]
    ∧ get_pending_od Sample.faculty_f1
        (apply_od "od7" (mkODApply "sub1" "2024-03-01" None "symposium" "normal" None)
           Sample.student_s1 (Sample.od_db "approved")).1 = Success pending
    ∧ ("od7", row) ∈ pending.
Proof.
  destruct (apply_od "od7" (mkODApply "sub1" "2024-03-01" None "symposium" "normal" None)
              Sample.student_s1 (Sample.od_db "approved")) as [db1 out] eqn:Hrun.
  assert (∃ data, out = Success data) as (data & ->).
  { vm_compute in Hrun. injection Hrun as _ <-. eexists. reflexivity. }
  destruct (new_request_is_listed _ _ _ _ _ _ Hrun) as (row & -> & _ & _ & Hfac).
  destruct (Hfac Sample.faculty_f1 eq_refl eq_refl) as (pending & Hp & Hin).
  exists row, pending. split; [done|]. split; [exact Hp|]. apply Hin.
  split; [split; discriminate|]. vm_compute. apply list_elem_of_here.
Defined.

(** ** Internal marks: submission *)

Lemma conflicts_true rec r :
  conflicts rec r = true ↔
  sql_eq (im_tenant_id r) (mr_tenant_id rec) = true
  ∧ im_subject_id r = mr_subject_id rec ∧ im_student_id r = mr_student_id rec.
Proof.
  unfold conflicts. rewrite !andb_true_iff, !bool_decide_eq_true. tauto.
Qed.

Lemma conflicts_key rec r t :
  mr_tenant_id rec = Some t →
  conflicts rec r = true
  ↔ mark_key r = Some (t, mr_subject_id rec, mr_student_id rec).
Proof.
  intros Ht. rewrite conflicts_true, Ht. unfold mark_key, sql_eq.
  destruct (im_tenant_id r) as [t'|].
  - rewrite bool_decide_eq_true. split.
    + intros (-> & -> & ->). done.
    + intros [= -> -> ->]. done.
  - split; [intros (? & _); done | done].
Qed.

Lemma overwrite_key rec r :
  conflicts rec r = true → mark_key (overwrite rec r) = mark_key r.
Proof.
  intros (Hten & Hsub & Hstu)%conflicts_true.
  apply sql_eq_true in Hten as (x & Hx & Hrec).
  unfold mark_key. simpl. by rewrite Hrec, Hx, Hsub, Hstu.
Qed.

Lemma kept_by_submit_refl r : kept_by_submit r r.
Proof. by unfold kept_by_submit. Qed.

Lemma kept_by_submit_trans r1 r2 r3 :
  kept_by_submit r1 r2 → kept_by_submit r2 r3 → kept_by_submit r1 r3.
Proof.
  unfold kept_by_submit. intros (? & ? & ? & ? & ?) (? & ? & ? & ? & ?).
  repeat split; congruence.
Qed.

Lemma holds_record_overwrite rec r : holds_record rec (overwrite rec r).
Proof. by unfold holds_record. Qed.

Lemma holds_record_fresh rec : holds_record rec (fresh_row rec).
Proof. by unfold holds_record. Qed.

(** The row that the upsert of one record writes is in the table and holds
    the record. *)
Lemma upsert_one_written rec rows :
  (upsert_one rec rows).2 ∈ (upsert_one rec rows).1
  ∧ holds_record rec (upsert_one rec rows).2.
Proof.
  induction rows as [|r rows IH]; simpl.
  - split; [apply list_elem_of_here | apply holds_record_fresh].
  - destruct (conflicts rec r).
    + split; [apply list_elem_of_here | apply holds_record_overwrite].
    + destruct (upsert_one rec rows) as [rows' w]. simpl in *.
      split; [apply list_elem_of_further|]; apply IH.
Qed.

(** A stored row keeps its position; it is overwritten only when it is in
    conflict with the record. *)
Lemma upsert_one_lookup rec rows i r :
  rows !! i = Some r →
  (upsert_one rec rows).1 !! i = Some r
  ∨ (conflicts rec r = true ∧ (upsert_one rec rows).1 !! i = Some (overwrite rec r)).
Proof.
  revert i. induction rows as [|r0 rows IH]; intros i Hr; [done|]. simpl.
  destruct (conflicts rec r0) eqn:Hc.
  - destruct i as [|i]; simpl in *; [|by left].
    injection Hr as <-. by right.
  - destruct (upsert_one rec rows) as [rows' w] eqn:Hup. simpl in *.
    destruct i as [|i]; simpl in *; [by left|]. by apply IH.
Qed.

Lemma upsert_one_frame rec rows i r :
  rows !! i = Some r → conflicts rec r = false →
  (upsert_one rec rows).1 !! i = Some r.
Proof.
  intros Hr Hc.
  destruct (upsert_one_lookup rec rows i r Hr) as [H | [H _]]; [done | congruence].
Qed.

Lemma upsert_one_kept rec rows i r :
  rows !! i = Some r →
  ∃ r', (upsert_one rec rows).1 !! i = Some r' ∧ kept_by_submit r r'.
Proof.
  intros Hr.
  destruct (upsert_one_lookup rec rows i r Hr) as [H | [Hc H]].
  - exists r. split; [done | apply kept_by_submit_refl].
  - exists (overwrite rec r). split; [done|].
    unfold kept_by_submit. by rewrite overwrite_key.
Qed.

(** The conflict targets of the table after the upsert of one record: the
    target of the record is added when it was not stored. *)
Lemma upsert_one_keys rec rows t :
  mr_tenant_id rec = Some t →
  omap mark_key (upsert_one rec rows).1
  = if decide (Some (t, mr_subject_id rec, mr_student_id rec) ∈ mark_key <$> rows)
    then omap mark_key rows
    else omap mark_key rows ++ [(t, mr_subject_id rec, mr_student_id rec)].
Proof.
  intros Ht. set (k := (t, mr_subject_id rec, mr_student_id rec)).
  induction rows as [|r rows IH].
  - rewrite decide_False by (rewrite fmap_nil; apply not_elem_of_nil).
    simpl. unfold mark_key. simpl. by rewrite Ht.
  - rewrite fmap_cons. cbn [upsert_one]. destruct (conflicts rec r) eqn:Hc.
    + pose proof Hc as Hk. apply (conflicts_key _ _ t Ht) in Hk. fold k in Hk.
      rewrite decide_True by (rewrite Hk; apply list_elem_of_here).
      simpl. by rewrite (overwrite_key _ _ Hc).
    + assert (Hk : mark_key r ≠ Some k).
      { intros Hk. apply (conflicts_key _ _ t Ht) in Hk. congruence. }
      destruct (upsert_one rec rows) as [rows' w]. cbn [fst] in IH.
      destruct (decide (Some k ∈ mark_key <$> rows)) as [Hin|Hout].
      * rewrite decide_True by by apply list_elem_of_further.
        csimpl. by rewrite IH.
      * rewrite decide_False
          by (rewrite elem_of_cons; intros [Heq | Hin]; [congruence | done]).
        csimpl. rewrite IH. by destruct (mark_key r).
Qed.

Lemma omap_elem_of_fmap {A B} (f : A → option B) (l : list A) (k : B) :
  Some k ∈ f <$> l ↔ k ∈ omap f l.
Proof.
  rewrite list_elem_of_fmap, list_elem_of_omap. split.
  - intros (x & Hx & Hin). eauto.
  - intros (x & Hin & Hx). eauto.
Qed.

Lemma upsert_one_keys_unique rec rows t :
  mr_tenant_id rec = Some t →
  keys_unique rows → keys_unique (upsert_one rec rows).1.
Proof.
  intros Ht Hu. unfold keys_unique. rewrite (upsert_one_keys _ _ t Ht).
  destruct (decide _) as [Hin|Hout]; [done|].
  apply NoDup_app. split; [done|]. split; [|apply NoDup_singleton].
  intros x Hx ->%list_elem_of_singleton. by apply Hout, omap_elem_of_fmap.
Qed.

Lemma upsert_one_length rec rows :
  (length rows ≤ length (upsert_one rec rows).1 ≤ length rows + 1)%nat.
Proof.
  induction rows as [|r rows IH]; simpl; [lia|].
  destruct (conflicts rec r); simpl; [lia|].
  destruct (upsert_one rec rows) as [rows' w]. simpl in *. lia.
Qed.

Lemma upsert_data_length records rows :
  length (upsert records rows).2 = length records.
Proof.
  revert rows. induction records as [|rec records IH]; intros rows; [done|].
  simpl. destruct (upsert_one rec rows) as [rows1 w].
  specialize (IH rows1). destruct (upsert records rows1) as [rows2 ws].
  simpl in *. by rewrite IH.
Qed.

Lemma upsert_length records rows :
  (length rows ≤ length (upsert records rows).1 ≤ length rows + length records)%nat.
Proof.
  revert rows. induction records as [|rec records IH]; intros rows; simpl; [lia|].
  pose proof (upsert_one_length rec rows) as H1.
  destruct (upsert_one rec rows) as [rows1 w].
  specialize (IH rows1). destruct (upsert records rows1) as [rows2 ws].
  simpl in *. lia.
Qed.

Lemma upsert_frame records rows i r :
  rows !! i = Some r →
  (∀ rec, rec ∈ records → conflicts rec r = false) →
  (upsert records rows).1 !! i = Some r.
Proof.
  revert rows. induction records as [|rec records IH]; intros rows Hr Hno; [done|].
  simpl. pose proof (upsert_one_frame rec rows i r Hr) as H1.
  destruct (upsert_one rec rows) as [rows1 w].
  specialize (IH rows1). destruct (upsert records rows1) as [rows2 ws].
  simpl in *. apply IH.
  - apply H1, Hno, list_elem_of_here.
  - intros rec' Hin. by apply Hno, list_elem_of_further.
Qed.

Lemma upsert_kept records rows i r :
  rows !! i = Some r →
  ∃ r', (upsert records rows).1 !! i = Some r' ∧ kept_by_submit r r'.
Proof.
  revert rows r. induction records as [|rec records IH]; intros rows r Hr.
  - exists r. split; [done | apply kept_by_submit_refl].
  - simpl. destruct (upsert_one_kept rec rows i r Hr) as (r1 & Hr1 & Hk1).
    destruct (upsert_one rec rows) as [rows1 w].
    specialize (IH rows1 r1). destruct (upsert records rows1) as [rows2 ws].
    simpl in *. destruct (IH Hr1) as (r2 & Hr2 & Hk2).
    exists r2. split; [done|]. by apply (kept_by_submit_trans _ r1).
Qed.

Lemma upsert_keys_unique records rows :
  (∀ rec, rec ∈ records → is_Some (mr_tenant_id rec)) →
  keys_unique rows → keys_unique (upsert records rows).1.
Proof.
  revert rows. induction records as [|rec records IH]; intros rows Hten Hu; [done|].
  simpl. destruct (Hten rec) as [t Ht]; [apply list_elem_of_here|].
  pose proof (upsert_one_keys_unique rec rows t Ht Hu) as H1.
  destruct (upsert_one rec rows) as [rows1 w].
  specialize (IH rows1). destruct (upsert records rows1) as [rows2 ws].
  simpl in *. apply IH; [|done].
  intros rec' Hin. by apply Hten, list_elem_of_further.
Qed.

(** With distinct students in the batch, the row written for a record is
    still in the table, as written, when the whole batch is done. *)
Lemma upsert_written records rows j rec :
  NoDup (mr_student_id <$> records) →
  records !! j = Some rec →
  ∃ w, (upsert records rows).2 !! j = Some w
       ∧ w ∈ (upsert records rows).1 ∧ holds_record rec w.
Proof.
  revert rows j. induction records as [|rec0 records IH]; intros rows j Hnd Hj; [done|].
  rewrite fmap_cons in Hnd. apply NoDup_cons in Hnd as [Hfresh Hnd].
  simpl. destruct (upsert_one_written rec0 rows) as [Hin Hw].
  destruct (upsert_one rec0 rows) as [rows1 w].
  pose proof (upsert_frame records rows1) as Hframe.
  specialize (IH rows1). destruct (upsert records rows1) as [rows2 ws].
  simpl in *. destruct j as [|j]; simpl in *.
  - injection Hj as <-. exists w. split; [done|]. split; [|done].
    apply list_elem_of_lookup in Hin as [i Hi].
    apply (list_elem_of_lookup_2 _ i), Hframe; [done|].
    intros rec' Hrec'. apply not_true_is_false.
    intros (_ & _ & Hstu)%conflicts_true.
    apply Hfresh. destruct Hw as (_ & _ & Hs & _).
    rewrite <- Hs, Hstu. by apply list_elem_of_fmap_2.
  - by apply IH.
Qed.

Lemma submit_marks_authorized body user db t :
  role user = "faculty" → tenant_id user = Some t → t ≠ "" →
  submit_marks body user db
  = (set_internal_marks db
       (upsert (entry_record (Some t) (ms_subject_id body) (user_id user)
                  <$> ms_entries body) (internal_marks db)).1,
     Success {| count := length (ms_entries body) |}).
Proof.
  intros Hrole Ht Hne. unfold submit_marks.
  rewrite (require_role_ok ["faculty"] user) by (rewrite Hrole; apply list_elem_of_here).
  rewrite (get_tenant_id_ok _ _ Ht Hne).
  set (recs := entry_record (Some t) (ms_subject_id body) (user_id user)
                 <$> ms_entries body).
  change (upsert _ (internal_marks db)) with (upsert recs (internal_marks db)).
  pose proof (upsert_data_length recs (internal_marks db)) as Hlen.
  destruct (upsert recs (internal_marks db)) as [rows data]. simpl in *.
  rewrite Hlen. unfold recs. by rewrite length_fmap.
Qed.

Lemma entry_records_students tenant subject uid (entries : list MarkEntry) :
  mr_student_id <$> (entry_record tenant subject uid <$> entries)
  = me_student_id <$> entries.
Proof. rewrite <- list_fmap_compose. done. Qed.



(** X13: a submission with distinct students never removes or moves a
    stored row, and when no two stored rows share a (tenant, subject,
    student) none do afterwards: every stored row keeps its position, its
    student, subject and tenant and its approval and lock columns; a row of
    another tenant or subject, or of a student that the body does not name,
    is left exactly as it was; and the table grows by at most one row per
    entry. *)
Theorem submit_marks_frame body user db t :
  role user = "faculty" → tenant_id user = Some t → t ≠ "" →
  NoDup (me_student_id <$> ms_entries body) →
  keys_unique (internal_marks db) →
  ∃ db' data,
    submit_marks body user db = (db', Success data)
    ∧ keys_unique (internal_marks db')
    ∧ (length (internal_marks db) ≤ length (internal_marks db')
       ≤ length (internal_marks db) + length (ms_entries body))%nat
    ∧ ∀ i r, internal_marks db !! i = Some r →
        ∃ r', internal_marks db' !! i = Some r'
          ∧ kept_by_submit r r'
          ∧ (im_tenant_id r ≠ Some t ∨ im_subject_id r ≠ ms_subject_id body
             ∨ im_student_id r ∉ me_student_id <$> ms_entries body →
             r' = r).
Proof.
  intros Hrole Ht Hne Hnd Hu. rewrite (submit_marks_authorized body user db t) by done.
  set (recs := entry_record (Some t) (ms_subject_id body) (user_id user)
                 <$> ms_entries body).
  eexists _, _. split; [done|]. simpl. split; [|split].
  - apply upsert_keys_unique; [|done].
    intros rec (e & -> & _)%list_elem_of_fmap. by eexists.
  - pose proof (upsert_length recs (internal_marks db)) as Hlen.
    subst recs. by rewrite length_fmap in Hlen.
  - intros i r Hr.
    destruct (upsert_kept recs (internal_marks db) i r Hr) as (r' & Hr' & Hk).
    exists r'. split; [done|]. split; [done|]. intros Hother.
    assert (Hsame : (upsert recs (internal_marks db)).1 !! i = Some r).
    { apply upsert_frame; [done|].
      intros rec (e & -> & He)%list_elem_of_fmap. apply not_true_is_false.
      intros (Hten & Hsub & Hstu)%conflicts_true. simpl in *.
      apply sql_eq_true in Hten as (x & Hx & [= <-]).
      destruct Hother as [H | [H | H]]; [done | done |].
      apply H. rewrite Hstu. by apply list_elem_of_fmap_2. }
    congruence.
Qed.

Lemma submit_marks_frame_witness :
  ∃ db',
    (submit_marks (mkMarksSubmit "sub1" [mkMarkEntry "A" (41#1) 50; mkMarkEntry "B" (38#1) 50])
       Sample.faculty_f2
       (Sample.marks_db [Sample.mark "B" "draft" (12#1);
                         Sample.mark "C" "locked" (45#1)])).1 = db'
    ∧ length (internal_marks db') = 3%nat
    ∧ internal_marks db' !! 1%nat = Some (Sample.mark "C" "locked" (45#1)).
Proof.
  destruct (submit_marks_frame
              (mkMarksSubmit "sub1" [mkMarkEntry "A" (41#1) 50; mkMarkEntry "B" (38#1) 50])
              Sample.faculty_f2
              (Sample.marks_db [Sample.mark "B" "draft" (12#1);
                                Sample.mark "C" "locked" (45#1)]) "t1")
    as (db' & data & Hrun & _ & _ & Hrows).
  - reflexivity.
  - reflexivity.
  - discriminate.
  - apply (bool_decide_unpack _). by vm_compute.
  - apply (bool_decide_unpack _). by vm_compute.
  - exists db'. split; [by rewrite Hrun|]. split.
    + vm_compute in Hrun. injection Hrun as <- _. reflexivity.
    + destruct (Hrows 1%nat (Sample.mark "C" "locked" (45#1)) eq_refl)
        as (r' & Hr' & _ & Hsame).
      rewrite Hr'. f_equal. apply Hsame. right. right. simpl.
      rewrite !elem_of_cons, elem_of_nil. intros [H | [H | []]]; discriminate.
Defined.

(** ** Internal marks: from submission to the student *)

Lemma keys_unique_eq rows r r' k :
  keys_unique rows → r ∈ rows → r' ∈ rows →
  mark_key r = Some k → mark_key r' = Some k → r = r'.
Proof.
  unfold keys_unique. induction rows as [|a rows IH]; intros Hu Hr Hr' Hk Hk'.
  - by apply elem_of_nil in Hr.
  - assert (Hin : ∀ x, x ∈ rows → mark_key x = Some k → k ∈ omap mark_key rows).
    { intros x Hx Hkx. apply list_elem_of_omap. eauto. }
    csimpl in Hu. apply elem_of_cons in Hr as [-> | Hr];
      apply elem_of_cons in Hr' as [-> | Hr']; [done | | |].
    + rewrite Hk in Hu. apply NoDup_cons in Hu as [Hnot _].
      destruct Hnot. by apply (Hin r').
    + rewrite Hk' in Hu. apply NoDup_cons in Hu as [Hnot _].
      destruct Hnot. by apply (Hin r).
    + apply IH; [|done..]. destruct (mark_key a); [|done].
      by apply NoDup_cons in Hu as [_ Hu].
Qed.

Lemma update_where_keys_unique (p : InternalMark → bool) f rows :
  (∀ r, mark_key (f r) = mark_key r) →
  keys_unique rows → keys_unique (update_where p f rows).1.
Proof.
  intros Hf. unfold keys_unique, update_where. simpl.
  assert (Heq : omap mark_key ((λ r, if p r then f r else r) <$> rows)
                = omap mark_key rows).
  { induction rows as [|r rows IH]; [done|]. csimpl. rewrite IH.
    by destruct (p r); [rewrite Hf|]. }
  by rewrite Heq.
Qed.

Lemma update_where_elem {A} (p : A → bool) (f : A → A) rows r :
  r ∈ rows → (if p r then f r else r) ∈ (update_where p f rows).1.
Proof.
  intros Hin. unfold update_where. simpl.
  by apply (list_elem_of_fmap_2 (λ r, if p r then f r else r)).
Qed.

Lemma approve_marks_authorized subject user now db t :
  role user ∈ ["hod"; "admin"] → tenant_id user = Some t → t ≠ "" →
  approve_marks subject "approve" user now db
  = (set_internal_marks db
       (update_where (in_scope (Some t) subject "submitted")
          (set_approved (user_id user) now) (internal_marks db)).1,
     Success
       (update_where (in_scope (Some t) subject "submitted")
          (set_approved (user_id user) now) (internal_marks db)).2).
Proof.
  intros Hrole Ht Hne. unfold approve_marks.
  rewrite (require_role_ok _ _ Hrole), (get_tenant_id_ok _ _ Ht Hne).
  by rewrite decide_True by done.
Qed.

Lemma reject_marks_authorized subject user now db t :
  role user ∈ ["hod"; "admin"] → tenant_id user = Some t → t ≠ "" →
  approve_marks subject "reject" user now db
  = (set_internal_marks db
       (update_where (in_scope (Some t) subject "submitted")
          set_draft (internal_marks db)).1,
     Success
       (update_where (in_scope (Some t) subject "submitted")
          set_draft (internal_marks db)).2).
Proof.
  intros Hrole Ht Hne. unfold approve_marks.
  rewrite (require_role_ok _ _ Hrole), (get_tenant_id_ok _ _ Ht Hne).
  rewrite decide_False by done. by rewrite decide_True by done.
Qed.

Lemma lock_marks_authorized subject user now db t :
  role user = "admin" → tenant_id user = Some t → t ≠ "" →
  lock_marks subject user now db
  = (set_internal_marks db
       (update_where (in_scope (Some t) subject "approved")
          (set_locked (user_id user) now) (internal_marks db)).1,
     Success
       (update_where (in_scope (Some t) subject "approved")
          (set_locked (user_id user) now) (internal_marks db)).2).
Proof.
  intros Hrole Ht Hne. unfold lock_marks.
  rewrite (require_role_ok ["admin"] user) by (rewrite Hrole; apply list_elem_of_here).
  by rewrite (get_tenant_id_ok _ _ Ht Hne).
Qed.

Lemma get_my_marks_authorized exams user db t :
  role user = "student" → tenant_id user = Some t → t ≠ "" →
  ∃ m, get_my_marks exams user db = Success m
    ∧ ∀ r, r ∈ legacy_marks m
        ↔ r ∈ internal_marks db ∧ im_tenant_id r = Some t
          ∧ im_student_id r = user_id user ∧ im_status r = "locked".
Proof.
  intros Hrole Ht Hne. unfold get_my_marks.
  rewrite (require_role_ok ["student"] user) by (rewrite Hrole; apply list_elem_of_here).
  simpl. rewrite (get_tenant_id_ok _ _ Ht Hne). simpl.
  eexists. split; [done|]. intros r. simpl. unfold select_where.
  rewrite list_elem_of_filter, !andb_true_iff, !bool_decide_eq_true. split.
  - intros [[[Hten ?] ?] ?]. apply sql_eq_true in Hten as (x & Hx & [= <-]). done.
  - intros (? & Hten & ? & ?). rewrite Hten, sql_eq_refl. done.
Qed.

(** X14: marks reach the student only when locked.  After a faculty member
    submits marks for a student, the student's own list shows no row of that
    subject, nor after the HOD approves them; after the admin locks them the
    list shows exactly one row of the subject, with the submitted marks and
    the three actors. *)
Theorem marks_visible_once_locked body fac hod adm stu exams t e now1 now2 db :
  role fac = "faculty" → role hod ∈ ["hod"; "admin"] →
  role adm = "admin" → role stu = "student" →
  tenant_id fac = Some t → tenant_id hod = Some t →
  tenant_id adm = Some t → tenant_id stu = Some t → t ≠ "" →
  NoDup (me_student_id <$> ms_entries body) →
  keys_unique (internal_marks db) →
  e ∈ ms_entries body → me_student_id e = user_id stu →
  let db1 := (submit_marks body fac db).1 in
  let db2 := (approve_marks (ms_subject_id body) "approve" hod now1 db1).1 in
  let db3 := (lock_marks (ms_subject_id body) adm now2 db2).1 in
  (∀ d, d = db1 ∨ d = db2 →
     ∃ m, get_my_marks exams stu d = Success m
       ∧ ∀ r, r ∈ legacy_marks m → im_subject_id r ≠ ms_subject_id body)
  ∧ ∃ m r, get_my_marks exams stu db3 = Success m
      ∧ r ∈ legacy_marks m
      ∧ (∀ r', r' ∈ legacy_marks m → im_subject_id r' = ms_subject_id body → r' = r)
      ∧ im_subject_id r = ms_subject_id body
      ∧ im_marks r = me_marks e ∧ im_max_marks r = me_max_marks e
      ∧ im_submitted_by r = Some (user_id fac)
      ∧ im_approved_by r = Some (user_id hod)
      ∧ im_locked_by r = Some (user_id adm).
Proof.
  intros Hfac Hhod Hadm Hstu Htf Hth Hta Hts Hne Hnd Hu He Hes. cbv zeta.
  rewrite (submit_marks_authorized body fac db t) by done.
  rewrite (approve_marks_authorized _ hod now1 _ t) by done.
  rewrite (lock_marks_authorized _ adm now2 _ t) by done.
  cbn [fst internal_marks set_internal_marks].
  set (subject := ms_subject_id body).
  set (recs := entry_record (Some t) subject (user_id fac) <$> ms_entries body).
  set (rows1 := (upsert recs (internal_marks db)).1).
  set (p1 := in_scope (Some t) subject "submitted").
  set (f1 := set_approved (user_id hod) now1).
  set (rows2 := (update_where p1 f1 rows1).1).
  set (p2 := in_scope (Some t) subject "approved").
  set (f2 := set_locked (user_id adm) now2).
  set (rows3 := (update_where p2 f2 rows2).1).
  set (k := (t, subject, user_id stu)).
  (* the row written for the student *)
  apply list_elem_of_lookup in He as [j Hj].
  destruct (upsert_written recs (internal_marks db) j
              (entry_record (Some t) subject (user_id fac) e))
    as (w & _ & Hw1 & Hten & Hsub & Hst & Hm & Hmax & Hstat & Hby).
  { unfold recs. by rewrite entry_records_students. }
  { unfold recs. by rewrite list_lookup_fmap, Hj. }
  simpl in Hten, Hsub, Hst, Hm, Hmax, Hstat, Hby. fold rows1 in Hw1.
  assert (Hu1 : keys_unique rows1).
  { apply upsert_keys_unique; [|done].
    intros rec (e' & -> & _)%list_elem_of_fmap. by eexists. }
  assert (Hu2 : keys_unique rows2) by by apply update_where_keys_unique.
  assert (Hu3 : keys_unique rows3) by by apply update_where_keys_unique.
  assert (Hp1 : p1 w = true).
  { apply in_scope_true. by rewrite Hten, sql_eq_refl. }
  assert (Hp2 : p2 (f1 w) = true).
  { apply in_scope_true. simpl. by rewrite Hten, sql_eq_refl. }
  assert (Hw2 : f1 w ∈ rows2).
  { pose proof (update_where_elem p1 f1 rows1 w Hw1) as H. by rewrite Hp1 in H. }
  assert (Hw3 : f2 (f1 w) ∈ rows3).
  { pose proof (update_where_elem p2 f2 rows2 (f1 w) Hw2) as H. by rewrite Hp2 in H. }
  assert (Hkey : ∀ r, im_tenant_id r = Some t → im_student_id r = user_id stu →
                      im_subject_id r = subject → mark_key r = Some k).
  { intros r H1 H2 H3. unfold mark_key, k. by rewrite H1, H2, H3. }
  assert (Hkw : mark_key w = Some k) by (apply Hkey; congruence).
  split.
  - intros d Hd.
    assert (∃ rows x, internal_marks d = rows ∧ keys_unique rows ∧ x ∈ rows
                      ∧ mark_key x = Some k ∧ im_status x ≠ "locked")
      as (rows & x & Hrows & Hur & Hx & Hkx & Hsx).
    { destruct Hd as [-> | ->].
      - exists rows1, w. simpl. rewrite Hstat. done.
      - exists rows2, (f1 w). simpl. done. }
    destruct (get_my_marks_authorized exams stu d t) as (m & Hm' & Hlist); [done..|].
    exists m. split; [done|]. intros r (Hr & Hrt & Hrs & Hrl)%Hlist Hrsub.
    rewrite Hrows in Hr.
    assert (r = x) as -> by (apply (keys_unique_eq rows _ _ k); auto).
    done.
  - destruct (get_my_marks_authorized exams stu
                (set_internal_marks
                   (set_internal_marks (set_internal_marks db rows1) rows2) rows3) t)
      as (m & Hm' & Hlist); [done..|].
    exists m, (f2 (f1 w)). split; [done|]. split; [|split].
    + apply Hlist. simpl. rewrite Hten, Hst, Hes. done.
    + intros r' (Hr & Hrt & Hrs & Hrl)%Hlist Hrsub. simpl in Hr.
      apply (keys_unique_eq rows3 _ _ k); auto.
    + simpl. rewrite Hsub, Hm, Hmax, Hby. done.
Qed.

Lemma marks_visible_once_locked_witness :
  ∃ m r,
    get_my_marks [] Sample.student_s1
      (lock_marks "sub1" Sample.admin_a1 "2024-03-03T09:00:00"
         (approve_marks "sub1" "approve" Sample.hod_h1 "2024-03-02T10:00:00"
            (submit_marks
               (mkMarksSubmit "sub1" [mkMarkEntry "A" (41#1) 50; mkMarkEntry "s1" (38#1) 50])
               Sample.faculty_f1
               (Sample.marks_db [Sample.mark "s1" "draft" (12#1)])).1).1).1
    = Success m
    ∧ r ∈ legacy_marks m ∧ im_marks r = (38#1)%Q ∧ im_locked_by r = Some "a1".
Proof.
  destruct (marks_visible_once_locked
              (mkMarksSubmit "sub1" [mkMarkEntry "A" (41#1) 50; mkMarkEntry "s1" (38#1) 50])
              Sample.faculty_f1 Sample.hod_h1 Sample.admin_a1 Sample.student_s1 []
              "t1" (mkMarkEntry "s1" (38#1) 50)
              "2024-03-02T10:00:00" "2024-03-03T09:00:00"
              (Sample.marks_db [Sample.mark "s1" "draft" (12#1)]))
    as (_ & m & r & Hm & Hin & _ & _ & Hmarks & _ & _ & _ & Hlock).
  - reflexivity.
  - vm_compute. apply list_elem_of_here.
  - reflexivity.
  - reflexivity.
  - reflexivity.
  - reflexivity.
  - reflexivity.
  - reflexivity.
  - discriminate.
  - apply (bool_decide_unpack _). by vm_compute.
  - apply (bool_decide_unpack _). by vm_compute.
  - apply list_elem_of_further, list_elem_of_here.
  - reflexivity.
  - exists m, r. done.
Defined.

(** ** Internal marks: rejection and the pending list *)

(** A row whose status is neither [submitted] nor [approved] is outside the
    filter of approve, reject and lock, whoever calls them. *)
Lemma row_outside_filters_kept subject act user now db i r :
  internal_marks db !! i = Some r →
  im_status r ≠ "submitted" → im_status r ≠ "approved" →
  internal_marks (approve_marks subject act user now db).1 !! i = Some r
  ∧ internal_marks (lock_marks subject user now db).1 !! i = Some r.
Proof.
  intros Hr Hs Ha. split.
  - unfold approve_marks.
    destruct (require_role _ user) as [u|]; [|done].
    destruct (get_tenant_id u) as [tenant|]; [|done].
    assert (Hp : in_scope tenant subject "submitted" r = false)
      by by apply in_scope_false_status.
    destruct (decide (act = "approve")); [|destruct (decide (act = "reject"))];
      [| |done]; simpl; by rewrite list_lookup_fmap, Hr; simpl; rewrite Hp.
  - unfold lock_marks.
    destruct (require_role _ user) as [u|]; [|done].
    destruct (get_tenant_id u) as [tenant|]; [|done].
    assert (Hp : in_scope tenant subject "approved" r = false)
      by by apply in_scope_false_status.
    simpl. by rewrite list_lookup_fmap, Hr; simpl; rewrite Hp.
Qed.

(** X15: for an authorised caller, reject moves every [submitted] row of the
    (tenant, subject) to [draft] and changes no other column of it, leaves
    every other row as it was, and returns the rows it moved; a row it moved
    is then outside the reach of approve, reject and lock, which leave it as
    it is. *)
Theorem reject_marks_to_draft subject user now db t :
  role user ∈ ["hod"; "admin"] →
  tenant_id user = Some t → t ≠ "" →
  ∃ db' data,
    approve_marks subject "reject" user now db = (db', Success data)
    ∧ length (internal_marks db') = length (internal_marks db)
    ∧ (∀ i r, internal_marks db !! i = Some r →
         (im_tenant_id r = Some t ∧ im_subject_id r = subject
          ∧ im_status r = "submitted" →
            ∃ r', internal_marks db' !! i = Some r' ∧ r' ∈ data
              ∧ im_status r' = "draft" ∧ same_mark_data r r'
              ∧ ∀ act caller now',
                  internal_marks (approve_marks subject act caller now' db').1 !! i
                  = Some r'
                  ∧ internal_marks (lock_marks subject caller now' db').1 !! i
                    = Some r')
         ∧ (¬ (im_tenant_id r = Some t ∧ im_subject_id r = subject
               ∧ im_status r = "submitted") →
            internal_marks db' !! i = Some r))
    ∧ (∀ x, x ∈ data → im_status x = "draft").
Proof.
  intros Hrole Ht Hne. rewrite (reject_marks_authorized _ _ _ _ t) by done.
  set (p := in_scope (Some t) subject "submitted").
  eexists _, _. split; [done|]. cbn [internal_marks set_internal_marks].
  split; [apply update_where_length|]. split.
  - intros i r Hr. rewrite (update_where_lookup _ _ _ _ _ Hr). split.
    + intros (Hten & Hsub & Hst).
      assert (Hp : p r = true).
      { apply in_scope_true. rewrite Hten. by rewrite sql_eq_refl. }
      rewrite Hp. exists (set_draft r). split; [done|]. split.
      { apply update_where_data. eauto using list_elem_of_lookup_2. }
      split; [done|]. split; [by unfold same_mark_data|].
      intros act caller now'.
      assert (Hi : internal_marks
                     (set_internal_marks db (update_where p set_draft (internal_marks db)).1)
                   !! i = Some (set_draft r)).
      { simpl. by rewrite list_lookup_fmap, Hr; simpl; rewrite Hp. }
      by apply row_outside_filters_kept.
    + intros Hnot. destruct (p r) eqn:Hp; [|done].
      apply in_scope_true in Hp as (Hten & Hsub & Hst).
      apply sql_eq_true in Hten as (x & Hx & [= <-]). tauto.
  - intros x (r & -> & _ & _)%update_where_data. done.
Qed.

Lemma reject_marks_to_draft_witness :
  ∃ db' data,
    approve_marks "sub1" "reject" Sample.hod_h1 "2024-03-02T10:00:00"
      (Sample.marks_db [Sample.mark "A" "submitted" (41#1);
                        Sample.mark "B" "approved" (38#1)])
    = (db', Success data)
    ∧ internal_marks db'
      = [Sample.mark "A" "draft" (41#1); Sample.mark "B" "approved" (38#1)].
Proof.
  destruct (reject_marks_to_draft "sub1" Sample.hod_h1 "2024-03-02T10:00:00"
              (Sample.marks_db [Sample.mark "A" "submitted" (41#1);
                                Sample.mark "B" "approved" (38#1)]) "t1")
    as (db' & data & Hrun & _ & _ & _).
  - vm_compute. apply list_elem_of_here.
  - reflexivity.
  - discriminate.
  - exists db', data. split; [exact Hrun|].
    vm_compute in Hrun. injection Hrun as <- _. reflexivity.
Defined.

Lemma get_pending_marks_authorized user db t :
  role user ∈ ["hod"; "admin"] → tenant_id user = Some t → t ≠ "" →
  ∃ l, get_pending_marks user db = Success l
    ∧ ∀ r, r ∈ l ↔ r ∈ internal_marks db ∧ im_tenant_id r = Some t
                    ∧ im_status r = "submitted".
Proof.
  intros Hrole Ht Hne. unfold get_pending_marks.
  rewrite (require_role_ok _ _ Hrole). simpl.
  rewrite (get_tenant_id_ok _ _ Ht Hne). simpl.
  eexists. split; [done|]. intros r. unfold select_where.
  rewrite list_elem_of_filter, !andb_true_iff, !bool_decide_eq_true. split.
  - intros [[Hten ?] ?]. apply sql_eq_true in Hten as (x & Hx & [= <-]). done.
  - intros (? & Hten & ?). rewrite Hten, sql_eq_refl. done.
Qed.

(** X16: the pending list of an HOD or admin holds exactly the tenant's
    [submitted] rows, and an approve or reject on a subject removes from it
    the rows of that subject and nothing else. *)
Theorem pending_marks_after_action subject act user now db t :
  role user ∈ ["hod"; "admin"] → tenant_id user = Some t → t ≠ "" →
  act = "approve" ∨ act = "reject" →
  ∃ before after,
    get_pending_marks user db = Success before
    ∧ get_pending_marks user (approve_marks subject act user now db).1 = Success after
    ∧ (∀ r, r ∈ before ↔ r ∈ internal_marks db ∧ im_tenant_id r = Some t
                          ∧ im_status r = "submitted")
    ∧ (∀ r, r ∈ after ↔ r ∈ before ∧ im_subject_id r ≠ subject).
Proof.
  intros Hrole Ht Hne Hact.
  destruct (get_pending_marks_authorized user db t) as (before & Hb & Hbefore); [done..|].
  destruct (get_pending_marks_authorized user
              (approve_marks subject act user now db).1 t)
    as (after & Ha & Hafter); [done..|].
  exists before, after. split; [done|]. split; [done|]. split; [done|].
  assert (∃ f, (∀ r, im_status (f r) ≠ "submitted")
               ∧ internal_marks (approve_marks subject act user now db).1
                 = (update_where (in_scope (Some t) subject "submitted") f
                      (internal_marks db)).1) as (f & Hf & Hrows).
  { destruct Hact as [-> | ->].
    - exists (set_approved (user_id user) now). split; [done|].
      by rewrite (approve_marks_authorized _ _ _ _ t).
    - exists set_draft. split; [done|].
      by rewrite (reject_marks_authorized _ _ _ _ t). }
  intros r. rewrite Hafter, Hbefore, Hrows. unfold update_where. simpl.
  rewrite list_elem_of_fmap. split.
  - intros ((r0 & -> & Hin) & Hten & Hst).
    destruct (in_scope (Some t) subject "submitted" r0) eqn:Hp.
    + by destruct (Hf r0).
    + split; [done|]. intros Hsub.
      apply not_true_iff_false in Hp. apply Hp, in_scope_true.
      by rewrite Hten, sql_eq_refl.
  - intros ((Hin & Hten & Hst) & Hsub). split; [|done].
    exists r. split; [|done].
    assert (Hp : in_scope (Some t) subject "submitted" r = false).
    { apply not_true_is_false. rewrite in_scope_true. tauto. }
    by rewrite Hp.
Qed.

Lemma pending_marks_after_action_witness :
  ∃ before after,
    get_pending_marks Sample.hod_h1
      (Sample.marks_db [Sample.mark "A" "submitted" (41#1);
                        Sample.mark "B" "approved" (38#1)]) = Success before
    ∧ get_pending_marks Sample.hod_h1
        (approve_marks "sub1" "approve" Sample.hod_h1 "2024-03-02T10:00:00"
           (Sample.marks_db [Sample.mark "A" "submitted" (41#1);
                             Sample.mark "B" "approved" (38#1)])).1 = Success after
    ∧ Sample.mark "A" "submitted" (41#1) ∈ before
    ∧ after = [].
Proof.
  destruct (pending_marks_after_action "sub1" "approve" Sample.hod_h1
              "2024-03-02T10:00:00"
              (Sample.marks_db [Sample.mark "A" "submitted" (41#1);
                                Sample.mark "B" "approved" (38#1)]) "t1")
    as (before & after & Hb & Ha & Hbefore & Hafter).
  - vm_compute. apply list_elem_of_here.
  - reflexivity.
  - discriminate.
  - by left.
  - exists before, after. split; [exact Hb|]. split; [exact Ha|]. split.
    + apply Hbefore. split; [apply list_elem_of_here | done].
    + destruct after as [|r after]; [done|].
      destruct (proj1 (Hafter r) (list_elem_of_here _ _)) as [Hin Hsub].
      apply Hbefore in Hin as (Hin & _ & _). simpl in Hin.
      rewrite !elem_of_cons, elem_of_nil in Hin.
      destruct Hin as [-> | [-> | []]]; by destruct Hsub.
Defined.

(** ** Timetable generation: what a run adds *)

Lemma run_appends_refl P st : run_appends P st st.
Proof. exists []. by rewrite !app_nil_r. Qed.

Lemma run_appends_trans P st1 st2 st3 :
  run_appends P st1 st2 → run_appends P st2 st3 → run_appends P st1 st3.
Proof.
  intros (n1 & Ht1 & Hc1 & HP1) (n2 & Ht2 & Hc2 & HP2). exists (n1 ++ n2).
  rewrite Ht2, Hc2, Ht1, Hc1, !app_assoc. split; [done|]. split; [done|].
  by apply Forall_app.
Qed.

Section RunAppends.

Variable insert_raises : list TimetableSlot → TimetableSlot → bool.
Variable tenant : option string.
Variable batch : string.
Variable rooms : list Classroom.
Variable assignments : list FacultyAssignment.
Variable periods : list PeriodTemplate.

Abbreviation placed := (placed_from tenant batch rooms assignments periods).

Lemma period_body_appends asgn day period st allocated :
  asgn ∈ assignments → day ∈ days → period ∈ periods →
  run_appends placed st
    (period_body insert_raises tenant batch rooms asgn day period st allocated).1.
Proof.
  intros Ha Hd Hp.
  destruct (period_body _ _ _ _ _ _ _ st allocated) as [st' a'] eqn:Hbody.
  destruct (period_body_marks _ _ _ _ _ _ _ _ _ _ _ Hbody)
    as [_ [[_ ->] | [_ (s & Hcr & Htab & Hs & _)]]]; [apply run_appends_refl|].
  exists [s]. split; [done|]. split; [done|]. apply Forall_singleton.
  rewrite Hs. unfold placed_from. simpl. split; [done|]. split; [done|].
  split; [done|]. split; [done|]. split; [by exists period|]. split; [by exists asgn|].
  intros r Hr. by apply find_room_Some in Hr as [? _].
Qed.

Lemma period_loop_appends asgn hrs day ps st allocated :
  asgn ∈ assignments → day ∈ days → ps ⊆ periods →
  run_appends placed st
    (period_loop insert_raises tenant batch rooms asgn hrs day ps st allocated).1.
Proof.
  intros Ha Hd. revert st allocated.
  induction ps as [|period ps IH]; intros st allocated Hsub; simpl.
  { apply run_appends_refl. }
  destruct (decide _); [apply run_appends_refl|].
  pose proof (period_body_appends asgn day period st allocated Ha Hd) as Hstep.
  destruct (period_body _ _ _ _ _ _ _ _ _) as [st1 a1].
  eapply run_appends_trans.
  - apply Hstep, Hsub, list_elem_of_here.
  - apply IH. intros x Hx. by apply Hsub, list_elem_of_further.
Qed.

Lemma day_loop_appends asgn hrs ds st allocated :
  asgn ∈ assignments → ds ⊆ days →
  run_appends placed st
    (day_loop insert_raises tenant batch rooms asgn hrs ds periods st allocated).1.
Proof.
  intros Ha. revert st allocated.
  induction ds as [|day ds IH]; intros st allocated Hsub; simpl.
  { apply run_appends_refl. }
  destruct (decide _); [apply run_appends_refl|].
  pose proof (period_loop_appends asgn hrs day periods st allocated Ha) as Hstep.
  destruct (period_loop _ _ _ _ _ _ _ _ _ _) as [st1 a1].
  eapply run_appends_trans.
  - apply Hstep; [apply Hsub, list_elem_of_here | done].
  - apply IH. intros x Hx. by apply Hsub, list_elem_of_further.
Qed.

Lemma assignment_loop_appends asgns st :
  asgns ⊆ assignments →
  run_appends placed st
    (assignment_loop insert_raises tenant batch rooms asgns periods st).1.
Proof.
  revert st. induction asgns as [|asgn asgns IH]; intros st Hsub;
    cbn [assignment_loop].
  { apply run_appends_refl. }
  destruct (hrs_needed asgn) as [hrs|]; [|apply run_appends_refl].
  pose proof (day_loop_appends asgn hrs days st 0) as Hstep.
  destruct (day_loop _ _ _ _ _ _ _ _ _ _) as [st1 a1].
  eapply run_appends_trans.
  - apply Hstep; [apply Hsub, list_elem_of_here | done].
  - apply IH. intros x Hx. by apply Hsub, list_elem_of_further.
Qed.

(** The counter of one assignment: it counts the slots created, and stops
    at the hours asked for. *)
Lemma period_body_count asgn day period st allocated :
  let out := period_body insert_raises tenant batch rooms asgn day period st allocated in
  allocated ≤ out.2 ≤ allocated + 1
  ∧ Z.of_nat (length (created_slots out.1))
    = Z.of_nat (length (created_slots st)) + (out.2 - allocated).
Proof.
  destruct (period_body _ _ _ _ _ _ _ st allocated) as [st' a'] eqn:Hbody.
  destruct (period_body_marks _ _ _ _ _ _ _ _ _ _ _ Hbody)
    as [_ [[-> ->] | [-> (s & Hcr & _)]]]; simpl.
  - lia.
  - rewrite Hcr, length_app. simpl. lia.
Qed.

Lemma period_loop_count asgn hrs day ps st allocated :
  let out := period_loop insert_raises tenant batch rooms asgn hrs day ps st allocated in
  allocated ≤ out.2 ≤ Z.max allocated hrs
  ∧ Z.of_nat (length (created_slots out.1))
    = Z.of_nat (length (created_slots st)) + (out.2 - allocated).
Proof.
  revert st allocated. induction ps as [|period ps IH]; intros st allocated; simpl.
  { lia. }
  destruct (decide _); simpl; [lia|].
  pose proof (period_body_count asgn day period st allocated) as Hb.
  destruct (period_body _ _ _ _ _ _ _ _ _) as [st1 a1]. simpl in Hb.
  specialize (IH st1 a1). simpl in IH. lia.
Qed.

Lemma day_loop_count asgn hrs ds st allocated :
  let out := day_loop insert_raises tenant batch rooms asgn hrs ds periods st allocated in
  allocated ≤ out.2 ≤ Z.max allocated hrs
  ∧ Z.of_nat (length (created_slots out.1))
    = Z.of_nat (length (created_slots st)) + (out.2 - allocated).
Proof.
  revert st allocated. induction ds as [|day ds IH]; intros st allocated; simpl.
  { lia. }
  destruct (decide _); simpl; [lia|].
  pose proof (period_loop_count asgn hrs day periods st allocated) as Hb.
  destruct (period_loop _ _ _ _ _ _ _ _ _ _) as [st1 a1]. simpl in Hb.
  specialize (IH st1 a1). simpl in IH. lia.
Qed.

Lemma assignment_loop_count asgns st :
  Z.of_nat (length (created_slots
     (assignment_loop insert_raises tenant batch rooms asgns periods st).1))
  ≤ Z.of_nat (length (created_slots st)) + hours_asked asgns.
Proof.
  revert st. induction asgns as [|asgn asgns IH]; intros st;
    cbn [assignment_loop hours_asked foldr].
  { simpl. lia. }
  fold (hours_asked asgns).
  destruct (hrs_needed asgn) as [hrs|]; cbn [default from_option id].
  - pose proof (day_loop_count asgn hrs days st 0) as Hd. cbv zeta in Hd.
    destruct (day_loop _ _ _ _ _ _ _ _ _ _) as [st1 a1]. cbn [fst snd] in Hd.
    specialize (IH st1). lia.
  - cbn [fst]. assert (0 ≤ hours_asked asgns); [|lia].
    clear. induction asgns as [|a asgns IH]; simpl; [done|].
    fold (hours_asked asgns). lia.
Qed.

(** The loop runs to its end exactly when no assignment has a NULL
    [hours_per_week]. *)
Lemma assignment_loop_ok asgns st :
  (assignment_loop insert_raises tenant batch rooms asgns periods st).2 = true
  ↔ ∀ a, a ∈ asgns → fa_hours_per_week a ≠ HoursNull.
Proof.
  revert st. induction asgns as [|asgn asgns IH]; intros st; cbn [assignment_loop].
  { split; [|done]. by intros _ a ?%elem_of_nil. }
  unfold hrs_needed at 1. destruct (fa_hours_per_week asgn) eqn:Hh.
  - destruct (day_loop _ _ _ _ _ _ _ _ _ _) as [st1 a1]. rewrite IH. split.
    + intros H a [-> | Hin]%elem_of_cons; [by rewrite Hh | by apply H].
    + intros H a Hin. by apply H, list_elem_of_further.
  - simpl. split; [done|]. intros H. by destruct (H asgn (list_elem_of_here _ _)).
  - destruct (day_loop _ _ _ _ _ _ _ _ _ _) as [st1 a1]. rewrite IH. split.
    + intros H a [-> | Hin]%elem_of_cons; [by rewrite Hh | by apply H].
    + intros H a Hin. by apply H, list_elem_of_further.
Qed.

End RunAppends.

Lemma query_periods_subset db tenant p :
  p ∈ query_periods db tenant → p ∈ period_templates db ∧ pt_is_break p = false.
Proof.
  unfold query_periods, select_where.
  destruct (merge_sort by_period_number _) as [|q own] eqn:Hown.
  - rewrite merge_sort_Permutation, list_elem_of_filter, negb_true_iff. tauto.
  - rewrite <- Hown, merge_sort_Permutation, list_elem_of_filter, andb_true_iff,
      negb_true_iff. tauto.
Qed.

Lemma query_rooms_spec db t room :
  room ∈ query_rooms db (Some t)
  ↔ room ∈ classrooms db ∧ room_tenant_id room = Some t ∧ room_is_available room = true.
Proof.
  unfold query_rooms, select_where.
  rewrite merge_sort_Permutation, list_elem_of_filter, andb_true_iff, sql_eq_true.
  split.
  - intros [[(x & Hx & [= <-]) Hav] Hin]. done.
  - intros (Hin & Hten & Hav). eauto.
Qed.

Lemma generate_timetable_caller insert_raises body user db db' res :
  generate_timetable insert_raises body user db = (db', Success res) →
  role user = "admin" ∧ ∃ t, tenant_id user = Some t ∧ t ≠ "".
Proof.
  unfold generate_timetable.
  destruct (require_role _ user) as [u|] eqn:Hrole; [|done].
  apply require_role_inv in Hrole as [-> Hin%list_elem_of_singleton].
  destruct (get_tenant_id user) as [tenant|] eqn:Hten; [|done].
  intros _. split; [done|].
  destruct (get_tenant_id_truthy user tenant) as (t & _ & Ht & Hne);
    [by rewrite Hin | done | eauto].
Qed.

Lemma query_batch_Some db tenant id b :
  query_batch db tenant id = Some b →
  batches db !! id = Some b ∧ sql_eq (b_tenant_id b) tenant = true.
Proof.
  unfold query_batch. destruct (batches db !! id) as [b'|]; [|done].
  destruct (sql_eq _ _) eqn:Hs; [|done]. by intros [= <-].
Qed.

(** X17: every slot that a successful run returns is made of the store's own
    rows: it carries the caller's tenant, the batch of the body and the type
    lecture; its day is one of 1 to 6; its period number and times are
    those of one stored non-break period template; its faculty and subject
    are those of one assignment of the tenant whose subject is a subject of
    the tenant in the batch's semester, which is not NULL; and its
    classroom, when it has one, is an available classroom of the tenant. *)
Theorem generated_slots_shape insert_raises body user db db' res :
  generate_timetable insert_raises body user db = (db', Success res) →
  ∃ t b,
    tenant_id user = Some t ∧ batches db !! batch_id body = Some b
    ∧ ∀ s, s ∈ slots res →
        ts_tenant_id s = Some t ∧ ts_batch_id s = batch_id body
        ∧ ts_slot_type s = "lecture"
        ∧ 1 ≤ ts_day_of_week s ≤ 6
        ∧ (∃ p, p ∈ period_templates db ∧ pt_is_break p = false
                ∧ pt_period_number p = ts_period_number s
                ∧ pt_start_time p = ts_start_time s
                ∧ pt_end_time p = ts_end_time s)
        ∧ (∃ a sub, a ∈ faculty_assignments db ∧ fa_tenant_id a = Some t
                    ∧ fa_faculty_id a = ts_faculty_id s
                    ∧ fa_subject_id a = ts_subject_id s
                    ∧ sub ∈ subjects db ∧ sub_id sub = fa_subject_id a
                    ∧ sub_tenant_id sub = Some t
                    ∧ b_semester b = Some (sub_semester sub))
        ∧ (∀ r, ts_classroom_id s = Some r →
                ∃ room, room ∈ classrooms db ∧ room_id room = r
                        ∧ room_tenant_id room = Some t
                        ∧ room_is_available room = true).
Proof.
  intros Hrun.
  destruct (generate_timetable_caller _ _ _ _ _ _ Hrun) as (_ & t & Ht & _).
  apply generate_timetable_success in Hrun
    as (b & semester & st & Hb & Hsem & Hloop & _ & Hslots & _).
  apply query_batch_Some in Hb as [Hb _].
  exists t, b. split; [done|]. split; [done|]. rewrite Ht in Hloop.
  destruct (clear_existing_queries body (Some t) db semester
              (sub_id <$> query_subjects db (Some t) semester))
    as (Hqs & Hqa & Hqp & Hqr & _).
  rewrite Hqs, Hqa, Hqp, Hqr in Hloop.
  set (scheduled := query_assignments db (Some t)
         (sub_id <$> query_subjects db (Some t) semester)) in *.
  destruct (assignment_loop_appends insert_raises (Some t) (batch_id body)
              (query_rooms db (Some t)) scheduled (query_periods db (Some t))
              scheduled
              (mkRun (timetable_slots (clear_existing body (Some t) db))
                 (index_existing (query_existing (clear_existing body (Some t) db)
                                    (Some t))) []))
    as (new & _ & Hcr & Hnew); [done|].
  rewrite Hloop in Hcr. simpl in Hcr. rewrite Hslots, Hcr.
  intros s Hs. rewrite Forall_forall in Hnew.
  destruct (Hnew s Hs) as (H1 & H2 & H3 & Hday & (p & Hp & Hpn & Hps & Hpe)
                           & (a & Ha & Haf & Has) & Hroom).
  split; [done|]. split; [done|]. split; [done|]. split.
  { unfold days in Hday. rewrite !elem_of_cons, elem_of_nil in Hday. lia. }
  split.
  { apply query_periods_subset in Hp as [Hp Hbr]. exists p. done. }
  split.
  { apply query_assignments_spec in Ha as (Ha & Hat & Hsub).
    apply list_elem_of_fmap in Hsub as (sub & Hid & Hsub).
    apply query_subjects_spec in Hsub as (Hsub & Hst & Hsub_sem).
    exists a, sub. rewrite Hsem, Hsub_sem. done. }
  intros r Hr. destruct (Hroom r Hr) as (room & Hin & Hid).
  apply query_rooms_spec in Hin as (Hin & Hrt & Hav). exists room. done.
Qed.

Lemma generated_slots_shape_witness :
  ∃ res,
    (generate_timetable Sample.never_raises (mkTimetableGenerate "b1" false)
       Sample.admin_a1 (Sample.tt_hours_db (HoursValue 4))).2 = Success res
    ∧ ∀ s, s ∈ slots res →
        ts_tenant_id s = Some "t1" ∧ ts_batch_id s = "b1" ∧ 1 ≤ ts_day_of_week s ≤ 6.
Proof.
  destruct (generate_timetable Sample.never_raises (mkTimetableGenerate "b1" false)
              Sample.admin_a1 (Sample.tt_hours_db (HoursValue 4))) as [db' out] eqn:Hrun.
  assert (∃ res, out = Success res) as (res & ->).
  { vm_compute in Hrun. injection Hrun as _ <-. eexists. reflexivity. }
  destruct (generated_slots_shape _ _ _ _ _ _ Hrun) as (t & b & Ht & _ & Hshape).
  injection Ht as <-.
  exists res. split; [reflexivity|]. intros s Hs.
  destruct (Hshape s Hs) as (H1 & H2 & _ & H4 & _). done.
Defined.

(** X18: a successful run creates at most as many slots as the assignments
    on the subjects of the batch's semester ask hours for (nothing for a
    negative number), and the count it reports is the length of the list it
    returns. *)
Theorem generated_slots_bounded insert_raises body user db db' res :
  generate_timetable insert_raises body user db = (db', Success res) →
  ∃ t b semester,
    tenant_id user = Some t ∧ batches db !! batch_id body = Some b
    ∧ b_semester b = Some semester
    ∧ allocated_slots res = length (slots res)
    ∧ Z.of_nat (allocated_slots res)
      ≤ hours_asked
          (query_assignments db (Some t)
             (sub_id <$> query_subjects db (Some t) semester)).
Proof.
  intros Hrun.
  destruct (generate_timetable_caller _ _ _ _ _ _ Hrun) as (_ & t & Ht & _).
  apply generate_timetable_success in Hrun
    as (b & semester & st & Hb & Hsem & Hloop & _ & Hslots & Hcount & _).
  apply query_batch_Some in Hb as [Hb _].
  exists t, b, semester. split; [done|]. split; [done|]. split; [done|].
  rewrite Ht in Hloop.
  split; [by rewrite Hslots|].
  destruct (clear_existing_queries body (Some t) db semester
              (sub_id <$> query_subjects db (Some t) semester))
    as (Hqs & Hqa & _).
  rewrite Hqs, Hqa in Hloop.
  pose proof (assignment_loop_count insert_raises (Some t) (batch_id body)
                (query_rooms (clear_existing body (Some t) db) (Some t))
                (query_periods (clear_existing body (Some t) db) (Some t))
                (query_assignments db (Some t)
                   (sub_id <$> query_subjects db (Some t) semester))
                (mkRun (timetable_slots (clear_existing body (Some t) db))
                   (index_existing (query_existing (clear_existing body (Some t) db)
                                      (Some t))) [])) as Hle.
  rewrite Hloop in Hle. simpl in Hle. rewrite Hcount. lia.
Qed.

Lemma generated_slots_bounded_witness :
  ∃ res,
    (generate_timetable Sample.never_raises (mkTimetableGenerate "b1" false)
       Sample.admin_a1 (Sample.tt_hours_db (HoursValue 4))).2 = Success res
    ∧ Z.of_nat (allocated_slots res) ≤ 4.
Proof.
  destruct (generate_timetable Sample.never_raises (mkTimetableGenerate "b1" false)
              Sample.admin_a1 (Sample.tt_hours_db (HoursValue 4))) as [db' out] eqn:Hrun.
  assert (∃ res, out = Success res) as (res & ->).
  { vm_compute in Hrun. injection Hrun as _ <-. eexists. reflexivity. }
  destruct (generated_slots_bounded _ _ _ _ _ _ Hrun)
    as (t & b & semester & Ht & Hb & Hsem & _ & Hle).
  injection Ht as <-. vm_compute in Hb. injection Hb as <-.
  injection Hsem as <-.
  exists res. split; [reflexivity|]. exact Hle.
Defined.

Lemma clear_existing_table body tenant db :
  timetable_slots (clear_existing body tenant db)
  = if force_regenerate body
    then delete_where (λ s, sql_eq (ts_tenant_id s) tenant
                            && bool_decide (ts_batch_id s = batch_id body))
                      (timetable_slots db)
    else timetable_slots db.
Proof. unfold clear_existing. by destruct (force_regenerate body). Qed.

Lemma clear_existing_other_tables body tenant db :
  od_requests (clear_existing body tenant db) = od_requests db
  ∧ internal_marks (clear_existing body tenant db) = internal_marks db
  ∧ batch_students (clear_existing body tenant db) = batch_students db
  ∧ student_enrollments (clear_existing body tenant db) = student_enrollments db.
Proof. unfold clear_existing. by destruct (force_regenerate body). Qed.

(** X19: a call of the generator, whatever its outcome, writes to the slot
    table only, and only in two ways: with [force_regenerate], once the
    batch is found, it removes the slots of the caller's tenant and of the
    batch; and it appends slots of that tenant and batch at the end.  Every
    other stored slot stays where it was, and on success the appended slots
    are the returned ones. *)
Theorem generate_only_appends insert_raises body user db :
  let out := generate_timetable insert_raises body user db in
  let kept :=
    delete_where (λ s, sql_eq (ts_tenant_id s) (tenant_id user)
                       && bool_decide (ts_batch_id s = batch_id body))
                 (timetable_slots db) in
  (od_requests out.1 = od_requests db ∧ internal_marks out.1 = internal_marks db
   ∧ subjects out.1 = subjects db
   ∧ faculty_assignments out.1 = faculty_assignments db
   ∧ period_templates out.1 = period_templates db
   ∧ classrooms out.1 = classrooms db ∧ batches out.1 = batches db
   ∧ batch_students out.1 = batch_students db
   ∧ student_enrollments out.1 = student_enrollments db)
  ∧ ∃ new,
      (timetable_slots out.1 = timetable_slots db ++ new
       ∨ force_regenerate body = true ∧ timetable_slots out.1 = kept ++ new)
      ∧ (force_regenerate body = false →
         timetable_slots out.1 = timetable_slots db ++ new)
      ∧ (force_regenerate body = true → is_success out.2 = true →
         timetable_slots out.1 = kept ++ new)
      ∧ Forall (λ s, ts_tenant_id s = tenant_id user
                     ∧ ts_batch_id s = batch_id body) new
      ∧ ∀ res, out.2 = Success res → slots res = new.
Proof.
  intros out kept.
  assert (Hsame : ∀ o, is_success o = false →
    (od_requests db = od_requests db ∧ internal_marks db = internal_marks db
     ∧ subjects db = subjects db
     ∧ faculty_assignments db = faculty_assignments db
     ∧ period_templates db = period_templates db
     ∧ classrooms db = classrooms db ∧ batches db = batches db
     ∧ batch_students db = batch_students db
     ∧ student_enrollments db = student_enrollments db)
    ∧ ∃ new,
        (timetable_slots db = timetable_slots db ++ new
         ∨ force_regenerate body = true ∧ timetable_slots db = kept ++ new)
        ∧ (force_regenerate body = false →
           timetable_slots db = timetable_slots db ++ new)
        ∧ (force_regenerate body = true → is_success o = true →
           timetable_slots db = kept ++ new)
        ∧ Forall (λ s, ts_tenant_id s = tenant_id user
                       ∧ ts_batch_id s = batch_id body) new
        ∧ ∀ res, o = Success res → slots res = new).
  { intros o Ho. split; [done|]. exists []. rewrite !app_nil_r.
    split; [by left|]. split; [done|]. split; [by rewrite Ho|].
    split; [apply Forall_nil_2|]. intros res ->. done. }
  subst out. unfold generate_timetable.
  destruct (require_role _ user) as [u|] eqn:Hrole; [|by apply Hsame].
  apply require_role_inv in Hrole as [-> _].
  destruct (get_tenant_id user) as [tenant|] eqn:Hten; [|by apply Hsame].
  apply get_tenant_id_inv in Hten as ->.
  destruct (query_batch _ _ _) as [b|]; [|by apply Hsame].
  clear Hsame.
  set (db1 := clear_existing body (tenant_id user) db).
  destruct (clear_existing_fields body (tenant_id user) db)
    as (F1 & F2 & F3 & F4 & F5).
  destruct (clear_existing_other_tables body (tenant_id user) db) as (F6 & F7 & F8 & F9).
  pose proof (clear_existing_table body (tenant_id user) db) as Htab.
  fold db1 in F1, F2, F3, F4, F5, F6, F7, F8, F9, Htab. fold kept in Htab.
  assert (Hwiped : ∀ o, is_success o = false →
    (od_requests db1 = od_requests db ∧ internal_marks db1 = internal_marks db
     ∧ subjects db1 = subjects db
     ∧ faculty_assignments db1 = faculty_assignments db
     ∧ period_templates db1 = period_templates db
     ∧ classrooms db1 = classrooms db ∧ batches db1 = batches db
     ∧ batch_students db1 = batch_students db
     ∧ student_enrollments db1 = student_enrollments db)
    ∧ ∃ new,
        (timetable_slots db1 = timetable_slots db ++ new
         ∨ force_regenerate body = true ∧ timetable_slots db1 = kept ++ new)
        ∧ (force_regenerate body = false →
           timetable_slots db1 = timetable_slots db ++ new)
        ∧ (force_regenerate body = true → is_success o = true →
           timetable_slots db1 = kept ++ new)
        ∧ Forall (λ s, ts_tenant_id s = tenant_id user
                       ∧ ts_batch_id s = batch_id body) new
        ∧ ∀ res, o = Success res → slots res = new).
  { intros o Ho. split; [done|]. exists []. rewrite !app_nil_r, Htab.
    split; [destruct (force_regenerate body); [by right | by left]|].
    split; [by intros ->|]. split; [by rewrite Ho|].
    split; [apply Forall_nil_2|]. intros res ->. done. }
  destruct (sub_id <$> query_semester_subjects _ _ _) eqn:Hsub; [by apply Hwiped|].
  rewrite <- Hsub.
  destruct (query_periods _ _) eqn:Hper; [by apply Hwiped|]. rewrite <- Hper.
  clear Hwiped.
  set (scheduled := query_assignments db1 (tenant_id user)
         (sub_id <$> query_semester_subjects db1 (tenant_id user) (b_semester b))).
  destruct (assignment_loop_appends insert_raises (tenant_id user) (batch_id body)
              (query_rooms db1 (tenant_id user)) scheduled
              (query_periods db1 (tenant_id user)) scheduled
              (mkRun (timetable_slots db1)
                 (index_existing (query_existing db1 (tenant_id user))) []))
    as (new & Htable & Hcr & Hnew); [done|].
  destruct (assignment_loop _ _ _ _ _ _ _) as [st ok]. simpl in Htable, Hcr.
  assert (Hout : (od_requests (set_timetable_slots db1 (table st)) = od_requests db
     ∧ internal_marks (set_timetable_slots db1 (table st)) = internal_marks db
     ∧ subjects (set_timetable_slots db1 (table st)) = subjects db
     ∧ faculty_assignments (set_timetable_slots db1 (table st))
       = faculty_assignments db
     ∧ period_templates (set_timetable_slots db1 (table st)) = period_templates db
     ∧ classrooms (set_timetable_slots db1 (table st)) = classrooms db
     ∧ batches (set_timetable_slots db1 (table st)) = batches db
     ∧ batch_students (set_timetable_slots db1 (table st)) = batch_students db
     ∧ student_enrollments (set_timetable_slots db1 (table st)) = student_enrollments db)
    ∧ (timetable_slots (set_timetable_slots db1 (table st))
         = timetable_slots db ++ new
       ∨ force_regenerate body = true
         ∧ timetable_slots (set_timetable_slots db1 (table st)) = kept ++ new)
    ∧ (force_regenerate body = false →
       timetable_slots (set_timetable_slots db1 (table st))
       = timetable_slots db ++ new)
    ∧ (force_regenerate body = true →
       timetable_slots (set_timetable_slots db1 (table st)) = kept ++ new)
    ∧ Forall (λ s, ts_tenant_id s = tenant_id user
                   ∧ ts_batch_id s = batch_id body) new).
  { simpl. split; [done|]. rewrite Htable, Htab.
    split; [destruct (force_regenerate body); [by right | by left]|].
    split; [by intros ->|]. split; [by intros ->|].
    eapply Forall_impl; [exact Hnew|]. by intros x (? & ? & _). }
  destruct Hout as (Hf & Hd & Hnf & Hfo & Hall).
  destruct ok; cbn [fst snd].
  - split; [done|]. exists new. split; [done|]. split; [done|].
    split; [by intros ? _; apply Hfo|]. split; [done|].
    intros res [= <-]. by rewrite Hcr.
  - split; [done|]. exists new. split; [done|]. split; [done|].
    split; [done|]. split; [done|]. intros res [=].
Qed.

(** X20: once the batch with its semester, the subjects of that semester
    and the periods are there, the outcome is decided by the
    [hours_per_week] column alone: the run succeeds when no scheduled
    assignment holds a NULL there, and answers 500 otherwise; in both cases
    the table it leaves is the table after the optional wipe followed by the
    slots it placed. *)
Theorem generate_null_hours insert_raises body user db t b semester :
  role user = "admin" → tenant_id user = Some t → t ≠ "" →
  batches db !! batch_id body = Some b → b_tenant_id b = Some t →
  b_semester b = Some semester →
  query_subjects db (Some t) semester ≠ [] →
  query_periods db (Some t) ≠ [] →
  let scheduled :=
    query_assignments db (Some t)
      (sub_id <$> query_subjects db (Some t) semester) in
  let out := generate_timetable insert_raises body user db in
  (is_success out.2 = true
   ↔ ∀ a, a ∈ scheduled → fa_hours_per_week a ≠ HoursNull)
  ∧ (is_success out.2 = false → ∃ d, out.2 = HTTPException 500 d)
  ∧ ∃ new,
      timetable_slots out.1
      = timetable_slots (clear_existing body (Some t) db) ++ new.
Proof.
  intros Hrole Ht Hne Hb Hbt Hsem Hsubs Hpers scheduled out. subst out.
  unfold generate_timetable.
  rewrite (require_role_ok ["admin"] user) by (rewrite Hrole; apply list_elem_of_here).
  rewrite (get_tenant_id_ok _ _ Ht Hne).
  unfold query_batch. rewrite Hb, Hbt, sql_eq_refl, Hsem.
  cbn [query_semester_subjects].
  destruct (clear_existing_queries body (Some t) db semester
              (sub_id <$> query_subjects db (Some t) semester))
    as (Hqs & Hqa & Hqp & _).
  rewrite Hqs, Hqa, Hqp. fold scheduled.
  destruct (sub_id <$> query_subjects db (Some t) semester)
    as [|i ids] eqn:Hids.
  { apply fmap_nil_inv in Hids. done. }
  destruct (query_periods db (Some t)) as [|p ps] eqn:Hper; [done|].
  rewrite <- Hper.
  set (db1 := clear_existing body (Some t) db).
  set (st0 := mkRun (timetable_slots db1)
                (index_existing (query_existing db1 (Some t))) []).
  pose proof (assignment_loop_ok insert_raises (Some t) (batch_id body)
                (query_rooms db1 (Some t)) (query_periods db (Some t))
                scheduled st0) as Hok.
  destruct (assignment_loop_appends insert_raises (Some t) (batch_id body)
              (query_rooms db1 (Some t)) scheduled (query_periods db (Some t))
              scheduled st0) as (new & Htable & _); [done|].
  destruct (assignment_loop _ _ _ _ _ _ _) as [st ok]. simpl in Hok, Htable.
  destruct ok; cbn [fst snd is_success].
  - split; [done|]. split; [done|]. exists new. done.
  - split; [|split; [eauto | by exists new]].
    rewrite <- Hok. done.
Qed.

Lemma generate_null_hours_witness :
  let out :=
    generate_timetable Sample.never_raises (mkTimetableGenerate "b1" false)
      Sample.admin_a1
      (mkDb ∅ [] [] [mkSubject "s2" (Some "t1") "p1" 3] []
         {[ "b1" := mkBatch (Some "t1") "p1" (Some 3) ]}
         [mkFacultyAssignment (Some "t1") "f1" "s2" (HoursValue 1);
          mkFacultyAssignment (Some "t1") "f2" "s2" HoursNull]
         [Sample.period 1] [] []) in
  is_success out.2 = false ∧ ∃ d, out.2 = HTTPException 500 d.
Proof.
  intros out.
  destruct (generate_null_hours Sample.never_raises (mkTimetableGenerate "b1" false)
              Sample.admin_a1
              (mkDb ∅ [] [] [mkSubject "s2" (Some "t1") "p1" 3] []
                 {[ "b1" := mkBatch (Some "t1") "p1" (Some 3) ]}
                 [mkFacultyAssignment (Some "t1") "f1" "s2" (HoursValue 1);
                  mkFacultyAssignment (Some "t1") "f2" "s2" HoursNull]
                 [Sample.period 1] [] [])
              "t1" (mkBatch (Some "t1") "p1" (Some 3)) 3)
    as (Hiff & H500 & _).
  - reflexivity.
  - reflexivity.
  - discriminate.
  - vm_compute. reflexivity.
  - reflexivity.
  - reflexivity.
  - vm_compute. discriminate.
  - vm_compute. discriminate.
  - fold out in Hiff, H500.
    assert (Hfail : is_success out.2 = false).
    { apply not_true_is_false. intros Hs.
      apply (proj1 Hiff Hs (mkFacultyAssignment (Some "t1") "f2" "s2" HoursNull));
        [|reflexivity].
      apply query_assignments_spec.
      split; [apply list_elem_of_further, list_elem_of_here|].
      split; [reflexivity|]. apply list_elem_of_fmap.
      exists (mkSubject "s2" (Some "t1") "p1" 3). split; [reflexivity|].
      apply query_subjects_spec. split; [apply list_elem_of_here|].
      split; reflexivity. }
    split; [exact Hfail | exact (H500 Hfail)].
Defined.

(** ** Timetable generation: the periods of a run *)

Lemma by_period_number_total : Total by_period_number.
Proof. intros p q. unfold by_period_number. lia. Qed.

Lemma by_period_number_trans : Transitive by_period_number.
Proof. intros p q r. unfold by_period_number. lia. Qed.

(** X21: the periods a run scans are the non-break period templates of the
    caller's tenant or, when the tenant has none, the non-break templates
    of every tenant in the table; either way they come in ascending order
    of period number, each stored row once. *)
Theorem query_periods_order db tenant :
  let own :=
    select_where (λ p, sql_eq (pt_tenant_id p) tenant && negb (pt_is_break p))
                 (period_templates db) in
  let shared := select_where (λ p, negb (pt_is_break p)) (period_templates db) in
  query_periods db tenant ≡ₚ match own with [] => shared | _ => own end
  ∧ StronglySorted by_period_number (query_periods db tenant).
Proof.
  intros own shared. unfold query_periods. fold own shared.
  pose proof by_period_number_total as Htotal.
  pose proof by_period_number_trans as Htrans.
  destruct own as [|p own'] eqn:Hown.
  - assert (Hnil : merge_sort by_period_number [] = @nil PeriodTemplate) by done.
    rewrite Hnil. split.
    + apply merge_sort_Permutation.
    + apply StronglySorted_merge_sort; apply _.
  - destruct (merge_sort by_period_number (p :: own')) as [|q sorted] eqn:Hs.
    + pose proof (merge_sort_Permutation by_period_number (p :: own')) as Hp.
      rewrite Hs in Hp. by apply Permutation_nil_cons in Hp.
    + rewrite <- Hs. split.
      * apply merge_sort_Permutation.
      * apply StronglySorted_merge_sort; apply _.
Qed.

(** ** The timetable grid *)

Lemma grid_at_put grid s d p :
  grid_at (grid_put grid s) d p
  = if decide (ts_day_of_week s = d ∧ ts_period_number s = p) then Some s
    else grid_at grid d p.
Proof.
  unfold grid_at, grid_put.
  set (g' := if decide (is_Some (grid !! ts_day_of_week s)) then grid
             else <[ts_day_of_week s := ∅]> grid).
  destruct (decide (ts_day_of_week s = d ∧ ts_period_number s = p))
    as [[<- <-] | Hcell].
  - by rewrite !lookup_insert_eq.
  - destruct (decide (ts_day_of_week s = d)) as [<- | Hd].
    + rewrite lookup_insert_eq, lookup_insert_ne by tauto.
      subst g'.
      destruct (decide (is_Some (grid !! ts_day_of_week s))) as [[row Hrow] | Hno].
      * by rewrite Hrow.
      * rewrite lookup_insert_eq. simpl.
        destruct (grid !! ts_day_of_week s) as [row|] eqn:Hrow; [|done].
        destruct Hno. by eexists.
    + rewrite lookup_insert_ne by done. subst g'.
      destruct (decide (is_Some (grid !! ts_day_of_week s))); [done|].
      by rewrite lookup_insert_ne.
Qed.

(** X22: the grid built from the rows of a timetable query holds, at each
    (day, period), the last row of the query result for that cell, and
    nothing at a cell that no row has: rows that share a cell are not all in
    the grid, only the last of them is. *)
Theorem grid_keeps_last_row data d p :
  grid_at (build_grid data) d p
  = last (filter (λ s, ts_day_of_week s = d ∧ ts_period_number s = p) data).
Proof.
  unfold build_grid. induction data as [|s data IH] using rev_ind.
  - done.
  - rewrite foldl_app. simpl. rewrite grid_at_put, filter_app.
    destruct (decide _) as [Hcell | Hcell].
    + rewrite filter_cons_True, filter_nil by done. by rewrite last_snoc.
    + rewrite filter_cons_False, filter_nil by done. by rewrite app_nil_r.
Qed.

(** ** The attendance tally *)

Lemma filter_none {A} (P : A → Prop) `{∀ x, Decision (P x)} (l : list A) :
  (∀ x, x ∈ l → ¬ P x) → filter P l = [].
Proof.
  induction l as [|a l IH]; intros Hno; [done|].
  rewrite filter_cons_False by apply Hno, list_elem_of_here.
  apply IH. intros x Hx. by apply Hno, list_elem_of_further.
Qed.

Lemma tally_step_lookup stats rec sid :
  tally_step stats rec !! sid
  = if decide (at_subject_id rec = sid)
    then
      let st := default (mkSubjectStats 0 0 (at_subject_name rec) (at_subject_code rec))
                        (stats !! sid) in
      Some (if decide (counts_as_present rec) then add_present (add_total st)
            else add_total st)
    else stats !! sid.
Proof.
  unfold tally_step.
  set (stats1 := if decide (is_Some (stats !! at_subject_id rec)) then stats
                 else <[at_subject_id rec :=
                          mkSubjectStats 0 0 (at_subject_name rec) (at_subject_code rec)]>
                        stats).
  assert (H1 : ∀ k, stats1 !! k
                    = if decide (at_subject_id rec = k)
                      then Some (default (mkSubjectStats 0 0 (at_subject_name rec)
                                            (at_subject_code rec)) (stats !! k))
                      else stats !! k).
  { intros k. subst stats1. destruct (decide (at_subject_id rec = k)) as [<- | Hk].
    - destruct (decide (is_Some _)) as [[st Hst] | Hno].
      + by rewrite Hst.
      + rewrite lookup_insert_eq.
        destruct (stats !! at_subject_id rec) eqn:Hst; [|done].
        destruct Hno. by eexists.
    - destruct (decide (is_Some _)); [done|]. by rewrite lookup_insert_ne. }
  destruct (decide (at_subject_id rec = sid)) as [<- | Hk].
  - destruct (decide (counts_as_present rec)).
    + rewrite !lookup_alter_eq, H1. by rewrite decide_True.
    + rewrite lookup_alter_eq, H1. by rewrite decide_True.
  - destruct (decide (counts_as_present rec)).
    + rewrite !lookup_alter_ne, H1 by done. by rewrite decide_False.
    + rewrite lookup_alter_ne, H1 by done. by rewrite decide_False.
Qed.

(** X23: the tally of a student's attendance records has one entry for each
    subject that occurs in them and none for any other; the entry counts the
    records of the subject as [total] and those marked present or od as
    [present].  So [total] is never 0 in an entry and [present] never
    exceeds it. *)
Theorem attendance_tally_counts data sid :
  match tally data !! sid with
  | None => ∀ rec, rec ∈ data → at_subject_id rec ≠ sid
  | Some st =>
      st_total st = length (filter (λ rec, at_subject_id rec = sid) data)
      ∧ st_present st
        = length (filter (λ rec, at_subject_id rec = sid ∧ counts_as_present rec) data)
      ∧ (0 < st_total st)%nat ∧ (st_present st ≤ st_total st)%nat
  end.
Proof.
  unfold tally. induction data as [|rec data IH] using rev_ind.
  - simpl. rewrite lookup_empty. by intros rec ?%elem_of_nil.
  - rewrite foldl_app. simpl. rewrite tally_step_lookup, !filter_app, !length_app.
    destruct (decide (at_subject_id rec = sid)) as [Hsid | Hsid].
    + rewrite (filter_cons_True (λ rec, at_subject_id rec = sid)) by done.
      rewrite filter_nil. cbn [length].
      assert (Hbase : ∃ st0,
                default (mkSubjectStats 0 0 (at_subject_name rec) (at_subject_code rec))
                        (foldl tally_step ∅ data !! sid) = st0
                ∧ st_total st0 = length (filter (λ rec, at_subject_id rec = sid) data)
                ∧ st_present st0
                  = length (filter (λ rec, at_subject_id rec = sid
                                           ∧ counts_as_present rec) data)
                ∧ (st_present st0 ≤ st_total st0)%nat).
      { destruct (foldl tally_step ∅ data !! sid) as [st|].
        - exists st. destruct IH as (? & ? & ? & ?). done.
        - eexists. split; [done|].
          rewrite !filter_none; [simpl; lia | |].
          + intros x Hx [Hs _]. exact (IH x Hx Hs).
          + intros x Hx Hs. exact (IH x Hx Hs). }
      destruct Hbase as (st0 & -> & Ht & Hp & Hle).
      destruct (decide (counts_as_present rec)) as [Hpres | Hpres].
      * rewrite filter_cons_True, filter_nil by done. simpl. lia.
      * rewrite filter_cons_False, filter_nil by tauto. simpl. lia.
    + rewrite (filter_cons_False (λ rec, at_subject_id rec = sid)) by done.
      rewrite filter_cons_False, !filter_nil by tauto. cbn [length].
      rewrite !Nat.add_0_r.
      destruct (foldl tally_step ∅ data !! sid) as [st|].
      * done.
      * intros x [Hx | ->%list_elem_of_singleton]%elem_of_app; [by apply IH | done].
Qed.

(** ** Timetable generation: the choice of a room *)

Lemma by_capacity_desc_total : Total by_capacity_desc.
Proof. intros p q. unfold by_capacity_desc. lia. Qed.

Lemma by_capacity_desc_trans : Transitive by_capacity_desc.
Proof. intros p q r. unfold by_capacity_desc. lia. Qed.

(** The room loop stops at the first room of the list that is free. *)
Lemma find_room_first rooms occupied day pnum r :
  find_room rooms occupied day pnum = Some r →
  ∃ before room after,
    rooms = before ++ room :: after ∧ room_id room = r
    ∧ (occ_key r day pnum ∉ occupied)
    ∧ ∀ x, x ∈ before → occ_key (room_id x) day pnum ∈ occupied.
Proof.
  induction rooms as [|room rooms IH]; simpl; [done|].
  destruct (decide _) as [Hfree | Hbusy].
  - intros [= <-]. exists [], room, rooms. split; [done|]. split; [done|].
    split; [done|]. by intros x ?%elem_of_nil.
  - intros Hfind. destruct (IH Hfind) as (before & room' & after & -> & Hid & Hr & Hb).
    exists (room :: before), room', after. split; [done|]. split; [done|].
    split; [done|]. intros x [-> | Hx]%elem_of_cons; [|by apply Hb].
    destruct (decide (occ_key (room_id room) day pnum ∈ occupied)); [done|].
    by destruct Hbusy.
Qed.

Lemma find_room_None rooms occupied day pnum :
  find_room rooms occupied day pnum = None →
  ∀ x, x ∈ rooms → occ_key (room_id x) day pnum ∈ occupied.
Proof.
  induction rooms as [|room rooms IH]; simpl.
  - by intros _ x ?%elem_of_nil.
  - destruct (decide _) as [Hfree | Hbusy]; [done|].
    intros Hfind x [-> | Hx]%elem_of_cons; [|by apply IH].
    destruct (decide (occ_key (room_id room) day pnum ∈ occupied)); [done|].
    by destruct Hbusy.
Qed.

(** X24: the room a run gives to a cell is an available classroom of the
    tenant that is free at the cell and has the largest capacity among
    those that are; a slot is left without a room only when every available
    classroom of the tenant is taken at the cell. *)
Theorem largest_free_room db t occupied day pnum :
  match find_room (query_rooms db (Some t)) occupied day pnum with
  | Some r =>
      ∃ room, room ∈ classrooms db ∧ room_tenant_id room = Some t
        ∧ room_is_available room = true ∧ room_id room = r
        ∧ (occ_key r day pnum ∉ occupied)
        ∧ ∀ other, other ∈ classrooms db → room_tenant_id other = Some t →
            room_is_available other = true →
            occ_key (room_id other) day pnum ∉ occupied →
            room_capacity other ≤ room_capacity room
  | None =>
      ∀ other, other ∈ classrooms db → room_tenant_id other = Some t →
        room_is_available other = true →
        occ_key (room_id other) day pnum ∈ occupied
  end.
Proof.
  destruct (find_room _ _ _ _) as [r|] eqn:Hfind.
  - destruct (find_room_first _ _ _ _ _ Hfind)
      as (before & room & after & Hrooms & Hid & Hfree & Hbefore).
    assert (Hin : room ∈ query_rooms db (Some t)).
    { rewrite Hrooms, elem_of_app, elem_of_cons. tauto. }
    apply query_rooms_spec in Hin as (Hin & Hten & Hav).
    exists room. split; [done|]. split; [done|]. split; [done|]. split; [done|].
    split; [done|]. intros other Ho Hot Hoa Hofree.
    assert (Hsorted : StronglySorted by_capacity_desc (query_rooms db (Some t))).
    { unfold query_rooms. apply StronglySorted_merge_sort.
      - apply by_capacity_desc_trans.
      - apply by_capacity_desc_total. }
    assert (Hoin : other ∈ query_rooms db (Some t)) by by apply query_rooms_spec.
    rewrite Hrooms in Hsorted, Hoin.
    apply StronglySorted_app_1_r in Hsorted.
    apply StronglySorted_inv in Hsorted as [_ Hafter].
    rewrite Forall_forall in Hafter.
    rewrite elem_of_app, elem_of_cons in Hoin.
    destruct Hoin as [Hb | [-> | Ha]].
    + by destruct Hofree; apply Hbefore.
    + lia.
    + by apply Hafter.
  - intros other Ho Hot Hoa.
    apply (find_room_None _ _ _ _ Hfind). by apply query_rooms_spec.
Qed.

(** ** Timetable generation: a batch without a semester *)

(** A batch whose semester is NULL has no subject to schedule: the run
    answers 400, after the optional wipe of the batch's slots. *)
Lemma generate_timetable_null_semester insert_raises body user db t b :
  role user = "admin" → tenant_id user = Some t → t ≠ "" →
  batches db !! batch_id body = Some b → b_tenant_id b = Some t →
  b_semester b = None →
  generate_timetable insert_raises body user db
  = (clear_existing body (Some t) db,
     HTTPException 400 "No subjects found for this batch's semester").
Proof.
  intros Hrole Ht Hne Hb Hbt Hsem. unfold generate_timetable.
  rewrite (require_role_ok ["admin"] user) by (rewrite Hrole; apply list_elem_of_here).
  rewrite (get_tenant_id_ok _ _ Ht Hne).
  unfold query_batch. by rewrite Hb, Hbt, sql_eq_refl, Hsem.
Qed.
